(** * Box scanner strategy: a shallow embedding of [box_strategy.py]

    The development follows the Python module function by function.
    Dynamically typed data coming from the provider (the JSON body of a
    search response) is kept dynamically typed: a [json] value, with the
    Python operations the code applies to it ([.get], truthiness,
    iteration, [len], [==], [<]) written out together with the exceptions
    they raise and the texts of these exceptions.  Instance attributes of
    [BoxStrategy], the scan order that [_save_scan_state] mutates and the
    outside world (clock, sleeps, HTTP requests issued, cursors handed to
    the persistence adapter) are passed explicitly.  Strings are UTF-8
    encoded text. *)

From Stdlib Require Import ZArith QArith List String Ascii Bool Lia.
From Stdlib Require Import DecimalString.
Import ListNotations.

Local Open Scope string_scope.
Local Open Scope Z_scope.

(** ** Exceptions and outcomes *)

(** The exceptions the module meets.  Each carries the text [str(e)]
    returns for it, which the handlers format into their messages.
    [BoxAPIException] carries the HTTP status as well; in the SDK it
    derives from [BoxException], and everything derives from
    [Exception].  [OtherError] stands for an exception of any other class
    [what]. *)
Inductive exn : Type :=
| BoxAPIException (status : Z) (text : string)
| BoxException (text : string)
| AttributeError (text : string)
| TypeError (text : string)
| KeyError (text : string)
| IndexError (text : string)
| OtherError (what text : string).

(** [str(e)] *)
Definition str_exn (e : exn) : string :=
  match e with
  | BoxAPIException _ text => text
  | BoxException text => text
  | AttributeError text => text
  | TypeError text => text
  | KeyError text => text
  | IndexError text => text
  | OtherError _ text => text
  end.

(** Outcome of a Python call: a value, or a raised exception. *)
Inductive result (A : Type) : Type :=
| Ok (a : A)
| Err (e : exn).
Arguments Ok {A} a.
Arguments Err {A} e.

Definition rbind {A B : Type} (r : result A) (k : A -> result B) : result B :=
  match r with
  | Ok a => k a
  | Err e => Err e
  end.

Declare Scope result_scope.
Delimit Scope result_scope with res.
Notation "'let?' x ':=' r 'in' k" := (rbind r (fun x => k))
  (at level 10, x pattern, r at level 100, k at level 200) : result_scope.

(** ** JSON values and the Python operations applied to them *)

#[local] Set Warnings "-register-all".

(** A decoded JSON document.  Objects are association lists in document
    order; numbers are the integers (the provider reports counts and
    sizes as integers). *)
Inductive json : Type :=
| JNull
| JBool (b : bool)
| JInt (z : Z)
| JStr (s : string)
| JList (l : list json)
| JDict (d : list (string * json)).

Fixpoint assoc {A : Type} (k : string) (d : list (string * A)) : option A :=
  match d with
  | [] => None
  | (k', v) :: d' => if String.eqb k k' then Some v else assoc k d'
  end.

(** [type(v).__name__], as the interpreter prints it in its messages. *)
Definition type_name (v : json) : string :=
  match v with
  | JNull => "NoneType"
  | JBool _ => "bool"
  | JInt _ => "int"
  | JStr _ => "str"
  | JList _ => "list"
  | JDict _ => "dict"
  end.

(** What [v.attr] raises when [v] has no such attribute. *)
Definition no_attribute (v : json) (attr : string) : exn :=
  AttributeError ("'" ++ type_name v ++ "' object has no attribute '" ++ attr ++ "'").

(** [v.get(k, dflt)]: defined on dicts only. *)
Definition py_get (v : json) (k : string) (dflt : json) : result json :=
  match v with
  | JDict d => Ok (match assoc k d with Some x => x | None => dflt end)
  | _ => Err (no_attribute v "get")
  end.

(** [bool(v)] *)
Definition truthy (v : json) : bool :=
  match v with
  | JNull => false
  | JBool b => b
  | JInt z => negb (z =? 0)
  | JStr s => negb (String.eqb s "")
  | JList l => match l with [] => false | _ => true end
  | JDict d => match d with [] => false | _ => true end
  end.

(** A continuation byte of a UTF-8 sequence: [10xxxxxx]. *)
Definition continuation (c : ascii) : bool :=
  let n := nat_of_ascii c in (Nat.leb 128 n && Nat.ltb n 192)%bool.

Definition starts_with_continuation (s : string) : bool :=
  match s with
  | String c _ => continuation c
  | EmptyString => false
  end.

(** The characters of a string: each is a byte that is no continuation
    byte, together with the continuation bytes behind it. *)
Fixpoint utf8_chars (s : string) : list string :=
  match s with
  | EmptyString => []
  | String c s' =>
      match utf8_chars s' with
      | p :: ps =>
          if starts_with_continuation s' then String c p :: ps
          else String c EmptyString :: p :: ps
      | [] => [String c EmptyString]
      end
  end.

Definition chars (s : string) : list json := map JStr (utf8_chars s).

(** The elements [for x in v] visits. *)
Definition py_iter (v : json) : result (list json) :=
  match v with
  | JList l => Ok l
  | JStr s => Ok (chars s)
  | JDict d => Ok (map (fun kv => JStr (fst kv)) d)
  | _ => Err (TypeError ("'" ++ type_name v ++ "' object is not iterable"))
  end.

(** [len(v)] *)
Definition py_len (v : json) : result Z :=
  match v with
  | JList l => Ok (Z.of_nat (List.length l))
  | JStr s => Ok (Z.of_nat (List.length (utf8_chars s)))
  | JDict d => Ok (Z.of_nat (List.length d))
  | _ => Err (TypeError ("object of type '" ++ type_name v ++ "' has no len()"))
  end.

(** [v[0]]; the keys of a decoded JSON object are strings, so that an
    object has no key [0]. *)
Definition py_first (v : json) : result json :=
  match v with
  | JList (x :: _) => Ok x
  | JList [] => Err (IndexError "list index out of range")
  | JStr s => match utf8_chars s with
              | c :: _ => Ok (JStr c)
              | [] => Err (IndexError "string index out of range")
              end
  | JDict _ => Err (KeyError "0")
  | _ => Err (TypeError ("'" ++ type_name v ++ "' object is not subscriptable"))
  end.

(** [v == s] for a string literal [s] *)
Definition py_eq_str (v : json) (s : string) : bool :=
  match v with
  | JStr s' => String.eqb s' s
  | _ => false
  end.

(** [n < v] for an int [n]: ints and bools are ordered with ints,
    anything else is a [TypeError]. *)
Definition py_int_lt (n : Z) (v : json) : result bool :=
  match v with
  | JInt z => Ok (n <? z)
  | JBool b => Ok (n <? (if b then 1 else 0))
  | _ => Err (TypeError ("'<' not supported between instances of 'int' and '"
                         ++ type_name v ++ "'"))
  end.

(** ** Strings *)

(** [s.split(sep)] for a one-character separator. *)
Fixpoint split (sep : ascii) (s : string) : list string :=
  match s with
  | EmptyString => [EmptyString]
  | String c s' =>
      if Ascii.eqb c sep then EmptyString :: split sep s'
      else match split sep s' with
           | [] => [String c EmptyString]
           | p :: ps => String c p :: ps
           end
  end.

(** [sep.join(parts)] *)
Fixpoint join (sep : string) (parts : list string) : string :=
  match parts with
  | [] => ""
  | [p] => p
  | p :: ps => p ++ sep ++ join sep ps
  end.

(** [s.replace(pat, rep)]: leftmost, non-overlapping occurrences.  [skip]
    counts the characters of a match still to be dropped. *)
Fixpoint replace_from (pat rep : string) (skip : nat) (s : string) : string :=
  match s with
  | EmptyString => EmptyString
  | String c s' =>
      match skip with
      | S k => replace_from pat rep k s'
      | O =>
          if (prefix pat s && negb (String.eqb pat ""))%bool
          then rep ++ replace_from pat rep (String.length pat - 1) s'
          else String c (replace_from pat rep O s')
      end
  end.

Definition replace (pat rep s : string) : string := replace_from pat rep O s.

(** [str(n)] for a non-negative int. *)
Definition str_int (n : Z) : string := NilZero.string_of_int (Z.to_int n).
(** ** Metadata normalisation *)

Definition extension_to_mime : list (string * string) :=
  [ ("pdf", "application/pdf");
    ("doc", "application/msword");
    ("docx", "application/vnd.openxmlformats-officedocument.wordprocessingml.document");
    ("xls", "application/vnd.ms-excel");
    ("xlsx", "application/vnd.openxmlformats-officedocument.spreadsheetml.sheet");
    ("ppt", "application/vnd.ms-powerpoint");
    ("pptx", "application/vnd.openxmlformats-officedocument.presentationml.presentation");
    ("txt", "text/plain");
    ("csv", "text/csv");
    ("jpg", "image/jpeg");
    ("jpeg", "image/jpeg");
    ("png", "image/png");
    ("gif", "image/gif");
    ("html", "text/html");
    ("htm", "text/html");
    ("json", "application/json");
    ("xml", "application/xml");
    ("zip", "application/zip") ].

(** The body of the [for entry in entries] loop of [_build_folder_path],
    with [folder_names] as accumulator. *)
Fixpoint folder_names_loop (entries : list json) (folder_names : list json)
  : result (list json) :=
  match entries with
  | [] => Ok folder_names
  | entry :: rest =>
      (let? folder_id := py_get entry "id" JNull in
       let? folder_name := py_get entry "name" JNull in
       if (py_eq_str folder_id "0" && py_eq_str folder_name "All Files")%bool
       then folder_names_loop rest folder_names
       else if truthy folder_name
            then folder_names_loop rest (folder_names ++ [folder_name])
            else folder_names_loop rest folder_names)%res
  end.

(** [str.join] raises [TypeError] on an element that is no string; [i]
    is the position of the first element of [l] in the sequence. *)
Fixpoint strings_from (i : Z) (l : list json) : result (list string) :=
  match l with
  | [] => Ok []
  | JStr s :: l' => (let? ss := strings_from (i + 1) l' in Ok (s :: ss))%res
  | v :: _ =>
      Err (TypeError ("sequence item " ++ str_int i ++ ": expected str instance, "
                      ++ type_name v ++ " found"))
  end.

Definition strings_of (l : list json) : result (list string) := strings_from 0 l.

(** [_build_folder_path(path_collection)] *)
Definition _build_folder_path (path_collection : json) : result string :=
  if negb (truthy path_collection) then Ok "/"
  else
    (let? e := py_get path_collection "entries" JNull in
     if negb (truthy e) then Ok "/"
     else
       let? entries := py_get path_collection "entries" (JList []) in
       let? entry_list := py_iter entries in
       let? folder_names := folder_names_loop entry_list [] in
       match folder_names with
       | [] => Ok "/"
       | _ => let? names := strings_of folder_names in
              Ok ("/" ++ join "/" names)
       end)%res.

(** ** Records of the engine *)

Definition Time : Type := Q.

(** The parameters of one search request: [type] and [fields] are the
    same on every request and are left out. *)
Record SearchParams : Type := {
  query : string;
  updated_at_range : option string;
  limit : Z;
  offset : Z
}.

(** An SDK response object: what [response.json()] does.  A response
    object is always truthy. *)
Record Response : Type := {
  resp_json : result json
}.

(** The authenticated client.  [make_request c params k] is the outcome of
    the search request [params] when [k] requests were issued before it:
    a response, [None], or a raised exception. *)
Record BoxClient : Type := {
  make_request : SearchParams -> nat -> result (option Response)
}.

(** The [FileMetadata] class is imported from elsewhere; its constructor
    is taken to store its ten keyword arguments. *)
Record FileMetadata : Type := {
  fm_id : json;
  fm_name : json;
  fm_source : string;
  fm_last_modified : json;
  fm_created_time : json;
  fm_size : json;
  fm_mime_type : string;
  fm_web_view_link : json;
  fm_parent_folder_id : json;
  fm_folder_path : string
}.

Record ScanStats : Type := {
  st_files_count : Z;
  st_last_scan_batch_at : Time;
  st_scan_started_at : option Time;
  st_scan_completed_at : option Time;
  st_api_calls_made : Z;
  st_api_errors_encountered : Z
}.

Record ScanResult : Type := {
  files : list FileMetadata;
  is_completed : bool;
  stats : ScanStats;
  updated_credentials : json;
  error : option string
}.

(** The cursor blob [{"current_offset": ..., "last_updated": ...}]; a key
    may be absent. *)
Record Cursor : Type := {
  c_current_offset : option Z;
  c_last_updated : option Time
}.

Definition empty_cursor : Cursor :=
  {| c_current_offset := None; c_last_updated := None |}.

(** [bool(cursor_data)]: a dict is truthy when it has a key. *)
Definition cursor_truthy (c : Cursor) : bool :=
  match c_current_offset c, c_last_updated c with
  | None, None => false
  | _, _ => true
  end.

Record ScanMetadata : Type := {
  cursor : option Cursor
}.

(** The scan order, in the shape [ScanOrderDict] declares: it has an id,
    and its scan metadata, when present, is a dict. *)
Record ScanOrder : Type := {
  so_id : string;
  scan_type : option string;
  scanned_from : option string;
  scan_metadata : option ScanMetadata
}.

Record Metadata : Type := {
  folder_id : option string
}.

Record DataSource : Type := {
  ds_id : string;
  auth_type : option string;
  metadata : option Metadata
}.

(** What an authentication handler returns on success. *)
Record AuthResult : Type := {
  service : option BoxClient;
  auth_updated_credentials : json
}.

(** The attributes of a [BoxStrategy] instance the scan reads or writes. *)
Record BoxStrategy : Type := {
  processed_files_count : Z;
  box_client : option BoxClient;
  current_offset : Z;
  _api_error_occurred : bool;
  api_calls_count : Z;
  api_errors_count : Z;
  scan_started_at : option Time;
  scan_completed_at : option Time;
  last_scan_batch_at : option Time
}.

(** [BoxStrategy.__init__] *)
Definition __init__ : BoxStrategy :=
  {| processed_files_count := 0;
     box_client := None;
     current_offset := 0;
     _api_error_occurred := false;
     api_calls_count := 0;
     api_errors_count := 0;
     scan_started_at := None;
     scan_completed_at := None;
     last_scan_batch_at := None |}.


(** The world outside the process.  [clock k] is the value the call
    number [k] of [time.time()] returns and [reads] the number of calls
    made so far; nothing is assumed about the values.  [sleeps] holds the
    delays slept so far, [requests] the number of search requests issued,
    and [persisted] the cursors handed to
    [ScanOrderAdapter.update_scan_metadata], oldest first, whatever the
    adapter answered. *)
Record World : Type := {
  clock : nat -> Time;
  reads : nat;
  sleeps : list Q;
  requests : nat;
  persisted : list (string * Cursor)
}.

(** The value the next call of [time.time()] returns. *)
Definition now (w : World) : Time := clock w (reads w).

(** The world after one call of [time.time()]. *)
Definition tick (w : World) : World :=
  {| clock := clock w; reads := S (reads w); sleeps := sleeps w;
     requests := requests w; persisted := persisted w |}.

(** Code of the repository, of the SDK and of the language that this
    module calls but does not define.  [RETRY_DELAY] is the class constant
    read by [_execute_with_retry], a non-negative number of seconds.
    [update_scan_metadata id cursor k] is the outcome of
    [ScanOrderAdapter.update_scan_metadata(id, {"cursor": cursor})] when
    [k] calls of it were made before: it returns (a value the module does
    not look at) or raises.  [str_lower] is [str.lower]. *)
Record Env : Type := {
  RETRY_DELAY : Q;
  get_auth_handler : string -> option (DataSource -> result (option AuthResult));
  get_last_completed_scan_timestamp : string -> result (option string);
  update_scan_metadata : string -> Cursor -> nat -> result unit;
  format_to_rfc3339_box : string -> result string;
  str_lower : string -> string
}.

Definition MAX_BATCH_SIZE : Z := 300.
Definition RATE_LIMIT_DELAY : Q := 1 # 2.
Definition MAX_RETRIES : nat := 3.

(** ** The state the methods run in *)

Record Machine : Type := {
  self : BoxStrategy;
  order : ScanOrder;
  world : World
}.

(** A method body: it runs from a state to an outcome and the state it
    left behind.  Writes made before an exception was raised stay. *)
Definition M (A : Type) : Type := Machine -> result A * Machine.

Definition ret {A : Type} (a : A) : M A := fun m => (Ok a, m).

Definition raise {A : Type} (e : exn) : M A := fun m => (Err e, m).

Definition bind {A B : Type} (c : M A) (k : A -> M B) : M B :=
  fun m => match c m with
           | (Ok a, m') => k a m'
           | (Err e, m') => (Err e, m')
           end.

(** [try: c  except Exception as e: h e] *)
Definition try_except {A : Type} (c : M A) (h : exn -> M A) : M A :=
  fun m => match c m with
           | (Ok a, m') => (Ok a, m')
           | (Err e, m') => h e m'
           end.

Definition lift {A : Type} (r : result A) : M A := fun m => (r, m).

Declare Scope machine_scope.
Delimit Scope machine_scope with M.
Notation "x <- c ;; k" := (bind c (fun x => k))
  (at level 61, c at next level, right associativity) : machine_scope.
Notation "c ;; k" := (bind c (fun _ => k))
  (at level 61, right associativity) : machine_scope.

Definition get_self : M BoxStrategy := fun m => (Ok (self m), m).

Definition modify_self (f : BoxStrategy -> BoxStrategy) : M unit :=
  fun m => (Ok tt, {| self := f (self m); order := order m; world := world m |}).

Definition get_order : M ScanOrder := fun m => (Ok (order m), m).

Definition put_order (o : ScanOrder) : M unit :=
  fun m => (Ok tt, {| self := self m; order := o; world := world m |}).

Definition modify_world (f : World -> World) : M unit :=
  fun m => (Ok tt, {| self := self m; order := order m; world := f (world m) |}).


(** [time.time()] *)
Definition time_time : M Time :=
  fun m => (Ok (now (world m)),
            {| self := self m; order := order m; world := tick (world m) |}).

(** [time.sleep(d)]: the delay is recorded. *)
Definition time_sleep (d : Q) : M unit :=
  modify_world (fun w =>
    {| clock := clock w; reads := reads w; sleeps := sleeps w ++ [d];
       requests := requests w; persisted := persisted w |}).

(** Attribute writes. *)
Definition set_processed_files_count (v : Z) (s : BoxStrategy) : BoxStrategy :=
  {| processed_files_count := v; box_client := box_client s;
     current_offset := current_offset s;
     _api_error_occurred := _api_error_occurred s;
     api_calls_count := api_calls_count s;
     api_errors_count := api_errors_count s;
     scan_started_at := scan_started_at s;
     scan_completed_at := scan_completed_at s;
     last_scan_batch_at := last_scan_batch_at s |}.

Definition set_box_client (v : option BoxClient) (s : BoxStrategy) : BoxStrategy :=
  {| processed_files_count := processed_files_count s; box_client := v;
     current_offset := current_offset s;
     _api_error_occurred := _api_error_occurred s;
     api_calls_count := api_calls_count s;
     api_errors_count := api_errors_count s;
     scan_started_at := scan_started_at s;
     scan_completed_at := scan_completed_at s;
     last_scan_batch_at := last_scan_batch_at s |}.

Definition set_current_offset (v : Z) (s : BoxStrategy) : BoxStrategy :=
  {| processed_files_count := processed_files_count s;
     box_client := box_client s;
     current_offset := v;
     _api_error_occurred := _api_error_occurred s;
     api_calls_count := api_calls_count s;
     api_errors_count := api_errors_count s;
     scan_started_at := scan_started_at s;
     scan_completed_at := scan_completed_at s;
     last_scan_batch_at := last_scan_batch_at s |}.

Definition set_api_error_occurred (v : bool) (s : BoxStrategy) : BoxStrategy :=
  {| processed_files_count := processed_files_count s;
     box_client := box_client s;
     current_offset := current_offset s;
     _api_error_occurred := v;
     api_calls_count := api_calls_count s;
     api_errors_count := api_errors_count s;
     scan_started_at := scan_started_at s;
     scan_completed_at := scan_completed_at s;
     last_scan_batch_at := last_scan_batch_at s |}.

Definition set_api_calls_count (v : Z) (s : BoxStrategy) : BoxStrategy :=
  {| processed_files_count := processed_files_count s;
     box_client := box_client s;
     current_offset := current_offset s;
     _api_error_occurred := _api_error_occurred s;
     api_calls_count := v;
     api_errors_count := api_errors_count s;
     scan_started_at := scan_started_at s;
     scan_completed_at := scan_completed_at s;
     last_scan_batch_at := last_scan_batch_at s |}.

Definition set_api_errors_count (v : Z) (s : BoxStrategy) : BoxStrategy :=
  {| processed_files_count := processed_files_count s;
     box_client := box_client s;
     current_offset := current_offset s;
     _api_error_occurred := _api_error_occurred s;
     api_calls_count := api_calls_count s;
     api_errors_count := v;
     scan_started_at := scan_started_at s;
     scan_completed_at := scan_completed_at s;
     last_scan_batch_at := last_scan_batch_at s |}.

(** The four assignments that open [scan], [_full_scan] and
    [_incremental_scan]. *)
Definition counters_reset (t : Time) (s : BoxStrategy) : BoxStrategy :=
  {| processed_files_count := 0;
     box_client := box_client s;
     current_offset := current_offset s;
     _api_error_occurred := _api_error_occurred s;
     api_calls_count := api_calls_count s;
     api_errors_count := api_errors_count s;
     scan_started_at := Some t;
     scan_completed_at := None;
     last_scan_batch_at := None |}.

Definition reset_counters : M unit :=
  (t <- time_time ;;
   modify_self (counters_reset t))%M.

Section Engine.

Variable env : Env.

(** ** MIME type *)

(** [_get_mime_type_from_name(filename)].  The callers pass whatever
    [item.get("name")] returned, so the argument is a [json] value: a
    falsy one is answered at once, a truthy one that is not a string has
    no [split]. *)
Definition _get_mime_type_from_name (filename : json) : result string :=
  if negb (truthy filename) then Ok "application/octet-stream"
  else match filename with
       | JStr s =>
           let name_parts := split "." s in
           if (1 <? List.length name_parts)%nat then
             let ext := str_lower env (List.last name_parts "") in
             Ok (match assoc ext extension_to_mime with
                 | Some m => m
                 | None => "application/" ++ ext
                 end)
           else Ok "application/octet-stream"
       | _ => Err (no_attribute filename "split")
       end.

(** ** Retry executor *)

(** [RETRY_DELAY * (2 ** (retry - 1))]; scaling by a power of two is exact
    in binary floating point, so the rational is the delay slept. *)
Definition backoff_delay (retry : nat) : Q :=
  (RETRY_DELAY env * inject_Z (2 ^ (Z.of_nat retry - 1)))%Q.

(** [status_code == 429 or 500 <= status_code < 600] *)
Definition retryable_status (status_code : Z) : bool :=
  ((status_code =? 429) || ((500 <=? status_code) && (status_code <? 600)))%bool.

(** The [for retry in ...] loop of [_execute_with_retry], on the values of
    [retry] still to come.  Leaving the loop without [return] or [raise]
    returns [None]. *)
Fixpoint retry_loop (api_request_func : M (option Response)) (retries : list nat)
  : M (option Response) :=
  match retries with
  | [] => ret None
  | retry :: rest =>
      try_except
        ((if (0 <? retry)%nat then time_sleep (backoff_delay retry) else ret tt) ;;
         api_request_func)%M
        (fun e =>
           match e with
           | BoxAPIException status_code _ =>
               if retryable_status status_code then
                 if (retry =? MAX_RETRIES)%nat then raise e
                 else retry_loop api_request_func rest
               else if status_code =? 404 then raise e
               else if status_code =? 403 then raise e
               else raise e
           | BoxException _ =>
               if (retry =? MAX_RETRIES)%nat then raise e
               else retry_loop api_request_func rest
           | _ =>
               if (retry =? MAX_RETRIES)%nat then raise e
               else retry_loop api_request_func rest
           end)
  end.

(** [_execute_with_retry(api_request_func)] *)
Definition _execute_with_retry (api_request_func : M (option Response))
  : M (option Response) :=
  retry_loop api_request_func (seq 0 (MAX_RETRIES + 1)).

(** [lambda: self.box_client.make_request("GET", ..., params=search_params)] *)
Definition search_request (search_params : SearchParams) : M (option Response) :=
  fun m =>
    match box_client (self m) with
    | None => (Err (no_attribute JNull "make_request"), m)
    | Some c =>
        (make_request c search_params (requests (world m)),
         {| self := self m; order := order m;
            world := {| clock := clock (world m); reads := reads (world m);
                        sleeps := sleeps (world m);
                        requests := S (requests (world m));
                        persisted := persisted (world m) |} |})
    end.

(** ** Folder walk *)

(** [item.get("shared_link", {}).get("url", "") if item.get("shared_link") else ""] *)
Definition web_view_link_of (item : json) : result json :=
  (let? shared_link := py_get item "shared_link" JNull in
   if truthy shared_link then
     let? d := py_get item "shared_link" (JDict []) in
     py_get d "url" (JStr "")
   else Ok (JStr ""))%res.

(** [item.get("parent", {}).get("id", folder_id)] *)
Definition parent_folder_id_of (item : json) (folder_id : string) : result json :=
  (let? parent := py_get item "parent" (JDict []) in
   py_get parent "id" (JStr folder_id))%res.

(** The [try] body of the items loop of [_scan_folder_incremental]. *)
Definition file_metadata_incremental (folder_id : string) (files_count : Z)
  (item : json) : result FileMetadata :=
  (let? path_collection := py_get item "path_collection" (JDict []) in
   let? folder_path := _build_folder_path path_collection in
   let? id := py_get item "id" (JStr ("unknown-" ++ str_int files_count)) in
   let? name := py_get item "name" (JStr ("unknown-" ++ str_int files_count)) in
   let? last_modified := py_get item "modified_at" JNull in
   let? created_time := py_get item "created_at" JNull in
   let? size := py_get item "size" (JInt 0) in
   let? name' := py_get item "name" (JStr "") in
   let? mime_type := _get_mime_type_from_name name' in
   let? web_view_link := web_view_link_of item in
   let? parent_folder_id := parent_folder_id_of item folder_id in
   Ok {| fm_id := id; fm_name := name; fm_source := "box";
         fm_last_modified := last_modified; fm_created_time := created_time;
         fm_size := size; fm_mime_type := mime_type;
         fm_web_view_link := web_view_link;
         fm_parent_folder_id := parent_folder_id;
         fm_folder_path := folder_path |})%res.

(** The [try] body of the items loop of [_scan_folder]. *)
Definition file_metadata_full (folder_id : string) (item : json)
  : result FileMetadata :=
  (let? path_collection := py_get item "path_collection" (JDict []) in
   let? folder_path := _build_folder_path path_collection in
   let? id := py_get item "id" JNull in
   let? name := py_get item "name" JNull in
   let? last_modified := py_get item "modified_at" JNull in
   let? created_time := py_get item "created_at" JNull in
   let? size := py_get item "size" (JInt 0) in
   let? mime_type := _get_mime_type_from_name name in
   let? web_view_link := web_view_link_of item in
   let? parent_folder_id := parent_folder_id_of item folder_id in
   Ok {| fm_id := id; fm_name := name; fm_source := "box";
         fm_last_modified := last_modified; fm_created_time := created_time;
         fm_size := size; fm_mime_type := mime_type;
         fm_web_view_link := web_view_link;
         fm_parent_folder_id := parent_folder_id;
         fm_folder_path := folder_path |})%res.

(** The local variables of a folder walk that its items loop updates, and
    the number of times the loop ran [self.api_errors_count += 1]. *)
Record Locals : Type := {
  file_metadata_list : list FileMetadata;
  files_count : Z;
  has_more : bool;
  item_errors : Z
}.

(** [for item in items] of [_scan_folder_incremental]: a failing item is
    logged and counted, and the loop goes on. *)
Fixpoint items_loop_incremental (folder_id : string) (max_files : Z)
  (items : list json) (l : Locals) : Locals :=
  match items with
  | [] => l
  | item :: rest =>
      if files_count l >=? max_files then
        {| file_metadata_list := file_metadata_list l;
           files_count := files_count l;
           has_more := true;
           item_errors := item_errors l |}
      else
        match file_metadata_incremental folder_id (files_count l) item with
        | Ok file_metadata =>
            items_loop_incremental folder_id max_files rest
              {| file_metadata_list := file_metadata_list l ++ [file_metadata];
                 files_count := files_count l + 1;
                 has_more := has_more l;
                 item_errors := item_errors l |}
        | Err _ =>
            items_loop_incremental folder_id max_files rest
              {| file_metadata_list := file_metadata_list l;
                 files_count := files_count l;
                 has_more := has_more l;
                 item_errors := item_errors l + 1 |}
        end
  end.

(** [for item in items] of [_scan_folder]: the handler formats
    [item.get('id')] into its log line, which raises again when the item
    is not a dict. *)
Fixpoint items_loop_full (folder_id : string) (max_files : Z)
  (items : list json) (l : Locals) : result Locals :=
  match items with
  | [] => Ok l
  | item :: rest =>
      if files_count l >=? max_files then
        Ok {| file_metadata_list := file_metadata_list l;
              files_count := files_count l;
              has_more := true;
              item_errors := item_errors l |}
      else
        match file_metadata_full folder_id item with
        | Ok file_metadata =>
            items_loop_full folder_id max_files rest
              {| file_metadata_list := file_metadata_list l ++ [file_metadata];
                 files_count := files_count l + 1;
                 has_more := has_more l;
                 item_errors := item_errors l |}
        | Err _ =>
            (let? _ := py_get item "id" JNull in
             items_loop_full folder_id max_files rest l)%res
        end
  end.

Definition no_locals : Locals :=
  {| file_metadata_list := []; files_count := 0; has_more := false;
     item_errors := 0 |}.

(** The [search_params] dict of [_scan_folder_incremental]. *)
Definition search_params_incremental (folder_id modified_since : string)
  (offset max_files : Z) : SearchParams :=
  {| query := "type:file ancestor_folder_ids:" ++ folder_id ++ " ";
     updated_at_range := Some modified_since;
     limit := max_files;
     offset := offset |}.

(** The [search_params] dict of [_scan_folder]. *)
Definition search_params_full (folder_id : string) (offset max_files : Z)
  : SearchParams :=
  {| query := "type:file ancestor_folder_ids:" ++ folder_id;
     updated_at_range := None;
     limit := max_files;
     offset := offset |}.

(** [response.json() if response else {}] *)
Definition response_json_of (response : option Response) : result json :=
  match response with
  | Some r => resp_json r
  | None => Ok (JDict [])
  end.

(** [_scan_folder_incremental(folder_id, modified_since, offset, max_files)] *)
Definition _scan_folder_incremental (folder_id modified_since : string)
  (offset max_files : Z) : M (list FileMetadata * bool) :=
  try_except
    (time_sleep RATE_LIMIT_DELAY ;;
     let search_params :=
       search_params_incremental folder_id modified_since offset max_files in
     response <- _execute_with_retry (search_request search_params) ;;
     modify_self (fun s => set_api_calls_count (api_calls_count s + 1) s) ;;
     response_json <- lift (response_json_of response) ;;
     no_results <- lift (match response with
                         | None => Ok true
                         | Some _ =>
                             (let? e := py_get response_json "entries" JNull in
                              Ok (negb (truthy e)))%res
                         end) ;;
     if no_results : bool then ret ([], false)
     else
       items <- lift (py_get response_json "entries" (JList [])) ;;
       len_items <- lift (py_len items) ;;
       total_count <- lift (py_get response_json "total_count" (JInt len_items)) ;;
       item_list <- lift (py_iter items) ;;
       let l := items_loop_incremental folder_id max_files item_list no_locals in
       modify_self (fun s => set_api_errors_count (api_errors_count s + item_errors l) s) ;;
       has_more <- lift (py_int_lt
                           (offset + Z.of_nat (List.length (file_metadata_list l)))
                           total_count) ;;
       ret (file_metadata_list l, has_more))%M
    (fun e =>
       (modify_self (set_api_error_occurred true) ;;
        raise e)%M).

(** [_scan_folder(folder_id, offset, max_files)] *)
Definition _scan_folder (folder_id : string) (offset max_files : Z)
  : M (list FileMetadata * bool) :=
  try_except
    (let search_params := search_params_full folder_id offset max_files in
     time_sleep RATE_LIMIT_DELAY ;;
     response <- _execute_with_retry (search_request search_params) ;;
     modify_self (fun s => set_api_calls_count (api_calls_count s + 1) s) ;;
     response_json <- lift (response_json_of response) ;;
     no_results <- lift (if negb (truthy response_json) then Ok true
                         else (let? e := py_get response_json "entries" JNull in
                               Ok (negb (truthy e)))%res) ;;
     if no_results : bool then ret ([], false)
     else
       items <- lift (py_get response_json "entries" (JList [])) ;;
       total_count <- lift (py_get response_json "total_count" JNull) ;;
       _ <- lift (py_first items) ;;
       item_list <- lift (py_iter items) ;;
       l <- lift (items_loop_full folder_id max_files item_list no_locals) ;;
       has_more <- lift (if negb (has_more l) then
                           (let? len_items := py_len items in
                            let? more := py_int_lt (offset + len_items) total_count in
                            Ok (if more : bool then true else has_more l))%res
                         else Ok (has_more l)) ;;
       ret (file_metadata_list l, has_more))%M
    (fun e =>
       (modify_self (set_api_error_occurred true) ;;
        modify_self (fun s => set_api_errors_count (api_errors_count s + 1) s) ;;
        raise e)%M).

(** ** Cursor state *)

(** [scan_order.get("scan_metadata", {}).get("cursor", {})] *)
Definition cursor_of (scan_order : ScanOrder) : Cursor :=
  match scan_metadata scan_order with
  | Some md => match cursor md with
               | Some c => c
               | None => empty_cursor
               end
  | None => empty_cursor
  end.

(** [cursor_data.get("current_offset", 0)] *)
Definition offset_of (cursor_data : Cursor) : Z :=
  match c_current_offset cursor_data with
  | Some k => k
  | None => 0
  end.

(** The number of calls of the persistence adapter made so far. *)
Definition get_saves : M nat := fun m => (Ok (List.length (persisted (world m))), m).

(** [_save_scan_state(scan_order)].  The cursor is written into the scan
    order first; the call of
    [ScanOrderAdapter.update_scan_metadata(scan_order["id"], {"cursor":
    cursor_data})] is then recorded in [persisted], and what it raises
    leaves the method. *)
Definition _save_scan_state : M unit :=
  (s <- get_self ;;
   t <- time_time ;;
   let cursor_data :=
     {| c_current_offset := Some (current_offset s);
        c_last_updated := Some t |} in
   scan_order <- get_order ;;
   put_order {| so_id := so_id scan_order;
                scan_type := scan_type scan_order;
                scanned_from := scanned_from scan_order;
                scan_metadata := Some {| cursor := Some cursor_data |} |} ;;
   k <- get_saves ;;
   modify_world (fun w =>
     {| clock := clock w; reads := reads w; sleeps := sleeps w;
        requests := requests w;
        persisted := persisted w ++ [(so_id scan_order, cursor_data)] |}) ;;
   lift (update_scan_metadata env (so_id scan_order) cursor_data k))%M.

(** [_initialize_scan_state(data_source)] *)
Definition _initialize_scan_state (data_source : DataSource) : M unit :=
  modify_self (set_current_offset 0).

(** [_restore_scan_state(cursor_data)] *)
Definition _restore_scan_state (cursor_data : Cursor) : M unit :=
  modify_self (set_current_offset (offset_of cursor_data)).

(** [_authenticate(data_source)]; it reads and writes no attribute. *)
Definition _authenticate (data_source : DataSource) : result (option AuthResult) :=
  let auth_type := match auth_type data_source with
                   | Some a => a
                   | None => "oauth"
                   end in
  if String.eqb auth_type "" then Ok None
  else match get_auth_handler env auth_type with
       | None => Ok None
       | Some auth_handler => auth_handler data_source
       end.

(** [create_error_result(error_msg, scan_started_at)] *)
Definition create_error_result (error_msg : string) (started : option Time)
  : M ScanResult :=
  (t <- time_time ;;
   s <- get_self ;;
   ret {| files := [];
          is_completed := false;
          stats := {| st_files_count := 0;
                      st_last_scan_batch_at := t;
                      st_scan_started_at := started;
                      st_scan_completed_at := None;
                      st_api_calls_made := api_calls_count s;
                      st_api_errors_encountered := api_errors_count s |};
          updated_credentials := JNull;
          error := Some error_msg |})%M.

(** ** The two scan modes and the entry point *)

(** [metadata.get("folder_id", "0")] on [data_source.get("metadata", {})] *)
Definition root_folder_id_of (data_source : DataSource) : string :=
  match metadata data_source with
  | Some md => match folder_id md with
               | Some f => f
               | None => "0"
               end
  | None => "0"
  end.

(** What both modes do with the outcome of the folder walk: advance or
    reset the offset, save the cursor, assemble the result. *)
Definition finish_batch (walked : list FileMetadata * bool) : M ScanResult :=
  (let '(files_, has_more) := walked in
   let all_files := ([] ++ files_)%list in
   modify_self (fun s =>
     set_processed_files_count
       (processed_files_count s + Z.of_nat (List.length files_)) s) ;;
   (if has_more : bool
    then modify_self (fun s =>
           set_current_offset (current_offset s + Z.of_nat (List.length files_)) s)
    else modify_self (set_current_offset 0)) ;;
   _save_scan_state ;;
   let is_completed := negb has_more in
   let file_dicts := all_files in
   t_batch <- time_time ;;
   s <- get_self ;;
   t_completed <- time_time ;;
   ret {| files := file_dicts;
          is_completed := is_completed;
          stats := {| st_files_count := Z.of_nat (List.length file_dicts);
                      st_last_scan_batch_at := t_batch;
                      st_scan_started_at := scan_started_at s;
                      st_scan_completed_at := Some t_completed;
                      st_api_calls_made := api_calls_count s;
                      st_api_errors_encountered := api_errors_count s |};
          updated_credentials := JNull;
          error := None |})%M.

(** The [except Exception as e] clause shared by [scan], [_full_scan] and
    [_incremental_scan], up to the prefix of the message. *)
Definition on_failure (prefix : string) (e : exn) : M ScanResult :=
  (let error_msg := prefix ++ str_exn e in
   s <- get_self ;;
   (match box_client s with
    | Some _ => _save_scan_state
    | None => ret tt
    end) ;;
   s' <- get_self ;;
   create_error_result error_msg (scan_started_at s'))%M.

(** [_full_scan(data_source, scan_order)] *)
Definition _full_scan (data_source : DataSource) : M ScanResult :=
  (reset_counters ;;
   try_except
     (let root_folder_id := root_folder_id_of data_source in
      scan_order <- get_order ;;
      let cursor_data := cursor_of scan_order in
      modify_self (set_current_offset (offset_of cursor_data)) ;;
      s <- get_self ;;
      walked <- _scan_folder root_folder_id (current_offset s) MAX_BATCH_SIZE ;;
      finish_batch walked)
     (on_failure "Error in full scan of Box: "))%M.

(** The reference timestamp of an incremental scan: [scanned_from] of the
    order, else the last completed scan, else the epoch. *)
Definition reference_timestamp (data_source : DataSource) (scan_order : ScanOrder)
  : result string :=
  let scan_from := match scanned_from scan_order with
                   | Some t => if String.eqb t "" then None else Some t
                   | None => None
                   end in
  match scan_from with
  | Some t => Ok t
  | None =>
      (let? last := get_last_completed_scan_timestamp env (ds_id data_source) in
       match last with
       | Some t => if String.eqb t "" then Ok "1970-01-01T00:00:00Z" else Ok t
       | None => Ok "1970-01-01T00:00:00Z"
       end)%res
  end.

(** [_incremental_scan(data_source, scan_order)] *)
Definition _incremental_scan (data_source : DataSource) : M ScanResult :=
  (reset_counters ;;
   scan_order <- get_order ;;
   scan_from <- lift (reference_timestamp data_source scan_order) ;;
   try_except
     (scan_from_str <- lift (format_to_rfc3339_box env scan_from) ;;
      let root_folder_id := root_folder_id_of data_source in
      let cursor_data := cursor_of scan_order in
      modify_self (set_current_offset (offset_of cursor_data)) ;;
      s <- get_self ;;
      walked <- _scan_folder_incremental root_folder_id
                  (replace ".000Z" "Z" scan_from_str)
                  (current_offset s) MAX_BATCH_SIZE ;;
      finish_batch walked)
     (on_failure "Error in incremental scan of Box: "))%M.

(** [if updated_credentials: result["updated_credentials"] = updated_credentials] *)
Definition merge_credentials (credentials : json) (result : ScanResult) : ScanResult :=
  if truthy credentials
  then {| files := files result;
          is_completed := is_completed result;
          stats := stats result;
          updated_credentials := credentials;
          error := error result |}
  else result.

(** [scan_order.get("scan_type") == "incremental"] *)
Definition incremental_mode (scan_order : ScanOrder) : bool :=
  match scan_type scan_order with
  | Some ty => String.eqb ty "incremental"
  | None => false
  end.

(** The [try] body of [scan]. *)
Definition scan_body (data_source : DataSource) : M ScanResult :=
  (auth_result <- lift (_authenticate data_source) ;;
   match auth_result with
   | None =>
       s <- get_self ;;
       create_error_result "Failed to authenticate with Box" (scan_started_at s)
   | Some auth =>
       modify_self (set_box_client (service auth)) ;;
       let updated_credentials := auth_updated_credentials auth in
       s <- get_self ;;
       match box_client s with
       | None =>
           create_error_result "Failed to initialize Box client" (scan_started_at s)
       | Some _ =>
           scan_order <- get_order ;;
           let cursor_data := cursor_of scan_order in
           (if cursor_truthy cursor_data then _restore_scan_state cursor_data
            else _initialize_scan_state data_source) ;;
           result <- (if incremental_mode scan_order
                      then _incremental_scan data_source
                      else _full_scan data_source) ;;
           ret (merge_credentials updated_credentials result)
       end
   end)%M.

(** [scan(data_source, scan_order)], run on the instance [s] in the world
    [w]. *)
Definition scan (s : BoxStrategy) (data_source : DataSource)
  (scan_order : ScanOrder) (w : World) : result ScanResult * Machine :=
  (reset_counters ;;
   try_except (scan_body data_source) (on_failure "Error scanning Box: "))%M
  {| self := s; order := scan_order; world := w |}.

End Engine.
(** ** Lowercasing of ASCII text

    What [str.lower] does to ASCII text: the letters [A] to [Z] become
    [a] to [z], every other character stays. *)

Definition lower_ascii (c : ascii) : ascii :=
  let n := nat_of_ascii c in
  if (Nat.leb 65 n && Nat.leb n 90)%bool then ascii_of_nat (n + 32) else c.

Fixpoint ascii_lowercase (s : string) : string :=
  match s with
  | EmptyString => EmptyString
  | String c s' => String (lower_ascii c) (ascii_lowercase s')
  end.

(** Text all of whose characters are ASCII. *)
Fixpoint ascii_only (s : string) : bool :=
  match s with
  | EmptyString => true
  | String c s' => (Nat.ltb (nat_of_ascii c) 128 && ascii_only s')%bool
  end.

(** [f] lowercases ASCII text as [str.lower] does. *)
Definition lowercases_ascii (f : string -> string) : Prop :=
  forall s, ascii_only s = true -> f s = ascii_lowercase s.

(** ** Sample collaborators and inputs

    Concrete clients, orders and worlds on which the model is run.  The
    names in the samples are ASCII text. *)

(** A client that answers every request with the JSON body [body]. *)
Definition client_answering (body : json) : BoxClient :=
  {| make_request := fun _ _ => Ok (Some {| resp_json := Ok body |}) |}.

(** A client whose successive requests have the outcomes [script k]. *)
Definition client_scripted (script : nat -> result (option Response)) : BoxClient :=
  {| make_request := fun _ k => script k |}.

(** Collaborators whose authentication hands out the client [c]. *)
Definition env_with (c : BoxClient) : Env :=
  {| RETRY_DELAY := 1%Q;
     get_auth_handler := fun _ =>
       Some (fun _ => Ok (Some {| service := Some c;
                                  auth_updated_credentials := JNull |}));
     get_last_completed_scan_timestamp := fun _ => Ok None;
     update_scan_metadata := fun _ _ _ => Ok tt;
     format_to_rfc3339_box := fun t => Ok t;
     str_lower := ascii_lowercase |}.


(** A path-collection entry with the given id and name. *)
Definition entry (id name : string) : json :=
  JDict [("id", JStr id); ("name", JStr name)].

(** A world in which nothing has happened yet; its clock shows [k] at
    reading number [k]. *)
Definition world0 : World :=
  {| clock := fun k => inject_Z (Z.of_nat k); reads := 0%nat;
     sleeps := []; requests := 0%nat; persisted := [] |}.

Definition data_source0 : DataSource :=
  {| ds_id := "ds-1"; auth_type := None; metadata := None |}.

(** A scan order of the given type whose cursor stands at [k]. *)
Definition order_at (ty : string) (k : Z) : ScanOrder :=
  {| so_id := "order-1"; scan_type := Some ty; scanned_from := None;
     scan_metadata :=
       Some {| cursor := Some {| c_current_offset := Some k;
                                 c_last_updated := Some 0%Q |} |} |}.

(** A fresh scan order, without scan metadata. *)
Definition order_new (ty : string) : ScanOrder :=
  {| so_id := "order-1"; scan_type := Some ty; scanned_from := None;
     scan_metadata := None |}.

Definition machine_with (c : BoxClient) (o : ScanOrder) : Machine :=
  {| self := set_box_client (Some c) __init__; order := o; world := world0 |}.

(** A search result with every requested field. *)
Definition item_a : json :=
  JDict [("id", JStr "a"); ("name", JStr "a.txt"); ("type", JStr "file");
         ("modified_at", JStr "2024-05-01T10:00:00-07:00");
         ("created_at", JStr "2024-04-30T09:00:00-07:00");
         ("size", JInt 1024);
         ("shared_link", JNull);
         ("parent", JDict [("id", JStr "5"); ("name", JStr "Reports")]);
         ("path_collection",
          JDict [("total_count", JInt 2);
                 ("entries", JList [entry "0" "All Files"; entry "5" "Reports"])])].

(** An item whose [parent] is [null]: [item.get("parent", {})] is then
    [None], which has no [get]. *)
Definition item_orphan : json :=
  JDict [("id", JStr "b"); ("name", JStr "b.txt"); ("type", JStr "file");
         ("modified_at", JStr "2024-05-02T10:00:00-07:00");
         ("created_at", JStr "2024-05-02T09:00:00-07:00");
         ("size", JInt 2048);
         ("shared_link", JNull);
         ("parent", JNull);
         ("path_collection",
          JDict [("total_count", JInt 1);
                 ("entries", JList [entry "0" "All Files"])])].

(** A page of two entries, the second of which cannot be normalised, out
    of a reported total of two. *)
Definition page_with_orphan : json :=
  JDict [("entries", JList [item_a; item_orphan]); ("total_count", JInt 2)].

(** A page of [n] entries without [total_count]. *)
Definition page_without_total (n : nat) : json :=
  JDict [("entries", JList (repeat item_a n))].

(** A first page of one entry out of a reported total of five. *)
Definition page_one_of_five : json :=
  JDict [("entries", JList [item_a]); ("total_count", JInt 5)].

(** The parameters of a first full-scan page. *)
Definition params0 : SearchParams := search_params_full "0" 0 MAX_BATCH_SIZE.

Definition empty_page : Response := {| resp_json := Ok (JDict []) |}.


(** A client whose first two requests are rate limited. *)
Definition client_limited_twice : BoxClient :=
  client_scripted (fun k => match k with
                            | O | S O => Err (BoxAPIException 429 "Too Many Requests")
                            | _ => Ok (Some empty_page)
                            end).


(** A response body that is a JSON array where an object is expected. *)
Definition array_body : json := JList [JInt 1].

(** The record both walks build from [item_a] under the root folder. *)
Definition record_a : FileMetadata :=
  {| fm_id := JStr "a"; fm_name := JStr "a.txt"; fm_source := "box";
     fm_last_modified := JStr "2024-05-01T10:00:00-07:00";
     fm_created_time := JStr "2024-04-30T09:00:00-07:00";
     fm_size := JInt 1024;
     fm_mime_type := "text/plain"; fm_web_view_link := JStr "";
     fm_parent_folder_id := JStr "5"; fm_folder_path := "/Reports" |}.

(** Collaborators and a state for a batch resumed at offset 2 on a client
    that answers with one entry out of five. *)
Definition env_one_of_five : Env := env_with (client_answering page_one_of_five).

Definition machine_at_2 : Machine :=
  machine_with (client_answering page_one_of_five) (order_at "full" 2).

(** A client all of whose requests fail with status 404. *)
Definition client_not_found : BoxClient :=
  client_scripted (fun _ => Err (BoxAPIException 404 "Not Found")).


(** What authentication returns under [env_one_of_five]. *)
Definition auth_one_of_five : AuthResult :=
  {| service := Some (client_answering page_one_of_five);
     auth_updated_credentials := JNull |}.

(** Collaborators without any authentication handler. *)
Definition env_no_handler : Env :=
  {| RETRY_DELAY := 1%Q;
     get_auth_handler := fun _ => None;
     get_last_completed_scan_timestamp := fun _ => Ok None;
     update_scan_metadata := fun _ _ _ => Ok tt;
     format_to_rfc3339_box := fun t => Ok t;
     str_lower := ascii_lowercase |}.

(** Collaborators whose authentication handler raises. *)
Definition env_auth_raises : Env :=
  {| RETRY_DELAY := 1%Q;
     get_auth_handler := fun _ =>
       Some (fun _ => Err (OtherError "ConnectionError" "Connection refused"));
     get_last_completed_scan_timestamp := fun _ => Ok None;
     update_scan_metadata := fun _ _ _ => Ok tt;
     format_to_rfc3339_box := fun t => Ok t;
     str_lower := ascii_lowercase |}.

(** An instance left over from an earlier batch: it still holds a client
    and the offset 40. *)
Definition instance_reused : BoxStrategy :=
  set_current_offset 40 (set_box_client (Some client_not_found) __init__).

(** Collaborators whose authentication refreshes the credentials and whose
    lookup of the last completed scan raises. *)
Definition refreshed_credentials : json := JDict [("access_token", JStr "t2")].

Definition env_refreshing (c : BoxClient) : Env :=
  {| RETRY_DELAY := 1%Q;
     get_auth_handler := fun _ =>
       Some (fun _ => Ok (Some {| service := Some c;
                                  auth_updated_credentials := refreshed_credentials |}));
     get_last_completed_scan_timestamp := fun _ =>
       Err (OtherError "OperationalError" "database is locked");
     update_scan_metadata := fun _ _ _ => Ok tt;
     format_to_rfc3339_box := fun t => Ok t;
     str_lower := ascii_lowercase |}.

(** A provider that holds the entries [items] and answers a search request
    with the entries from [offset] on, at most [limit] of them, and the
    total number of entries. *)
Definition page_of (items : list json) (offset limit : Z) : list json :=
  firstn (Z.to_nat limit) (skipn (Z.to_nat offset) items).

Definition paging_body (items : list json) (offset limit : Z) : json :=
  JDict [("total_count", JInt (Z.of_nat (List.length items)));
         ("entries", JList (page_of items offset limit));
         ("limit", JInt limit);
         ("offset", JInt offset)].

Definition client_paging (items : list json) : BoxClient :=
  {| make_request := fun params _ =>
       Ok (Some {| resp_json := Ok (paging_body items (offset params) (limit params)) |}) |}.

Definition auth_paging (items : list json) : AuthResult :=
  {| service := Some (client_paging items); auth_updated_credentials := JNull |}.

(** ** Vocabulary of the properties *)

(** A capital ASCII letter. *)
Definition is_uppercase (c : ascii) : bool :=
  (Nat.leb 65 (nat_of_ascii c) && Nat.leb (nat_of_ascii c) 90)%bool.

(** Whether [s] contains a capital ASCII letter. *)
Fixpoint has_uppercase (s : string) : bool :=
  match s with
  | EmptyString => false
  | String c s' => if is_uppercase c then true else has_uppercase s'
  end.

(** Whether [s] contains a dot. *)
Fixpoint has_dot (s : string) : bool :=
  match s with
  | EmptyString => false
  | String c s' => if Ascii.eqb c "." then true else has_dot s'
  end.

(** The MIME type the specification gives to a lowercased extension: its
    table entry, or ["application/<ext>"]. *)
Definition mime_of_extension (ext : string) : string :=
  match assoc ext extension_to_mime with
  | Some m => m
  | None => "application/" ++ ext
  end.






(** The state after [time.sleep(d)]. *)
Definition slept (d : Q) (m : Machine) : Machine := snd (time_sleep d m).

(** The state after one more search request was issued. *)
Definition requested (m : Machine) : Machine :=
  {| self := self m; order := order m;
     world := {| clock := clock (world m); reads := reads (world m);
                 sleeps := sleeps (world m);
                 requests := S (requests (world m));
                 persisted := persisted (world m) |} |}.

(** The state after one call of [time.time()]. *)
Definition ticked (m : Machine) : Machine :=
  {| self := self m; order := order m; world := tick (world m) |}.

(** The last value [time.time()] has returned. *)
Definition last_reading (w : World) : Time := clock w (pred (reads w)).

(** The persistence adapter accepts whatever cursor it is handed for the
    scan order [id]: it returns. *)
Definition accepts (env : Env) (id : string) : Prop :=
  forall cursor_data k, update_scan_metadata env id cursor_data k = Ok tt.


(** The statuses the specification calls rate-limit or server-side. *)
Definition rate_limit_or_server_error (status : Z) : Prop :=
  status = 429 \/ 500 <= status < 600.

(** What a folder walk leaves alone: the attributes of the instance other
    than its API counters and error flag, the scan order, the cursors
    already handed to the adapter, and the clock, which it does not read. *)
Definition same_cursor_state (m m' : Machine) : Prop :=
  box_client (self m') = box_client (self m) /\
  current_offset (self m') = current_offset (self m) /\
  processed_files_count (self m') = processed_files_count (self m) /\
  scan_started_at (self m') = scan_started_at (self m) /\
  order m' = order m /\
  persisted (world m') = persisted (world m) /\
  clock (world m') = clock (world m) /\
  reads (world m') = reads (world m).

(** A response without results: there is none, or its body is a JSON
    object whose ["entries"] is missing or falsy (empty, [null]). *)
Definition lacks_entries (response : option Response) : Prop :=
  response = None \/
  exists r d,
    response = Some r /\ resp_json r = Ok (JDict d) /\
    truthy (match assoc "entries" d with Some e => e | None => JNull end) = false.

(** A JSON object. *)
Definition is_object (v : json) : Prop :=
  match v with
  | JDict _ => True
  | _ => False
  end.

(** The state after the counters were reset. *)
Definition reset_state (m : Machine) : Machine :=
  {| self := counters_reset (now (world m)) (self m);
     order := order m;
     world := tick (world m) |}.

(** The state in which a scan mode calls its folder walk: counters reset,
    offset read from the cursor of the order. *)
Definition walk_state (m : Machine) : Machine :=
  {| self := set_current_offset (offset_of (cursor_of (order m)))
               (counters_reset (now (world m)) (self m));
     order := order m;
     world := tick (world m) |}.

(** The state in which [scan] hands over to a scan mode, once
    authentication has produced the client [c]. *)
Definition dispatch_state (s : BoxStrategy) (c : BoxClient) (scan_order : ScanOrder)
  (w : World) : Machine :=
  {| self := set_current_offset (offset_of (cursor_of scan_order))
               (set_box_client (Some c) (counters_reset (now w) s));
     order := scan_order;
     world := tick w |}.

(** The cursor [{current_offset: k, last_updated: t}] was written into the
    scan order and handed to the persistence adapter last. *)
Definition cursor_saved (k : Z) (before after : Machine) : Prop :=
  exists t,
    cursor_of (order after) =
      {| c_current_offset := Some k; c_last_updated := Some t |} /\
    persisted (world after) =
      (persisted (world before) ++
       [(so_id (order before),
         {| c_current_offset := Some k; c_last_updated := Some t |})])%list.



(** How the completion stamp of a result goes with its error, in the
    world [w] the call left: an error result has no stamp and is not
    completed, any other result is stamped with the last reading of the
    clock. *)
Definition completion_stamp_by_error (res : ScanResult) (w : World) : Prop :=
  match error res with
  | None => st_scan_completed_at (stats res) = Some (last_reading w)
  | Some _ => st_scan_completed_at (stats res) = None /\ is_completed res = false
  end.

(** The specification's [advance(offset, batchSize, hasMore)]. *)
Definition advance (offset batch_size : Z) (has_more : bool) : Z :=
  if has_more then offset + batch_size else 0.

(** An outcome of the request function after which [_execute_with_retry]
    tries again, unless the attempt was the last one: a rate-limit or
    server status, or an exception that is no [BoxAPIException]. *)
Definition retried (outcome : result (option Response)) : bool :=
  match outcome with
  | Ok _ => false
  | Err (BoxAPIException status _) => retryable_status status
  | Err _ => true
  end.

(** The attempt at which the executor stops when attempt [i] has the
    outcome [outcome i]: the first one from [retry] on that is not
    retried, and at the latest the one [remaining] attempts later. *)
Fixpoint stop_attempt (outcome : nat -> result (option Response))
  (retry remaining : nat) : nat :=
  match remaining with
  | O => retry
  | S remaining' =>
      if retried (outcome retry)
      then stop_attempt outcome (S retry) remaining'
      else retry
  end.

(** The state after [self.api_calls_count += 1]. *)
Definition called (m : Machine) : Machine :=
  {| self := set_api_calls_count (api_calls_count (self m) + 1) (self m);
     order := order m;
     world := world m |}.

(** The state after [self.api_errors_count += n]. *)
Definition counted (n : Z) (m : Machine) : Machine :=
  {| self := set_api_errors_count (api_errors_count (self m) + n) (self m);
     order := order m;
     world := world m |}.

(** The state after [self._api_error_occurred = True]. *)
Definition flagged (m : Machine) : Machine :=
  {| self := set_api_error_occurred true (self m);
     order := order m;
     world := world m |}.

(** What [_scan_folder] makes of the response its request returned: the
    part of its body behind [self.api_calls_count += 1], which reads and
    writes no attribute. *)
Definition page_outcome_full (env : Env) (folder_id : string) (offset max_files : Z)
  (response : option Response) : result (list FileMetadata * bool) :=
  (let? response_json := response_json_of response in
   let? no_results :=
     (if negb (truthy response_json) then Ok true
      else let? e := py_get response_json "entries" JNull in
           Ok (negb (truthy e))) in
   if no_results : bool then Ok ([], false)
   else
     let? items := py_get response_json "entries" (JList []) in
     let? total_count := py_get response_json "total_count" JNull in
     let? _ := py_first items in
     let? item_list := py_iter items in
     let? l := items_loop_full env folder_id max_files item_list no_locals in
     let? more :=
       (if negb (has_more l) then
          let? len_items := py_len items in
          let? more := py_int_lt (offset + len_items) total_count in
          Ok (if more : bool then true else has_more l)
        else Ok (has_more l)) in
     Ok (file_metadata_list l, more))%res.

(** What [_scan_folder_incremental] makes of the response its request
    returned: the number of entries its items loop counted as API errors,
    and its outcome. *)
Definition page_outcome_incremental (env : Env) (folder_id : string)
  (offset max_files : Z) (response : option Response)
  : Z * result (list FileMetadata * bool) :=
  match response_json_of response with
  | Err e => (0, Err e)
  | Ok response_json =>
      match (match response with
             | None => Ok true
             | Some _ =>
                 (let? e := py_get response_json "entries" JNull in
                  Ok (negb (truthy e)))%res
             end) with
      | Err e => (0, Err e)
      | Ok true => (0, Ok ([], false))
      | Ok false =>
          match py_get response_json "entries" (JList []) with
          | Err e => (0, Err e)
          | Ok items =>
              match py_len items with
              | Err e => (0, Err e)
              | Ok len_items =>
                  match py_get response_json "total_count" (JInt len_items) with
                  | Err e => (0, Err e)
                  | Ok total_count =>
                      match py_iter items with
                      | Err e => (0, Err e)
                      | Ok item_list =>
                          let l := items_loop_incremental env folder_id max_files
                                     item_list no_locals in
                          (item_errors l,
                           (let? more :=
                              py_int_lt
                                (offset + Z.of_nat (List.length (file_metadata_list l)))
                                total_count in
                            Ok (file_metadata_list l, more))%res)
                      end
                  end
              end
          end
      end
  end.

(** The result [create_error_result] builds in the state [m]. *)
Definition error_result (error_msg : string) (m : Machine) : ScanResult :=
  {| files := [];
     is_completed := false;
     stats := {| st_files_count := 0;
                 st_last_scan_batch_at := now (world m);
                 st_scan_started_at := scan_started_at (self m);
                 st_scan_completed_at := None;
                 st_api_calls_made := api_calls_count (self m);
                 st_api_errors_encountered := api_errors_count (self m) |};
     updated_credentials := JNull;
     error := Some error_msg |}.

(** The cursor [_save_scan_state] builds in the state [m]. *)
Definition next_cursor (m : Machine) : Cursor :=
  {| c_current_offset := Some (current_offset (self m));
     c_last_updated := Some (now (world m)) |}.

(** What the persistence adapter answers when [_save_scan_state] runs in
    the state [m]. *)
Definition save_outcome (env : Env) (m : Machine) : result unit :=
  update_scan_metadata env (so_id (order m)) (next_cursor m)
    (List.length (persisted (world m))).

(** The state [_save_scan_state] leaves, whatever the adapter answers: the
    cursor of the instance's offset is in the scan order and was handed to
    the adapter. *)
Definition saved_state (m : Machine) : Machine :=
  {| self := self m;
     order := {| so_id := so_id (order m);
                 scan_type := scan_type (order m);
                 scanned_from := scanned_from (order m);
                 scan_metadata := Some {| cursor := Some (next_cursor m) |} |};
     world := {| clock := clock (world m);
                 reads := S (reads (world m));
                 sleeps := sleeps (world m);
                 requests := requests (world m);
                 persisted :=
                   (persisted (world m) ++ [(so_id (order m), next_cursor m)])%list |} |}.

(** The adapter accepts every cursor of the scan order [id] from its call
    number [k0] on. *)
Definition accepts_from (env : Env) (id : string) (k0 : nat) : Prop :=
  forall cursor_data k,
    (k0 <= k)%nat -> update_scan_metadata env id cursor_data k = Ok tt.

(** The state in which a batch that walked [n] records with the flag
    [more] saves its cursor. *)
Definition advanced_state (n : Z) (more : bool) (m : Machine) : Machine :=
  {| self := set_current_offset (advance (current_offset (self m)) n more)
               (set_processed_files_count (processed_files_count (self m) + n) (self m));
     order := order m;
     world := world m |}.

(** The result of a batch whose walk returned, assembled in the state [m]
    that the cursor save left. *)
Definition batch_result (records : list FileMetadata) (more : bool) (m : Machine)
  : ScanResult :=
  {| files := records;
     is_completed := negb more;
     stats := {| st_files_count := Z.of_nat (List.length records);
                 st_last_scan_batch_at := now (world m);
                 st_scan_started_at := scan_started_at (self m);
                 st_scan_completed_at := Some (now (tick (world m)));
                 st_api_calls_made := api_calls_count (self m);
                 st_api_errors_encountered := api_errors_count (self m) |};
     updated_credentials := JNull;
     error := None |}.

(** The offset a caller can read off a result: where the batch started if
    the result carries an error, 0 if it is completed, and otherwise the
    start plus the number of files delivered. *)
Definition next_offset (scan_order : ScanOrder) (res : ScanResult) : Z :=
  match error res with
  | Some _ => offset_of (cursor_of scan_order)
  | None =>
      if is_completed res then 0
      else offset_of (cursor_of scan_order) + Z.of_nat (List.length (files res))
  end.

(** The scan order with the cursor [{current_offset: k, last_updated: t}]. *)
Definition with_cursor (scan_order : ScanOrder) (k : Z) (t : Time) : ScanOrder :=
  {| so_id := so_id scan_order;
     scan_type := scan_type scan_order;
     scanned_from := scanned_from scan_order;
     scan_metadata :=
       Some {| cursor := Some {| c_current_offset := Some k;
                                 c_last_updated := Some t |} |} |}.

(** [data_source.get("auth_type", "oauth")] *)
Definition effective_auth_type (data_source : DataSource) : string :=
  match auth_type data_source with
  | Some a => a
  | None => "oauth"
  end.

(** The records a full walk makes of a list of entries: the entries that
    normalise, in page order. *)
Definition delivered_full (env : Env) (folder_id : string) (items : list json)
  : list FileMetadata :=
  flat_map (fun item => match file_metadata_full env folder_id item with
                        | Ok file_metadata => [file_metadata]
                        | Err _ => []
                        end) items.

(** A caller that invokes [scan] again and again on the same instance,
    handing back the scan order as the last batch left it, until a result
    is completed or [batches] invocations were made: the files it
    collected, and whether the sweep was completed. *)
Fixpoint sweep (env : Env) (batches : nat) (s : BoxStrategy)
  (data_source : DataSource) (scan_order : ScanOrder) (w : World)
  : list FileMetadata * bool :=
  match batches with
  | O => ([], false)
  | S batches' =>
      match scan env s data_source scan_order w with
      | (Ok res, m') =>
          if is_completed res then (files res, true)
          else
            let (later, completed) :=
              sweep env batches' (self m') data_source (order m') (world m') in
            ((files res ++ later)%list, completed)
      | (Err _, _) => ([], false)
      end
  end.

(** An entry the incremental walk cannot normalise, whatever its position
    in the page. *)
Definition never_normalises (env : Env) (folder_id : string) (item : json) : Prop :=
  forall files_count,
    exists e, file_metadata_incremental env folder_id files_count item = Err e.

(** An entry the full walk normalises. *)
Definition normalises (env : Env) (folder_id : string) (item : json) : Prop :=
  exists file_metadata, file_metadata_full env folder_id item = Ok file_metadata.

(** [e] is a path-collection entry with the id [i] whose name is the
    string [n], or is missing or [null] when [n] is [None]. *)
Definition is_loose_entry (e : json) (p : json * option string) : Prop :=
  py_get e "id" JNull = Ok (fst p) /\
  py_get e "name" JNull = Ok (match snd p with
                             | Some n => JStr n
                             | None => JNull
                             end).

(** The names [_build_folder_path] keeps of such entries. *)
Fixpoint loose_kept_names (ps : list (json * option string)) : list string :=
  match ps with
  | [] => []
  | (i, Some n) :: ps' =>
      if (py_eq_str i "0" && String.eqb n "All Files")%bool then loose_kept_names ps'
      else if String.eqb n "" then loose_kept_names ps'
           else n :: loose_kept_names ps'
  | (_, None) :: ps' => loose_kept_names ps'
  end.
(** * Properties *)

(** ** MIME type *)

Lemma split_without_dot (s : string) :
  has_dot s = false -> split "." s = [s].
Proof.
  induction s as [|c s IH]; simpl; [reflexivity|].
  destruct (Ascii.eqb c "."); [discriminate|].
  intros H. rewrite (IH H). reflexivity.
Qed.

Lemma split_last_part (base ext : string) :
  has_dot ext = false ->
  exists p ps, split "." (base ++ "." ++ ext) = ((p :: ps) ++ [ext])%list.
Proof.
  intros Hext. induction base as [|c base IH]; simpl.
  - exists "", []. rewrite (split_without_dot ext Hext). reflexivity.
  - destruct IH as (p & ps & IH). simpl in IH.
    destruct (Ascii.eqb c ".").
    + exists "", (p :: ps). rewrite IH. reflexivity.
    + rewrite IH. exists (String c p), ps. reflexivity.
Qed.

(** A name with a dot ends in a dot followed by a dot-free extension. *)
Lemma has_dot_last_part (s : string) :
  has_dot s = true ->
  exists base ext, s = base ++ "." ++ ext /\ has_dot ext = false.
Proof.
  induction s as [|c s IH]; simpl; [discriminate|].
  destruct (has_dot s) eqn:Hs.
  - intros _. destruct (IH eq_refl) as (base & ext & -> & Hext).
    exists (String c base), ext. split; [reflexivity|exact Hext].
  - destruct (Ascii.eqb c ".") eqn:Hc; [|discriminate].
    intros _. apply Ascii.eqb_eq in Hc. subst c.
    exists "", s. split; [reflexivity|exact Hs].
Qed.

Lemma mime_with_extension (env : Env) (base ext : string) :
  has_dot ext = false ->
  _get_mime_type_from_name env (JStr (base ++ "." ++ ext)) =
    Ok (mime_of_extension (str_lower env ext)).
Proof.
  intros Hext. unfold _get_mime_type_from_name.
  assert (Ht : truthy (JStr (base ++ "." ++ ext)) = true).
  { destruct base; reflexivity. }
  rewrite Ht. cbv [negb].
  destruct (split_last_part base ext Hext) as (p & ps & Hs).
  rewrite Hs. rewrite last_last.
  rewrite length_app. simpl List.length.
  replace (1 <? S (List.length ps) + 1)%nat with true
    by (symmetry; apply Nat.ltb_lt; lia).
  reflexivity.
Qed.

Lemma mime_without_extension (env : Env) (s : string) :
  has_dot s = false ->
  _get_mime_type_from_name env (JStr s) = Ok "application/octet-stream".
Proof.
  intros Hs. unfold _get_mime_type_from_name.
  destruct (truthy (JStr s)); [|reflexivity].
  cbv [negb]. rewrite (split_without_dot s Hs). reflexivity.
Qed.

Lemma ascii_lowercase_fixes (s : string) :
  has_uppercase s = false -> ascii_lowercase s = s.
Proof.
  induction s as [|c s IH]; simpl; [reflexivity|].
  unfold is_uppercase, lower_ascii.
  destruct (Nat.leb 65 (nat_of_ascii c) && Nat.leb (nat_of_ascii c) 90)%bool;
    [discriminate|].
  intros H. rewrite (IH H). reflexivity.
Qed.

Lemma ascii_lowercase_app (s1 s2 : string) :
  ascii_lowercase (s1 ++ s2) = ascii_lowercase s1 ++ ascii_lowercase s2.
Proof. induction s1 as [|c s1 IH]; simpl; [reflexivity|rewrite IH; reflexivity]. Qed.

(** C9. For every file name: a name that ends in a dot followed by an
    extension gets the table entry of the lowercased extension, and
    ["application/<ext>"], with the lowercased extension, when the table
    has none; a name without a dot, the empty name and a missing name get
    ["application/octet-stream"]; every name is of one of the two forms.
    The extension is lowercased by [str.lower]: for an ASCII extension the
    result is therefore the entry of [ascii_lowercase ext], which works
    character by character, turns each of the 26 capital letters into its
    small letter and changes nothing else.  The table holds exactly the
    listed extensions, and the three sample names map as stated. *)
Theorem C9_mime_type_from_name (env : Env) :
  (forall base ext, has_dot ext = false ->
     _get_mime_type_from_name env (JStr (base ++ "." ++ ext)) =
       Ok (match assoc (str_lower env ext) extension_to_mime with
           | Some m => m
           | None => "application/" ++ str_lower env ext
           end)) /\
  (forall s, has_dot s = false ->
     _get_mime_type_from_name env (JStr s) = Ok "application/octet-stream") /\
  (forall s, has_dot s = true ->
     exists base ext, s = base ++ "." ++ ext /\ has_dot ext = false) /\
  _get_mime_type_from_name env (JStr "") = Ok "application/octet-stream" /\
  _get_mime_type_from_name env JNull = Ok "application/octet-stream" /\
  map fst extension_to_mime =
    ["pdf"; "doc"; "docx"; "xls"; "xlsx"; "ppt"; "pptx"; "txt"; "csv";
     "jpg"; "jpeg"; "png"; "gif"; "html"; "htm"; "json"; "xml"; "zip"] /\
  (lowercases_ascii (str_lower env) ->
   (forall base ext, has_dot ext = false -> ascii_only ext = true ->
      _get_mime_type_from_name env (JStr (base ++ "." ++ ext)) =
        Ok (match assoc (ascii_lowercase ext) extension_to_mime with
            | Some m => m
            | None => "application/" ++ ascii_lowercase ext
            end)) /\
   _get_mime_type_from_name env (JStr "report.PDF") = Ok "application/pdf" /\
   _get_mime_type_from_name env (JStr "file.xyz") = Ok "application/xyz") /\
  _get_mime_type_from_name env (JStr "noext") = Ok "application/octet-stream" /\
  map ascii_lowercase
    ["A"; "B"; "C"; "D"; "E"; "F"; "G"; "H"; "I"; "J"; "K"; "L"; "M";
     "N"; "O"; "P"; "Q"; "R"; "S"; "T"; "U"; "V"; "W"; "X"; "Y"; "Z"] =
    ["a"; "b"; "c"; "d"; "e"; "f"; "g"; "h"; "i"; "j"; "k"; "l"; "m";
     "n"; "o"; "p"; "q"; "r"; "s"; "t"; "u"; "v"; "w"; "x"; "y"; "z"] /\
  (forall s1 s2,
     ascii_lowercase (s1 ++ s2) = ascii_lowercase s1 ++ ascii_lowercase s2) /\
  (forall s, has_uppercase s = false -> ascii_lowercase s = s).
Proof.
  split; [exact (mime_with_extension env)|].
  split; [exact (mime_without_extension env)|].
  split; [exact has_dot_last_part|].
  split; [reflexivity|]. split; [reflexivity|]. split; [reflexivity|].
  split.
  { intros Hl.
    assert (A : forall base ext, has_dot ext = false -> ascii_only ext = true ->
                _get_mime_type_from_name env (JStr (base ++ "." ++ ext)) =
                  Ok (mime_of_extension (ascii_lowercase ext))).
    { intros base ext Hd Ha. rewrite (mime_with_extension env base ext Hd).
      rewrite (Hl ext Ha). reflexivity. }
    split; [exact A|]. split.
    - exact (A "report" "PDF" eq_refl eq_refl).
    - exact (A "file" "xyz" eq_refl eq_refl). }
  split; [exact (mime_without_extension env "noext" eq_refl)|].
  split; [reflexivity|].
  split; [exact ascii_lowercase_app|exact ascii_lowercase_fixes].
Qed.

Lemma C9_mime_type_from_name_witness :
  lowercases_ascii (str_lower (env_with client_not_found)) /\
  has_dot "PDF" = false /\ ascii_only "PDF" = true /\
  _get_mime_type_from_name (env_with client_not_found) (JStr ("report" ++ "." ++ "PDF")) =
    Ok "application/pdf".
Proof.
  assert (H : lowercases_ascii (str_lower (env_with client_not_found))).
  { intros s _. reflexivity. }
  split; [exact H|]. split; [reflexivity|]. split; [reflexivity|].
  exact (proj1 (proj1 (proj2 (proj2 (proj2 (proj2 (proj2 (proj2
           (C9_mime_type_from_name (env_with client_not_found)))))))) H)
           "report" "PDF" eq_refl eq_refl).
Defined.

(** ** Folder path *)

Lemma folder_names_loop_loose (es : list json) (ps : list (json * option string)) :
  Forall2 is_loose_entry es ps ->
  forall acc,
    folder_names_loop es acc = Ok (acc ++ map JStr (loose_kept_names ps))%list.
Proof.
  induction 1 as [|e p es ps [Hid Hname] _ IH]; intros acc.
  - simpl. rewrite app_nil_r. reflexivity.
  - cbn [folder_names_loop]. rewrite Hid, Hname. cbn [rbind].
    destruct p as [i [n|]]; cbn [fst snd loose_kept_names py_eq_str truthy].
    + destruct (py_eq_str i "0" && String.eqb n "All Files")%bool; [apply IH|].
      destruct (String.eqb n ""); cbn [negb]; [apply IH|].
      rewrite IH. cbn [map]. rewrite <- app_assoc. reflexivity.
    + rewrite andb_false_r. apply IH.
Qed.

Lemma strings_from_strings (l : list string) :
  forall i, strings_from i (map JStr l) = Ok l.
Proof.
  induction l as [|s l IH]; intros i; simpl; [reflexivity|].
  rewrite IH. reflexivity.
Qed.

Lemma build_folder_path_loose (d : list (string * json)) (es : list json)
  (ps : list (json * option string)) :
  assoc "entries" d = Some (JList es) ->
  Forall2 is_loose_entry es ps ->
  _build_folder_path (JDict d) = Ok ("/" ++ join "/" (loose_kept_names ps)).
Proof.
  intros Hd Hes. unfold _build_folder_path.
  assert (Ht : truthy (JDict d) = true) by (destruct d; [discriminate|reflexivity]).
  rewrite Ht. cbn [negb]. unfold py_get at 1 2. rewrite Hd. cbn [rbind].
  destruct Hes as [|e p es ps He Hes]; [reflexivity|].
  cbn [truthy negb py_iter rbind].
  rewrite (folder_names_loop_loose (e :: es) (p :: ps)) by (constructor; assumption).
  cbn [app rbind].
  destruct (loose_kept_names (p :: ps)) as [|n ns] eqn:Hk; [reflexivity|].
  cbn [map]. change (JStr n :: map JStr ns) with (map JStr (n :: ns)).
  unfold strings_of. rewrite strings_from_strings. reflexivity.
Qed.

Lemma build_folder_path_rooted (path_collection : json) (path : string) :
  _build_folder_path path_collection = Ok path ->
  exists rest, path = "/" ++ rest.
Proof.
  unfold _build_folder_path, rbind. intros H.
  repeat match type of H with
         | context [match ?x with _ => _ end] =>
             match x with
             | context [match _ with _ => _ end] => fail 1
             | _ => destruct x eqn:?
             end
         end;
    try discriminate; inversion H; subst; eexists; reflexivity.
Qed.







(** ** Retry executor *)

Section Executor.

Variable env : Env.

Lemma retryable_status_spec (status : Z) :
  retryable_status status = true <-> rate_limit_or_server_error status.
Proof.
  unfold retryable_status, rate_limit_or_server_error.
  rewrite orb_true_iff, andb_true_iff, Z.eqb_eq, Z.leb_le, Z.ltb_lt. tauto.
Qed.


(** One turn of the loop: sleep unless this is the first attempt, call the
    request function, and classify its failure. *)
Lemma retry_loop_cons (f : M (option Response)) (retry : nat) (rest : list nat)
  (m : Machine) :
  retry_loop env f (retry :: rest) m =
  match f (if (0 <? retry)%nat then slept (backoff_delay env retry) m else m) with
  | (Ok r, m') => (Ok r, m')
  | (Err e, m') =>
      match e with
      | BoxAPIException status_code _ =>
          if retryable_status status_code then
            if (retry =? MAX_RETRIES)%nat then (Err e, m')
            else retry_loop env f rest m'
          else (Err e, m')
      | _ => if (retry =? MAX_RETRIES)%nat then (Err e, m')
             else retry_loop env f rest m'
      end
  end.
Proof.
  cbn [retry_loop]. unfold try_except, bind, slept.
  destruct (0 <? retry)%nat; cbn;
    (destruct (f _) as [[r|e] m']; [reflexivity|]);
    destruct e;
    repeat match goal with
           | |- context [if ?b then _ else _] => destruct b
           end;
    reflexivity.
Qed.

Lemma execute_with_retry_unfold (f : M (option Response)) (m : Machine) :
  _execute_with_retry env f m = retry_loop env f [0; 1; 2; 3]%nat m.
Proof. reflexivity. Qed.

Lemma retry_loop_success (f : M (option Response)) (retry : nat) (rest : list nat)
  (m m' : Machine) (r : option Response) :
  f (if (0 <? retry)%nat then slept (backoff_delay env retry) m else m) = (Ok r, m') ->
  retry_loop env f (retry :: rest) m = (Ok r, m').
Proof. intros H. rewrite retry_loop_cons, H. reflexivity. Qed.

Lemma retry_loop_retryable (f : M (option Response)) (retry : nat) (rest : list nat)
  (m m' : Machine) (status : Z) (text : string) :
  rate_limit_or_server_error status ->
  f (if (0 <? retry)%nat then slept (backoff_delay env retry) m else m) =
    (Err (BoxAPIException status text), m') ->
  retry_loop env f (retry :: rest) m =
    if (retry =? MAX_RETRIES)%nat then (Err (BoxAPIException status text), m')
    else retry_loop env f rest m'.
Proof.
  intros Hs H. rewrite retry_loop_cons, H.
  apply retryable_status_spec in Hs. rewrite Hs. reflexivity.
Qed.



(** A search request made through the client [c]. *)
Lemma search_request_through (c : BoxClient) (params : SearchParams) (m : Machine) :
  box_client (self m) = Some c ->
  search_request params m =
    (make_request c params (requests (world m)), requested m).
Proof. intros H. unfold search_request. rewrite H. reflexivity. Qed.

End Executor.

(** C4. A request function that fails with status 429 on the first two
    attempts and succeeds on the third makes [_execute_with_retry] return
    that response; between the attempts it sleeps [RETRY_DELAY * 2^0] and
    [RETRY_DELAY * 2^1], and nothing else.  A request function that fails
    with 429 or a 5xx status on the first attempt and on each of the
    [MAX_RETRIES] = 3 further ones makes it raise the last failure, after
    sleeping [RETRY_DELAY * 2^0], [RETRY_DELAY * 2^1] and [RETRY_DELAY * 2^2].
    For search requests the sleeps and the number of requests issued are
    read off the world. *)
Theorem C4_retry_with_backoff (env : Env) :
  (forall (f : M (option Response)) m m1 m2 m3 r t0 t1,
     f m = (Err (BoxAPIException 429 t0), m1) ->
     f (slept (RETRY_DELAY env * inject_Z (2 ^ 0)) m1) =
       (Err (BoxAPIException 429 t1), m2) ->
     f (slept (RETRY_DELAY env * inject_Z (2 ^ 1)) m2) = (Ok r, m3) ->
     _execute_with_retry env f m = (Ok r, m3)) /\
  (forall c params m r t0 t1,
     box_client (self m) = Some c ->
     make_request c params (requests (world m)) = Err (BoxAPIException 429 t0) ->
     make_request c params (1 + requests (world m)) = Err (BoxAPIException 429 t1) ->
     make_request c params (2 + requests (world m)) = Ok r ->
     exists m',
       _execute_with_retry env (search_request params) m = (Ok r, m') /\
       sleeps (world m') =
         (sleeps (world m) ++
          [(RETRY_DELAY env * inject_Z (2 ^ 0))%Q;
           (RETRY_DELAY env * inject_Z (2 ^ 1))%Q])%list /\
       requests (world m') = (3 + requests (world m))%nat) /\
  (forall (f : M (option Response)) m m1 m2 m3 m4 s0 s1 s2 s3 t0 t1 t2 t3,
     rate_limit_or_server_error s0 -> rate_limit_or_server_error s1 ->
     rate_limit_or_server_error s2 -> rate_limit_or_server_error s3 ->
     f m = (Err (BoxAPIException s0 t0), m1) ->
     f (slept (RETRY_DELAY env * inject_Z (2 ^ 0)) m1) =
       (Err (BoxAPIException s1 t1), m2) ->
     f (slept (RETRY_DELAY env * inject_Z (2 ^ 1)) m2) =
       (Err (BoxAPIException s2 t2), m3) ->
     f (slept (RETRY_DELAY env * inject_Z (2 ^ 2)) m3) =
       (Err (BoxAPIException s3 t3), m4) ->
     _execute_with_retry env f m = (Err (BoxAPIException s3 t3), m4)) /\
  (forall c params m (status : nat -> Z) (text : nat -> string),
     box_client (self m) = Some c ->
     (forall k, (k < 1 + MAX_RETRIES)%nat ->
        rate_limit_or_server_error (status k) /\
        make_request c params (k + requests (world m)) =
          Err (BoxAPIException (status k) (text k))) ->
     exists m',
       _execute_with_retry env (search_request params) m =
         (Err (BoxAPIException (status MAX_RETRIES) (text MAX_RETRIES)), m') /\
       sleeps (world m') =
         (sleeps (world m) ++
          [(RETRY_DELAY env * inject_Z (2 ^ 0))%Q;
           (RETRY_DELAY env * inject_Z (2 ^ 1))%Q;
           (RETRY_DELAY env * inject_Z (2 ^ 2))%Q])%list /\
       requests (world m') = (1 + MAX_RETRIES + requests (world m))%nat).
Proof.
  assert (A : forall (f : M (option Response)) m m1 m2 m3 r t0 t1,
     f m = (Err (BoxAPIException 429 t0), m1) ->
     f (slept (RETRY_DELAY env * inject_Z (2 ^ 0)) m1) =
       (Err (BoxAPIException 429 t1), m2) ->
     f (slept (RETRY_DELAY env * inject_Z (2 ^ 1)) m2) = (Ok r, m3) ->
     _execute_with_retry env f m = (Ok r, m3)).
  { intros f m m1 m2 m3 r t0 t1 H1 H2 H3. rewrite execute_with_retry_unfold.
    rewrite (retry_loop_retryable env f 0 _ m m1 429 t0)
      by (solve [left; reflexivity | exact H1]).
    cbn [Nat.eqb MAX_RETRIES].
    rewrite (retry_loop_retryable env f 1 _ m1 m2 429 t1)
      by (solve [left; reflexivity | exact H2]).
    cbn [Nat.eqb MAX_RETRIES].
    apply retry_loop_success. exact H3. }
  assert (B : forall (f : M (option Response)) m m1 m2 m3 m4 s0 s1 s2 s3 t0 t1 t2 t3,
     rate_limit_or_server_error s0 -> rate_limit_or_server_error s1 ->
     rate_limit_or_server_error s2 -> rate_limit_or_server_error s3 ->
     f m = (Err (BoxAPIException s0 t0), m1) ->
     f (slept (RETRY_DELAY env * inject_Z (2 ^ 0)) m1) =
       (Err (BoxAPIException s1 t1), m2) ->
     f (slept (RETRY_DELAY env * inject_Z (2 ^ 1)) m2) =
       (Err (BoxAPIException s2 t2), m3) ->
     f (slept (RETRY_DELAY env * inject_Z (2 ^ 2)) m3) =
       (Err (BoxAPIException s3 t3), m4) ->
     _execute_with_retry env f m = (Err (BoxAPIException s3 t3), m4)).
  { intros f m m1 m2 m3 m4 s0 s1 s2 s3 t0 t1 t2 t3 R0 R1 R2 R3 H0 H1 H2 H3.
    rewrite execute_with_retry_unfold.
    rewrite (retry_loop_retryable env f 0 _ m m1 s0 t0 R0 H0). cbn [Nat.eqb MAX_RETRIES].
    rewrite (retry_loop_retryable env f 1 _ m1 m2 s1 t1 R1 H1). cbn [Nat.eqb MAX_RETRIES].
    rewrite (retry_loop_retryable env f 2 _ m2 m3 s2 t2 R2 H2). cbn [Nat.eqb MAX_RETRIES].
    rewrite (retry_loop_retryable env f 3 _ m3 m4 s3 t3 R3 H3). reflexivity. }
  split; [exact A|]. split; [|split; [exact B|]].
  - intros c params m r t0 t1 Hc H1 H2 H3.
    eexists. split.
    + apply (A (search_request params) m
               (requested m)
               (requested (slept (RETRY_DELAY env * inject_Z (2 ^ 0)) (requested m)))
               _ r t0 t1).
      * rewrite (search_request_through c) by exact Hc. rewrite H1. reflexivity.
      * rewrite (search_request_through c) by exact Hc.
        cbn [slept requested time_sleep modify_world snd world requests].
        cbn in H2. rewrite H2. reflexivity.
      * rewrite (search_request_through c) by exact Hc.
        cbn [slept requested time_sleep modify_world snd world requests].
        cbn in H3. rewrite H3. reflexivity.
    + cbn. rewrite <- app_assoc. split; reflexivity.
  - intros c params m status text Hc Hall.
    destruct (Hall 0%nat ltac:(unfold MAX_RETRIES; lia)) as [R0 H0].
    destruct (Hall 1%nat ltac:(unfold MAX_RETRIES; lia)) as [R1 H1].
    destruct (Hall 2%nat ltac:(unfold MAX_RETRIES; lia)) as [R2 H2].
    destruct (Hall 3%nat ltac:(unfold MAX_RETRIES; lia)) as [R3 H3].
    cbn in H0, H1, H2, H3.
    eexists. split.
    + apply (B (search_request params) m
               (requested m)
               (requested (slept (RETRY_DELAY env * inject_Z (2 ^ 0)) (requested m)))
               (requested (slept (RETRY_DELAY env * inject_Z (2 ^ 1))
                  (requested (slept (RETRY_DELAY env * inject_Z (2 ^ 0)) (requested m)))))
               _ (status 0%nat) (status 1%nat) (status 2%nat) (status 3%nat)
               (text 0%nat) (text 1%nat) (text 2%nat) (text 3%nat) R0 R1 R2 R3).
      * rewrite (search_request_through c) by exact Hc. rewrite H0. reflexivity.
      * rewrite (search_request_through c) by exact Hc.
        cbn [slept requested time_sleep modify_world snd world requests].
        rewrite H1. reflexivity.
      * rewrite (search_request_through c) by exact Hc.
        cbn [slept requested time_sleep modify_world snd world requests].
        rewrite H2. reflexivity.
      * rewrite (search_request_through c) by exact Hc.
        cbn [slept requested time_sleep modify_world snd world requests].
        rewrite H3. reflexivity.
    + cbn. rewrite <- !app_assoc. split; reflexivity.
Qed.

Lemma C4_retry_with_backoff_witness :
  box_client (self (machine_with client_limited_twice (order_new "full"))) =
    Some client_limited_twice /\
  make_request client_limited_twice params0 0 =
    Err (BoxAPIException 429 "Too Many Requests") /\
  make_request client_limited_twice params0 1 =
    Err (BoxAPIException 429 "Too Many Requests") /\
  make_request client_limited_twice params0 2 = Ok (Some empty_page) /\
  exists m',
    _execute_with_retry (env_with client_limited_twice) (search_request params0)
      (machine_with client_limited_twice (order_new "full")) =
      (Ok (Some empty_page), m') /\
    sleeps (world m') =
      [(1 * inject_Z (2 ^ 0))%Q; (1 * inject_Z (2 ^ 1))%Q] /\
    requests (world m') = 3%nat.
Proof.
  repeat (split; [reflexivity|]).
  exact (proj1 (proj2 (C4_retry_with_backoff (env_with client_limited_twice)))
           client_limited_twice params0
           (machine_with client_limited_twice (order_new "full"))
           (Some empty_page) "Too Many Requests" "Too Many Requests"
           eq_refl eq_refl eq_refl eq_refl).
Defined.




(** ** Folder walk *)

Section Walk.
Variable env : Env.

Lemma same_cursor_state_refl m : same_cursor_state m m.
Proof. repeat split. Qed.

Lemma same_cursor_state_trans m1 m2 m3 :
  same_cursor_state m1 m2 -> same_cursor_state m2 m3 -> same_cursor_state m1 m3.
Proof.
  unfold same_cursor_state.
  intros (A1 & A2 & A3 & A4 & A5 & A6 & A7 & A8) (B1 & B2 & B3 & B4 & B5 & B6 & B7 & B8).
  repeat split; congruence.
Qed.

Lemma search_request_frame params m r m' :
  search_request params m = (r, m') -> same_cursor_state m m'.
Proof.
  unfold search_request. destruct (box_client (self m)); intros H; inversion H; subst;
    repeat split.
Qed.

Lemma slept_frame d m : same_cursor_state m (slept d m).
Proof. repeat split. Qed.

Lemma retry_loop_frame params retries :
  forall m r m',
    retry_loop env (search_request params) retries m = (r, m') ->
    same_cursor_state m m'.
Proof.
  induction retries as [|retry rest IH]; intros m r m' H.
  - inversion H; subst. apply same_cursor_state_refl.
  - rewrite retry_loop_cons in H.
    destruct (search_request params _) as [[x|e] m1] eqn:E.
    + inversion H; subst. apply search_request_frame in E.
      eapply same_cursor_state_trans; [|exact E].
      destruct (0 <? retry)%nat; [apply slept_frame|apply same_cursor_state_refl].
    + apply search_request_frame in E.
      assert (F : same_cursor_state m m1).
      { eapply same_cursor_state_trans; [|exact E].
        destruct (0 <? retry)%nat; [apply slept_frame|apply same_cursor_state_refl]. }
      destruct e;
        repeat match type of H with
               | context [if ?b then _ else _] => destruct b
               end;
        first [ inversion H; subst; exact F
              | eapply same_cursor_state_trans; [exact F|]; eapply IH; exact H ].
Qed.

Lemma execute_frame params m r m' :
  _execute_with_retry env (search_request params) m = (r, m') ->
  same_cursor_state m m'.
Proof. apply retry_loop_frame. Qed.

(** Case analysis on every test a walk makes after its request, closing
    each leaf with the frame [F] of the request. *)
Ltac walk_frame H F :=
  repeat match type of H with
         | context [match ?x with _ => _ end] =>
             match x with
             | context [match _ with _ => _ end] => fail 1
             | _ => destruct x eqn:?
             end
         end;
  inversion H; subst;
  (eapply same_cursor_state_trans; [exact F|]); repeat split.

Lemma scan_folder_frame folder_id offset max_files m r m' :
  _scan_folder env folder_id offset max_files m = (r, m') ->
  same_cursor_state m m'.
Proof.
  unfold _scan_folder, try_except, bind, lift, ret, raise, modify_self, rbind.
  cbn [time_sleep modify_world].
  change {| self := self m; order := order m;
            world := {| clock := clock (world m); reads := reads (world m);
                        sleeps := sleeps (world m) ++ [RATE_LIMIT_DELAY];
                        requests := requests (world m);
                        persisted := persisted (world m) |} |}
    with (slept RATE_LIMIT_DELAY m).
  intros H.
  destruct (_execute_with_retry env _ (slept RATE_LIMIT_DELAY m)) as [x m1] eqn:E.
  apply execute_frame in E.
  assert (F : same_cursor_state m m1).
  { eapply same_cursor_state_trans; [apply slept_frame|exact E]. }
  clear E.
  walk_frame H F.

Qed.

Lemma scan_folder_incremental_frame folder_id modified_since offset max_files m r m' :
  _scan_folder_incremental env folder_id modified_since offset max_files m = (r, m') ->
  same_cursor_state m m'.
Proof.
  unfold _scan_folder_incremental, try_except, bind, lift, ret, raise, modify_self, rbind.
  cbn [time_sleep modify_world].
  change {| self := self m; order := order m;
            world := {| clock := clock (world m); reads := reads (world m);
                        sleeps := sleeps (world m) ++ [RATE_LIMIT_DELAY];
                        requests := requests (world m);
                        persisted := persisted (world m) |} |}
    with (slept RATE_LIMIT_DELAY m).
  intros H.
  destruct (_execute_with_retry env _ (slept RATE_LIMIT_DELAY m)) as [x m1] eqn:E.
  apply execute_frame in E.
  assert (F : same_cursor_state m m1).
  { eapply same_cursor_state_trans; [apply slept_frame|exact E]. }
  clear E.
  walk_frame H F.
Qed.

(** The walks, once the request has returned a response. *)
Lemma scan_folder_no_entries folder_id offset max_files m response m1 :
  _execute_with_retry env
    (search_request (search_params_full folder_id offset max_files))
    (slept RATE_LIMIT_DELAY m) = (Ok response, m1) ->
  lacks_entries response ->
  fst (_scan_folder env folder_id offset max_files m) = Ok ([], false).
Proof.
  intros E L.
  unfold _scan_folder, try_except, bind, lift, ret, modify_self.
  cbn [time_sleep modify_world].
  change {| self := self m; order := order m;
            world := {| clock := clock (world m); reads := reads (world m);
                        sleeps := sleeps (world m) ++ [RATE_LIMIT_DELAY];
                        requests := requests (world m);
                        persisted := persisted (world m) |} |}
    with (slept RATE_LIMIT_DELAY m).
  rewrite E.
  destruct L as [->|(r & d & -> & Hj & Ht)].
  - reflexivity.
  - cbn [response_json_of]. rewrite Hj.
    destruct d as [|kv d']; [reflexivity|].
    cbn [truthy negb py_get rbind]. cbn [truthy] in Ht. rewrite Ht. reflexivity.
Qed.

Lemma scan_folder_incremental_no_entries folder_id modified_since offset max_files
  m response m1 :
  _execute_with_retry env
    (search_request (search_params_incremental folder_id modified_since offset max_files))
    (slept RATE_LIMIT_DELAY m) = (Ok response, m1) ->
  lacks_entries response ->
  fst (_scan_folder_incremental env folder_id modified_since offset max_files m) =
    Ok ([], false).
Proof.
  intros E L.
  unfold _scan_folder_incremental, try_except, bind, lift, ret, modify_self.
  cbn [time_sleep modify_world].
  change {| self := self m; order := order m;
            world := {| clock := clock (world m); reads := reads (world m);
                        sleeps := sleeps (world m) ++ [RATE_LIMIT_DELAY];
                        requests := requests (world m);
                        persisted := persisted (world m) |} |}
    with (slept RATE_LIMIT_DELAY m).
  rewrite E.
  destruct L as [->|(r & d & -> & Hj & Ht)].
  - reflexivity.
  - cbn [response_json_of]. rewrite Hj.
    cbn [py_get rbind]. rewrite Ht. reflexivity.
Qed.

End Walk.

(** C7 fails as stated: a response whose body is a JSON array instead of
    an object is delivered by the executor, and both walks raise
    [AttributeError] on it (a list has no [get]); the batch ends in an
    error result. *)
Lemma C7_counterexample :
  fst (_execute_with_retry (env_with (client_answering array_body))
         (search_request params0)
         (slept RATE_LIMIT_DELAY
            (machine_with (client_answering array_body) (order_new "full")))) =
    Ok (Some {| resp_json := Ok array_body |}) /\
  fst (_scan_folder (env_with (client_answering array_body)) "0" 0 MAX_BATCH_SIZE
         (machine_with (client_answering array_body) (order_new "full"))) =
    Err (AttributeError "'list' object has no attribute 'get'") /\
  fst (_scan_folder_incremental (env_with (client_answering array_body)) "0"
         "1970-01-01T00:00:00Z" 0 MAX_BATCH_SIZE
         (machine_with (client_answering array_body) (order_new "incremental"))) =
    Err (AttributeError "'list' object has no attribute 'get'") /\
  exists res,
    fst (scan (env_with (client_answering array_body)) __init__ data_source0
           (order_new "full") world0) = Ok res /\
    error res =
      Some "Error in full scan of Box: 'list' object has no attribute 'get'".
Proof.
  split; [vm_compute; reflexivity|].
  split; [vm_compute; reflexivity|].
  split; [vm_compute; reflexivity|].
  eexists. split; vm_compute; reflexivity.
Qed.

(** C7, amended. When the request returns no response object, or a
    response whose body is a JSON object in which ["entries"] is missing
    or empty, the folder walk of either mode returns no records and
    [has_more = False]. *)
Theorem C7_walk_without_entries (env : Env) :
  forall folder_id modified_since offset max_files m response m1,
    lacks_entries response ->
    (_execute_with_retry env
       (search_request (search_params_full folder_id offset max_files))
       (slept RATE_LIMIT_DELAY m) = (Ok response, m1) ->
     fst (_scan_folder env folder_id offset max_files m) = Ok ([], false)) /\
    (_execute_with_retry env
       (search_request
          (search_params_incremental folder_id modified_since offset max_files))
       (slept RATE_LIMIT_DELAY m) = (Ok response, m1) ->
     fst (_scan_folder_incremental env folder_id modified_since offset max_files m) =
       Ok ([], false)).
Proof.
  intros folder_id modified_since offset max_files m response m1 L. split; intros E.
  - eapply scan_folder_no_entries; eassumption.
  - eapply scan_folder_incremental_no_entries; eassumption.
Qed.

Lemma C7_walk_without_entries_witness :
  lacks_entries (Some empty_page) /\
  fst (_scan_folder (env_with (client_answering (JDict []))) "0" 0 MAX_BATCH_SIZE
         (machine_with (client_answering (JDict [])) (order_new "full"))) =
    Ok ([], false).
Proof.
  assert (L : lacks_entries (Some empty_page)).
  { right. exists empty_page, []. repeat split. }
  split; [exact L|].
  exact (proj1 (C7_walk_without_entries (env_with (client_answering (JDict [])))
                  "0" "" 0 MAX_BATCH_SIZE
                  (machine_with (client_answering (JDict [])) (order_new "full"))
                  (Some empty_page)
                  (requested (slept RATE_LIMIT_DELAY
                     (machine_with (client_answering (JDict [])) (order_new "full"))))
                  L)
           ltac:(vm_compute; reflexivity)).
Defined.

Section HasMore.

Variable env : Env.

(** Incremental mode: on a page with entries and an integer total,
    [has_more] compares the offset plus the records delivered with the
    total. *)
Lemma scan_folder_incremental_has_more folder_id modified_since offset max_files
  m r m1 d items total :
  _execute_with_retry env
    (search_request (search_params_incremental folder_id modified_since offset max_files))
    (slept RATE_LIMIT_DELAY m) = (Ok (Some r), m1) ->
  resp_json r = Ok (JDict d) ->
  assoc "entries" d = Some items ->
  truthy items = true ->
  assoc "total_count" d = Some (JInt total) ->
  forall records more,
    fst (_scan_folder_incremental env folder_id modified_since offset max_files m) =
      Ok (records, more) ->
    (more = true <-> offset + Z.of_nat (List.length records) < total).
Proof.
  intros E Hj He Ht Hc records more.
  unfold _scan_folder_incremental, try_except, bind, lift, ret, modify_self.
  cbn [time_sleep modify_world].
  change {| self := self m; order := order m;
            world := {| clock := clock (world m); reads := reads (world m);
                        sleeps := sleeps (world m) ++ [RATE_LIMIT_DELAY];
                        requests := requests (world m);
                        persisted := persisted (world m) |} |}
    with (slept RATE_LIMIT_DELAY m).
  rewrite E. cbn [response_json_of]. rewrite Hj.
  cbn [py_get rbind]. rewrite He, Ht, Hc. cbn [negb].
  destruct (py_len items) as [n|e1]; [|discriminate].
  destruct (py_iter items) as [item_list|e2]; [|discriminate].
  cbn [py_int_lt fst]. intros H. inversion H; subst.
  apply Z.ltb_lt.
Qed.

(** Full mode: on a page that is a list with an integer total, [has_more]
    is set when the items loop stopped at [max_files], and otherwise
    compares the offset plus the number of entries of the page with the
    total. *)
Lemma scan_folder_has_more folder_id offset max_files m r m1 d e es total :
  _execute_with_retry env
    (search_request (search_params_full folder_id offset max_files))
    (slept RATE_LIMIT_DELAY m) = (Ok (Some r), m1) ->
  resp_json r = Ok (JDict d) ->
  assoc "entries" d = Some (JList (e :: es)) ->
  assoc "total_count" d = Some (JInt total) ->
  forall records more,
    fst (_scan_folder env folder_id offset max_files m) = Ok (records, more) ->
    exists l,
      items_loop_full env folder_id max_files (e :: es) no_locals = Ok l /\
      records = file_metadata_list l /\
      (more = true <->
       has_more l = true \/ offset + Z.of_nat (List.length (e :: es)) < total).
Proof.
  intros E Hj He Hc records more.
  unfold _scan_folder, try_except, bind, lift, ret, modify_self.
  cbn [time_sleep modify_world].
  change {| self := self m; order := order m;
            world := {| clock := clock (world m); reads := reads (world m);
                        sleeps := sleeps (world m) ++ [RATE_LIMIT_DELAY];
                        requests := requests (world m);
                        persisted := persisted (world m) |} |}
    with (slept RATE_LIMIT_DELAY m).
  rewrite E. cbn [response_json_of]. rewrite Hj.
  assert (Hd : truthy (JDict d) = true) by (destruct d; [discriminate|reflexivity]).
  rewrite Hd. cbn [negb py_get rbind]. rewrite He, Hc.
  cbn [truthy negb py_first py_iter].
  destruct (items_loop_full env folder_id max_files (e :: es) no_locals) as [l|e1];
    [|discriminate].
  intros H. exists l. split; [reflexivity|].
  destruct (has_more l) eqn:Hm; cbn [negb py_len py_int_lt rbind fst] in H.
  - inversion H; subst. split; [reflexivity|]. tauto.
  - destruct (offset + Z.of_nat (List.length (e :: es)) <? total) eqn:Hlt;
      inversion H; subst; (split; [reflexivity|]).
    + apply Z.ltb_lt in Hlt. tauto.
    + apply Z.ltb_ge in Hlt. split; [discriminate|]. intros [F|F]; [discriminate|lia].
Qed.

End HasMore.

(** C1. The code departs from the claim in full mode.  On a page of two
    entries out of a total of two, the second of which cannot be
    normalised ([parent] is [null]), one record is delivered from offset
    0, so that [offset + itemsReturned < totalCount]; the incremental walk
    answers [has_more = True], the full walk answers [has_more = False],
    and the full scan reports the sweep complete and resets the cursor. *)
Theorem C1_has_more_differs_between_modes :
  (exists records,
     fst (_scan_folder (env_with (client_answering page_with_orphan)) "0" 0
            MAX_BATCH_SIZE
            (machine_with (client_answering page_with_orphan) (order_new "full"))) =
       Ok (records, false) /\
     List.length records = 1%nat /\
     0 + Z.of_nat (List.length records) < 2) /\
  (exists records,
     fst (_scan_folder_incremental (env_with (client_answering page_with_orphan)) "0"
            "1970-01-01T00:00:00Z" 0 MAX_BATCH_SIZE
            (machine_with (client_answering page_with_orphan)
               (order_new "incremental"))) =
       Ok (records, true) /\
     List.length records = 1%nat) /\
  (exists res m',
     scan (env_with (client_answering page_with_orphan)) __init__ data_source0
       (order_new "full") world0 = (Ok res, m') /\
     is_completed res = true /\
     List.length (files res) = 1%nat /\
     c_current_offset (cursor_of (order m')) = Some 0).
Proof.
  split; [|split].
  - eexists. split; [vm_compute; reflexivity|]. split; [reflexivity|reflexivity].
  - eexists. split; [vm_compute; reflexivity|]. reflexivity.
  - eexists. eexists. split; [vm_compute; reflexivity|]. repeat split.
Qed.
(** ** Scan modes and entry point, step by step *)

Section Batch.
Variable env : Env.

Lemma save_scan_state_eq (m : Machine) :
  _save_scan_state env m = (save_outcome env m, saved_state m).
Proof.
  unfold _save_scan_state, save_outcome, saved_state, next_cursor, bind, lift.
  destruct m as [s o w]. cbn. destruct (update_scan_metadata env _ _ _); reflexivity.
Qed.

Lemma create_error_result_eq (error_msg : string) (m : Machine) :
  create_error_result error_msg (scan_started_at (self m)) m =
    (Ok (error_result error_msg m), ticked m).
Proof. reflexivity. Qed.

(** The end of a batch whose walk returned: the result is assembled when
    the adapter has accepted the cursor, and what the adapter raises is
    raised. *)
Lemma finish_batch_eq (records : list FileMetadata) (more : bool) (m : Machine) :
  finish_batch env (records, more) m =
    match save_outcome env (advanced_state (Z.of_nat (List.length records)) more m) with
    | Ok _ =>
        (Ok (batch_result records more
               (saved_state (advanced_state (Z.of_nat (List.length records)) more m))),
         ticked (ticked
           (saved_state (advanced_state (Z.of_nat (List.length records)) more m))))
    | Err e =>
        (Err e, saved_state (advanced_state (Z.of_nat (List.length records)) more m))
    end.
Proof.
  unfold finish_batch. cbn [app].
  unfold bind at 1. cbn [modify_self].
  unfold bind at 1.
  assert (E : (if more
               then modify_self
                      (fun s => set_current_offset
                                  (current_offset s + Z.of_nat (List.length records)) s)
               else modify_self (set_current_offset 0))
                {| self := set_processed_files_count
                             (processed_files_count (self m) +
                              Z.of_nat (List.length records)) (self m);
                   order := order m; world := world m |} =
              (Ok tt, advanced_state (Z.of_nat (List.length records)) more m)).
  { destruct more; reflexivity. }
  rewrite E. unfold bind at 1. rewrite save_scan_state_eq.
  destruct (save_outcome env _) as [[]|e]; reflexivity.
Qed.

(** The handler shared by [scan] and the two modes: with a client it
    saves the cursor first, and what the adapter raises leaves the
    handler. *)
Lemma on_failure_eq (prefix : string) (e : exn) (m : Machine) :
  on_failure env prefix e m =
    match box_client (self m) with
    | Some _ =>
        match save_outcome env m with
        | Ok _ =>
            (Ok (error_result (prefix ++ str_exn e) (saved_state m)),
             ticked (saved_state m))
        | Err e' => (Err e', saved_state m)
        end
    | None => (Ok (error_result (prefix ++ str_exn e) m), ticked m)
    end.
Proof.
  unfold on_failure. unfold bind at 1. cbn [get_self].
  destruct (box_client (self m)) eqn:Hc.
  - unfold bind at 1. rewrite save_scan_state_eq.
    destruct (save_outcome env m) as [[]|e']; reflexivity.
  - reflexivity.
Qed.

Lemma full_scan_unfold (data_source : DataSource) (m : Machine) :
  _full_scan env data_source m =
  match _scan_folder env (root_folder_id_of data_source)
          (offset_of (cursor_of (order m))) MAX_BATCH_SIZE (walk_state m) with
  | (Ok walked, m1) =>
      match finish_batch env walked m1 with
      | (Ok res, m2) => (Ok res, m2)
      | (Err e, m2) => on_failure env "Error in full scan of Box: " e m2
      end
  | (Err e, m1) => on_failure env "Error in full scan of Box: " e m1
  end.
Proof.
  unfold _full_scan, bind at 1 2 3 4 5, try_except.
  cbn [reset_counters bind time_time modify_self get_order get_self self order world
       set_current_offset current_offset].
  change {| self := _; order := order m; world := tick (world m) |} with (walk_state m).
  destruct (_scan_folder env _ _ _ (walk_state m)) as [[walked|e] m1]; reflexivity.
Qed.

Lemma incremental_scan_unfold (data_source : DataSource) (m : Machine) :
  _incremental_scan env data_source m =
  match reference_timestamp env data_source (order m) with
  | Err e => (Err e, reset_state m)
  | Ok scan_from =>
      match format_to_rfc3339_box env scan_from with
      | Err e => on_failure env "Error in incremental scan of Box: " e (reset_state m)
      | Ok scan_from_str =>
          match _scan_folder_incremental env (root_folder_id_of data_source)
                  (replace ".000Z" "Z" scan_from_str)
                  (offset_of (cursor_of (order m))) MAX_BATCH_SIZE (walk_state m) with
          | (Ok walked, m1) =>
              match finish_batch env walked m1 with
              | (Ok res, m2) => (Ok res, m2)
              | (Err e, m2) => on_failure env "Error in incremental scan of Box: " e m2
              end
          | (Err e, m1) => on_failure env "Error in incremental scan of Box: " e m1
          end
      end
  end.
Proof.
  unfold _incremental_scan, try_except, lift, bind.
  cbn [reset_counters bind time_time modify_self get_order get_self self order world].
  change {| self := counters_reset (now (world m)) (self m);
            order := order m; world := tick (world m) |} with (reset_state m).
  destruct (reference_timestamp env data_source (order m)) as [scan_from|e];
    [|reflexivity].
  destruct (format_to_rfc3339_box env scan_from) as [scan_from_str|e]; [|reflexivity].
  cbn [modify_self get_self reset_state self order world set_current_offset
       current_offset].
  change {| self := _; order := order m; world := tick (world m) |} with (walk_state m).
  destruct (_scan_folder_incremental env _ _ _ _ (walk_state m))
    as [[walked|e] m1]; reflexivity.
Qed.

Lemma offset_of_falsy_cursor (c : Cursor) :
  cursor_truthy c = false -> offset_of c = 0.
Proof.
  unfold cursor_truthy, offset_of.
  destruct (c_current_offset c); [discriminate|reflexivity].
Qed.

Lemma scan_unfold (s : BoxStrategy) (data_source : DataSource)
  (scan_order : ScanOrder) (w : World) (auth : AuthResult) (c : BoxClient) :
  _authenticate env data_source = Ok (Some auth) ->
  service auth = Some c ->
  scan env s data_source scan_order w =
  match (if incremental_mode scan_order
         then _incremental_scan env data_source
         else _full_scan env data_source) (dispatch_state s c scan_order w) with
  | (Ok result, m') =>
      (Ok (merge_credentials (auth_updated_credentials auth) result), m')
  | (Err e, m') => on_failure env "Error scanning Box: " e m'
  end.
Proof.
  intros Ha Hc. unfold scan, try_except, scan_body, lift, bind.
  cbn [reset_counters bind time_time modify_self self order world].
  rewrite Ha.
  cbn [modify_self get_self get_order self order world set_box_client box_client].
  rewrite Hc. unfold dispatch_state.
  cbn [get_order order self world].
  destruct (cursor_truthy (cursor_of scan_order)) eqn:T;
    cbn [_restore_scan_state _initialize_scan_state modify_self self order world];
    rewrite ?(offset_of_falsy_cursor _ T);
    (destruct (incremental_mode scan_order);
     match goal with
     | |- context [_incremental_scan env data_source ?m0] =>
         destruct (_incremental_scan env data_source m0) as [[result|e] m']
     | |- context [_full_scan env data_source ?m0] =>
         destruct (_full_scan env data_source m0) as [[result|e] m']
     end; reflexivity).
Qed.

Lemma scan_not_authenticated (s : BoxStrategy) (data_source : DataSource)
  (scan_order : ScanOrder) (w : World) :
  _authenticate env data_source = Ok None ->
  scan env s data_source scan_order w =
    (Ok (error_result "Failed to authenticate with Box"
           {| self := counters_reset (now w) s; order := scan_order; world := tick w |}),
     {| self := counters_reset (now w) s; order := scan_order;
        world := tick (tick w) |}).
Proof.
  intros Ha. unfold scan, try_except, scan_body, lift, bind.
  cbn [reset_counters bind time_time modify_self self order world].
  rewrite Ha. reflexivity.
Qed.

Lemma scan_without_client (s : BoxStrategy) (data_source : DataSource)
  (scan_order : ScanOrder) (w : World) (auth : AuthResult) :
  _authenticate env data_source = Ok (Some auth) ->
  service auth = None ->
  scan env s data_source scan_order w =
    (Ok (error_result "Failed to initialize Box client"
           {| self := set_box_client None (counters_reset (now w) s);
              order := scan_order; world := tick w |}),
     {| self := set_box_client None (counters_reset (now w) s);
        order := scan_order; world := tick (tick w) |}).
Proof.
  intros Ha Hc. unfold scan, try_except, scan_body, lift, bind.
  cbn [reset_counters bind time_time modify_self self order world].
  rewrite Ha.
  cbn [modify_self get_self self order world set_box_client box_client].
  rewrite Hc. reflexivity.
Qed.

Lemma scan_authentication_raises (s : BoxStrategy)
  (data_source : DataSource) (scan_order : ScanOrder) (w : World) (e : exn) :
  _authenticate env data_source = Err e ->
  scan env s data_source scan_order w =
    on_failure env "Error scanning Box: " e
      {| self := counters_reset (now w) s; order := scan_order; world := tick w |}.
Proof.
  intros Ha. unfold scan, try_except, scan_body, lift, bind.
  cbn [reset_counters bind time_time modify_self self order world].
  rewrite Ha. reflexivity.
Qed.

Lemma merge_credentials_fields (credentials : json) (res : ScanResult) :
  files (merge_credentials credentials res) = files res /\
  is_completed (merge_credentials credentials res) = is_completed res /\
  stats (merge_credentials credentials res) = stats res /\
  error (merge_credentials credentials res) = error res.
Proof. unfold merge_credentials. destruct (truthy credentials); repeat split. Qed.

End Batch.

(** ** Cursor advance *)

Lemma accepts_all_from (env : Env) (id : string) (k0 : nat) :
  accepts env id -> accepts_from env id k0.
Proof. intros H cursor_data k _. apply H. Qed.

Lemma accepts_from_later (env : Env) (id : string) (k0 k1 : nat) :
  (k0 <= k1)%nat -> accepts_from env id k0 -> accepts_from env id k1.
Proof. intros Hk H cursor_data k Hk1. apply H. lia. Qed.

Lemma save_accepted (env : Env) (m : Machine) (k0 : nat) :
  accepts_from env (so_id (order m)) k0 ->
  (k0 <= List.length (persisted (world m)))%nat ->
  save_outcome env m = Ok tt.
Proof. intros H Hk. unfold save_outcome. apply H. exact Hk. Qed.

(** The state in which a batch saves its cursor after a walk that
    returned. *)
Lemma advanced_after_walk (m m1 : Machine) (n : Z) (more : bool) :
  same_cursor_state (walk_state m) m1 ->
  current_offset (self (advanced_state n more m1)) =
    advance (offset_of (cursor_of (order m))) n more /\
  box_client (self (advanced_state n more m1)) = box_client (self m) /\
  order (advanced_state n more m1) = order m /\
  persisted (world (advanced_state n more m1)) = persisted (world m).
Proof.
  intros (Fc & Fk & _ & _ & Fo & Fp & _).
  cbn [advanced_state self order world current_offset set_current_offset box_client
       set_processed_files_count].
  rewrite Fk, Fc, Fo, Fp. repeat split.
Qed.

(** After a folder walk that returned, a mode leaves the advanced offset
    in the instance and in the cursor of the scan order, whatever the
    adapter answers; when the adapter accepts the cursor, the mode returns
    a result and has handed over this one cursor. *)
Lemma finish_after_walk (env : Env) (prefix : string) (m m1 : Machine)
  (records : list FileMetadata) (more : bool) :
  same_cursor_state (walk_state m) m1 ->
  (exists r m',
     match finish_batch env (records, more) m1 with
     | (Ok res, m2) => (Ok res, m2)
     | (Err e, m2) => on_failure env prefix e m2
     end = (r, m') /\
     current_offset (self m') =
       advance (offset_of (cursor_of (order m))) (Z.of_nat (List.length records)) more /\
     offset_of (cursor_of (order m')) =
       advance (offset_of (cursor_of (order m))) (Z.of_nat (List.length records)) more) /\
  (accepts_from env (so_id (order m)) (List.length (persisted (world m))) ->
   exists res m',
     match finish_batch env (records, more) m1 with
     | (Ok res, m2) => (Ok res, m2)
     | (Err e, m2) => on_failure env prefix e m2
     end = (Ok res, m') /\
     current_offset (self m') =
       advance (offset_of (cursor_of (order m))) (Z.of_nat (List.length records)) more /\
     cursor_saved
       (advance (offset_of (cursor_of (order m))) (Z.of_nat (List.length records)) more)
       m m').
Proof.
  intros F.
  destruct (advanced_after_walk m m1 (Z.of_nat (List.length records)) more F)
    as (Hk & Hc & Ho & Hp).
  rewrite finish_batch_eq.
  remember (advanced_state (Z.of_nat (List.length records)) more m1) as a eqn:Ea.
  clear Ea.
  split.
  - destruct (save_outcome env a) as [[]|e].
    + eexists. eexists. split; [reflexivity|]. cbn. rewrite Hk. split; reflexivity.
    + rewrite on_failure_eq. cbn [saved_state self].
      destruct (box_client (self a)).
      * destruct (save_outcome env (saved_state a)) as [[]|e'];
          eexists; eexists; (split; [reflexivity|]); cbn; rewrite Hk; split; reflexivity.
      * eexists. eexists. split; [reflexivity|]. cbn. rewrite Hk. split; reflexivity.
  - intros A.
    rewrite (save_accepted env a (List.length (persisted (world m)))).
    + eexists. eexists. split; [reflexivity|]. split; [exact Hk|].
      exists (now (world a)). cbn. unfold next_cursor. rewrite Hk, Ho, Hp.
      split; reflexivity.
    + rewrite Ho. exact A.
    + rewrite Hp. apply Nat.le_refl.
Qed.

(** C2. In both scan modes, when the folder walk returns [n] records and
    the flag [has_more] from the offset [k] of the cursor, the batch
    leaves [advance k n has_more] in the instance and in the cursor of the
    scan order: [k + n] if [has_more] holds, and 0 otherwise.  This holds
    whatever the persistence adapter answers; when the adapter accepts the
    cursor, the mode returns a result and this cursor is the one cursor it
    has handed over. *)
Theorem C2_cursor_advance (env : Env) :
  forall data_source m records more m1,
    (_scan_folder env (root_folder_id_of data_source)
       (offset_of (cursor_of (order m))) MAX_BATCH_SIZE (walk_state m) =
       (Ok (records, more), m1) ->
     (exists r m',
        _full_scan env data_source m = (r, m') /\
        current_offset (self m') =
          advance (offset_of (cursor_of (order m)))
            (Z.of_nat (List.length records)) more /\
        offset_of (cursor_of (order m')) =
          advance (offset_of (cursor_of (order m)))
            (Z.of_nat (List.length records)) more) /\
     (accepts_from env (so_id (order m)) (List.length (persisted (world m))) ->
      exists res m',
        _full_scan env data_source m = (Ok res, m') /\
        current_offset (self m') =
          advance (offset_of (cursor_of (order m)))
            (Z.of_nat (List.length records)) more /\
        cursor_saved
          (advance (offset_of (cursor_of (order m)))
             (Z.of_nat (List.length records)) more) m m')) /\
    (forall scan_from scan_from_str,
       reference_timestamp env data_source (order m) = Ok scan_from ->
       format_to_rfc3339_box env scan_from = Ok scan_from_str ->
       _scan_folder_incremental env (root_folder_id_of data_source)
         (replace ".000Z" "Z" scan_from_str)
         (offset_of (cursor_of (order m))) MAX_BATCH_SIZE (walk_state m) =
         (Ok (records, more), m1) ->
       (exists r m',
          _incremental_scan env data_source m = (r, m') /\
          current_offset (self m') =
            advance (offset_of (cursor_of (order m)))
              (Z.of_nat (List.length records)) more /\
          offset_of (cursor_of (order m')) =
            advance (offset_of (cursor_of (order m)))
              (Z.of_nat (List.length records)) more) /\
       (accepts_from env (so_id (order m)) (List.length (persisted (world m))) ->
        exists res m',
          _incremental_scan env data_source m = (Ok res, m') /\
          current_offset (self m') =
            advance (offset_of (cursor_of (order m)))
              (Z.of_nat (List.length records)) more /\
          cursor_saved
            (advance (offset_of (cursor_of (order m)))
               (Z.of_nat (List.length records)) more) m m')).
Proof.
  intros data_source m records more m1. split.
  - intros W. rewrite full_scan_unfold, W.
    exact (finish_after_walk env _ m m1 records more
             (scan_folder_frame env _ _ _ _ _ _ W)).
  - intros scan_from scan_from_str Hr Hf W.
    rewrite incremental_scan_unfold, Hr, Hf, W.
    exact (finish_after_walk env _ m m1 records more
             (scan_folder_incremental_frame env _ _ _ _ _ _ _ W)).
Qed.

Lemma C2_cursor_advance_witness :
  fst (_scan_folder env_one_of_five (root_folder_id_of data_source0)
         (offset_of (cursor_of (order machine_at_2))) MAX_BATCH_SIZE
         (walk_state machine_at_2)) = Ok ([record_a], true) /\
  accepts_from env_one_of_five (so_id (order machine_at_2))
    (List.length (persisted (world machine_at_2))) /\
  exists res m',
    _full_scan env_one_of_five data_source0 machine_at_2 = (Ok res, m') /\
    current_offset (self m') = advance 2 1 true /\
    cursor_saved (advance 2 1 true) machine_at_2 m'.
Proof.
  assert (A : accepts_from env_one_of_five (so_id (order machine_at_2))
                (List.length (persisted (world machine_at_2)))).
  { intros cursor_data k _. reflexivity. }
  split; [vm_compute; reflexivity|]. split; [exact A|].
  refine (proj2 (proj1 (C2_cursor_advance env_one_of_five data_source0 machine_at_2
                   [record_a] true
                   (snd (_scan_folder env_one_of_five (root_folder_id_of data_source0)
                           (offset_of (cursor_of (order machine_at_2))) MAX_BATCH_SIZE
                           (walk_state machine_at_2)))) _) A).
  vm_compute. reflexivity.
Defined.

(** ** Every way through [scan] *)

(** [self.box_client] after a walk started by [scan] from the client
    [c]. *)
Lemma client_after_walk (s : BoxStrategy) (c : BoxClient) (scan_order : ScanOrder)
  (w : World) (m1 : Machine) :
  same_cursor_state (walk_state (dispatch_state s c scan_order w)) m1 ->
  box_client (self m1) = Some c /\
  current_offset (self m1) = offset_of (cursor_of scan_order) /\
  scan_started_at (self m1) = Some (now (tick w)) /\
  order m1 = scan_order /\
  persisted (world m1) = persisted w /\
  clock (world m1) = clock w /\
  reads (world m1) = S (S (reads w)).
Proof.
  intros (Fc & Fk & _ & Fs & Fo & Fp & Fck & Fr).
  repeat split; assumption.
Qed.

(** The outcome of [scan] written out along every way the control can
    take: authentication, the selected mode, its reference timestamp, its
    walk, and each call of the persistence adapter. *)
Ltac scan_paths env s ds so w :=
  let auth := fresh "auth" in
  let c := fresh "c" in
  let e0 := fresh "e0" in
  let Ha := fresh "Ha" in
  let Hc := fresh "Hc" in
  let Hm := fresh "Hm" in
  let Hr := fresh "Hr" in
  let Hf := fresh "Hf" in
  let W := fresh "W" in
  let F := fresh "F" in
  let m1 := fresh "m1" in
  let records := fresh "records" in
  let more := fresh "more" in
  let scan_from := fresh "scan_from" in
  let scan_from_str := fresh "scan_from_str" in
  destruct (_authenticate env ds) as [[auth|]|e0] eqn:Ha;
  [ destruct (service auth) as [c|] eqn:Hc;
    [ rewrite (scan_unfold env s ds so w auth c Ha Hc);
      destruct (incremental_mode so) eqn:Hm;
      [ rewrite incremental_scan_unfold;
        change (order (dispatch_state s c so w)) with so;
        destruct (reference_timestamp env ds so) as [scan_from|e0] eqn:Hr;
        [ destruct (format_to_rfc3339_box env scan_from) as [scan_from_str|e0] eqn:Hf;
          [ destruct (_scan_folder_incremental env (root_folder_id_of ds)
                        (replace ".000Z" "Z" scan_from_str) (offset_of (cursor_of so))
                        MAX_BATCH_SIZE (walk_state (dispatch_state s c so w)))
              as [[[records more]|e0] m1] eqn:W;
            pose proof (client_after_walk s c so w m1
                          (scan_folder_incremental_frame env _ _ _ _ _ _ _ W)) as F
          | ]
        | ]
      | rewrite full_scan_unfold;
        change (order (dispatch_state s c so w)) with so;
        destruct (_scan_folder env (root_folder_id_of ds) (offset_of (cursor_of so))
                    MAX_BATCH_SIZE (walk_state (dispatch_state s c so w)))
          as [[[records more]|e0] m1] eqn:W;
        pose proof (client_after_walk s c so w m1
                      (scan_folder_frame env _ _ _ _ _ _ W)) as F ]
    | rewrite (scan_without_client env s ds so w auth Ha Hc) ]
  | rewrite (scan_not_authenticated env s ds so w Ha)
  | rewrite (scan_authentication_raises env s ds so w e0 Ha) ].

(** The handlers, one call of the adapter after the other. *)
Ltac handler_paths env :=
  repeat first
    [ rewrite finish_batch_eq
    | rewrite on_failure_eq;
      cbn [self saved_state advanced_state reset_state dispatch_state ticked
           box_client set_current_offset set_processed_files_count set_box_client
           counters_reset]
    | match goal with
      | F : box_client (self ?m1) = Some _ /\ _ |- context [box_client (self ?m1)] =>
          rewrite (proj1 F)
      | |- context [match save_outcome env ?m with _ => _ end] =>
          let Hs := fresh "Hs" in
          destruct (save_outcome env m) as [[]|?] eqn:Hs
      | |- context [match box_client ?s with _ => _ end] =>
          let Hb := fresh "Hb" in
          destruct (box_client s) eqn:Hb
      end ].

(** An exception that leaves [scan] was raised by the persistence
    adapter. *)
Lemma scan_raises_adapter (env : Env) (s : BoxStrategy) (data_source : DataSource)
  (scan_order : ScanOrder) (w : World) (e : exn) (m' : Machine) :
  scan env s data_source scan_order w = (Err e, m') ->
  exists cursor_data k,
    update_scan_metadata env (so_id scan_order) cursor_data k = Err e.
Proof.
  scan_paths env s data_source scan_order w; handler_paths env;
    intros H; try discriminate H;
    inversion H; subst; clear H;
    match goal with
    | Hs : save_outcome env ?m = Err e |- _ =>
        unfold save_outcome in Hs;
        cbn [order saved_state advanced_state reset_state dispatch_state so_id] in Hs
    end;
    try match goal with
        | F : _ /\ _ /\ _ /\ order ?m1 = scan_order /\ _ |- _ =>
            destruct F as (_ & _ & _ & Fo & _); rewrite Fo in *
        end;
    eexists; eexists; eassumption.
Qed.

Lemma scan_returns_when_accepted (env : Env) (s : BoxStrategy)
  (data_source : DataSource) (scan_order : ScanOrder) (w : World) :
  accepts env (so_id scan_order) ->
  exists res m', scan env s data_source scan_order w = (Ok res, m').
Proof.
  intros A.
  destruct (scan env s data_source scan_order w) as [[res|e] m'] eqn:H.
  - exists res, m'. reflexivity.
  - destruct (scan_raises_adapter env s data_source scan_order w e m' H)
      as (cursor_data & k & Hk).
    rewrite (A cursor_data k) in Hk. discriminate.
Qed.

(** ** Batches whose cursor the adapter accepts *)

Lemma save_accepted_at (env : Env) (scan_order : ScanOrder) (w : World) (m : Machine) :
  accepts_from env (so_id scan_order) (List.length (persisted w)) ->
  order m = scan_order ->
  persisted (world m) = persisted w ->
  save_outcome env m = Ok tt.
Proof.
  intros A Ho Hp. apply (save_accepted env m (List.length (persisted w))).
  - rewrite Ho. exact A.
  - rewrite Hp. apply Nat.le_refl.
Qed.

Lemma scan_full_eq (env : Env) (s : BoxStrategy) (data_source : DataSource)
  (scan_order : ScanOrder) (w : World) (auth : AuthResult) (c : BoxClient) :
  _authenticate env data_source = Ok (Some auth) ->
  service auth = Some c ->
  incremental_mode scan_order = false ->
  accepts_from env (so_id scan_order) (List.length (persisted w)) ->
  scan env s data_source scan_order w =
  match _scan_folder env (root_folder_id_of data_source)
          (offset_of (cursor_of scan_order)) MAX_BATCH_SIZE
          (walk_state (dispatch_state s c scan_order w)) with
  | (Ok (records, more), m1) =>
      (Ok (merge_credentials (auth_updated_credentials auth)
             (batch_result records more
                (saved_state (advanced_state (Z.of_nat (List.length records)) more m1)))),
       ticked (ticked
         (saved_state (advanced_state (Z.of_nat (List.length records)) more m1))))
  | (Err e, m1) =>
      (Ok (merge_credentials (auth_updated_credentials auth)
             (error_result ("Error in full scan of Box: " ++ str_exn e)
                (saved_state m1))),
       ticked (saved_state m1))
  end.
Proof.
  intros Ha Hc Hm A.
  rewrite (scan_unfold env s data_source scan_order w auth c Ha Hc), Hm.
  rewrite full_scan_unfold.
  change (order (dispatch_state s c scan_order w)) with scan_order.
  destruct (_scan_folder env _ _ _ (walk_state _)) as [[[records more]|e] m1] eqn:E;
    destruct (client_after_walk s c scan_order w m1 (scan_folder_frame env _ _ _ _ _ _ E))
      as (Fc & _ & _ & Fo & Fp & _).
  - rewrite finish_batch_eq.
    rewrite (save_accepted_at env scan_order w
               (advanced_state (Z.of_nat (List.length records)) more m1) A Fo Fp).
    reflexivity.
  - rewrite on_failure_eq, Fc.
    rewrite (save_accepted_at env scan_order w _ A Fo Fp). reflexivity.
Qed.

Lemma scan_incremental_eq (env : Env) (s : BoxStrategy) (data_source : DataSource)
  (scan_order : ScanOrder) (w : World) (auth : AuthResult) (c : BoxClient) :
  _authenticate env data_source = Ok (Some auth) ->
  service auth = Some c ->
  incremental_mode scan_order = true ->
  accepts_from env (so_id scan_order) (List.length (persisted w)) ->
  scan env s data_source scan_order w =
  match reference_timestamp env data_source scan_order with
  | Err e =>
      (Ok (error_result ("Error scanning Box: " ++ str_exn e)
             (saved_state (reset_state (dispatch_state s c scan_order w)))),
       ticked (saved_state (reset_state (dispatch_state s c scan_order w))))
  | Ok scan_from =>
      match format_to_rfc3339_box env scan_from with
      | Err e =>
          (Ok (merge_credentials (auth_updated_credentials auth)
                 (error_result ("Error in incremental scan of Box: " ++ str_exn e)
                    (saved_state (reset_state (dispatch_state s c scan_order w))))),
           ticked (saved_state (reset_state (dispatch_state s c scan_order w))))
      | Ok scan_from_str =>
          match _scan_folder_incremental env (root_folder_id_of data_source)
                  (replace ".000Z" "Z" scan_from_str)
                  (offset_of (cursor_of scan_order)) MAX_BATCH_SIZE
                  (walk_state (dispatch_state s c scan_order w)) with
          | (Ok (records, more), m1) =>
              (Ok (merge_credentials (auth_updated_credentials auth)
                     (batch_result records more
                        (saved_state
                           (advanced_state (Z.of_nat (List.length records)) more m1)))),
               ticked (ticked
                 (saved_state (advanced_state (Z.of_nat (List.length records)) more m1))))
          | (Err e, m1) =>
              (Ok (merge_credentials (auth_updated_credentials auth)
                     (error_result ("Error in incremental scan of Box: " ++ str_exn e)
                        (saved_state m1))),
               ticked (saved_state m1))
          end
      end
  end.
Proof.
  intros Ha Hc Hm A.
  rewrite (scan_unfold env s data_source scan_order w auth c Ha Hc), Hm.
  rewrite incremental_scan_unfold.
  change (order (dispatch_state s c scan_order w)) with scan_order.
  assert (R : save_outcome env (reset_state (dispatch_state s c scan_order w)) = Ok tt).
  { apply (save_accepted_at env scan_order w _ A); reflexivity. }
  destruct (reference_timestamp env data_source scan_order) as [scan_from|e].
  - destruct (format_to_rfc3339_box env scan_from) as [scan_from_str|e].
    + destruct (_scan_folder_incremental env _ _ _ _ (walk_state _))
        as [[[records more]|e] m1] eqn:E;
        destruct (client_after_walk s c scan_order w m1
                    (scan_folder_incremental_frame env _ _ _ _ _ _ _ E))
          as (Fc & _ & _ & Fo & Fp & _).
      * rewrite finish_batch_eq.
        rewrite (save_accepted_at env scan_order w
                   (advanced_state (Z.of_nat (List.length records)) more m1) A Fo Fp).
        reflexivity.
      * rewrite on_failure_eq, Fc.
        rewrite (save_accepted_at env scan_order w _ A Fo Fp). reflexivity.
    + rewrite on_failure_eq. cbn [reset_state dispatch_state self box_client
        set_current_offset set_box_client counters_reset].
      rewrite R. reflexivity.
  - rewrite on_failure_eq. cbn [reset_state dispatch_state self box_client
      set_current_offset set_box_client counters_reset].
    rewrite R. reflexivity.
Qed.

(** ** A batch that fails *)





(** ** Completion stamp *)

(** C6 fails as stated: a first full-scan batch that delivers one record
    out of five is not completed, carries no error, and is stamped with a
    completion time all the same, the fifth reading of the clock. *)
Lemma C6_counterexample :
  exists res m',
    scan (env_with (client_answering page_one_of_five)) __init__ data_source0
      (order_new "full") world0 = (Ok res, m') /\
    is_completed res = false /\
    error res = None /\
    st_scan_completed_at (stats res) = Some (clock world0 4).
Proof.
  eexists. eexists. split; [vm_compute; reflexivity|]. repeat split.
Qed.

Ltac merged_fields :=
  repeat match goal with
         | |- context [merge_credentials ?credentials ?r] =>
             let Mf := fresh "Mf" in
             let Mc := fresh "Mc" in
             let Ms := fresh "Ms" in
             let Me := fresh "Me" in
             destruct (merge_credentials_fields credentials r) as (Mf & Mc & Ms & Me);
             rewrite ?Mf, ?Mc, ?Ms, ?Me;
             clear Mf Mc Ms Me
         end.

(** Every result of [scan]: how its completion stamp goes with its error,
    in the world [scan] left, whose clock was read at least once. *)
Lemma scan_stamp (env : Env) (s : BoxStrategy) (data_source : DataSource)
  (scan_order : ScanOrder) (w : World) (res : ScanResult) (m' : Machine) :
  scan env s data_source scan_order w = (Ok res, m') ->
  completion_stamp_by_error res (world m') /\
  clock (world m') = clock w /\
  (reads w < reads (world m'))%nat.
Proof.
  scan_paths env s data_source scan_order w; handler_paths env;
    intros H; try discriminate H;
    inversion H; subst; clear H;
    unfold completion_stamp_by_error; merged_fields;
    try (destruct F as (_ & _ & _ & _ & _ & Fck & Fr));
    cbn; rewrite ?Fck, ?Fr; repeat split; lia.
Qed.

(** C6, amended. In every result of [scan], [scan_completed_at] is [None]
    when the result carries an error (and then [is_completed] is false),
    and is the time the batch ended, the last reading [scan] took of the
    clock, when it carries none, whether or not the sweep finished in this
    batch; in particular it is set whenever [is_completed] is true. *)
Theorem C6_completion_stamp (env : Env) :
  forall s data_source scan_order w res m',
    scan env s data_source scan_order w = (Ok res, m') ->
    (error res <> None ->
     st_scan_completed_at (stats res) = None /\ is_completed res = false) /\
    (error res = None ->
     st_scan_completed_at (stats res) = Some (last_reading (world m'))) /\
    (is_completed res = true ->
     st_scan_completed_at (stats res) = Some (last_reading (world m'))) /\
    clock (world m') = clock w /\
    (reads w < reads (world m'))%nat.
Proof.
  intros s data_source scan_order w res m' H.
  destruct (scan_stamp env s data_source scan_order w res m' H) as (Hs & Hc & Hr).
  unfold completion_stamp_by_error in Hs.
  destruct (error res) as [msg|].
  - destruct Hs as [Hn Hf]. split; [intros _; split; assumption|].
    split; [discriminate|]. split; [rewrite Hf; discriminate|]. split; assumption.
  - split; [intros F; contradiction|].
    split; [intros _; exact Hs|]. split; [intros _; exact Hs|]. split; assumption.
Qed.

Lemma C6_completion_stamp_witness :
  exists res m',
    scan (env_with (client_answering page_one_of_five)) __init__ data_source0
      (order_new "full") world0 = (Ok res, m') /\
    is_completed res = false /\
    st_scan_completed_at (stats res) = Some (last_reading (world m')) /\
    last_reading (world m') = clock world0 4.
Proof.
  eexists. eexists.
  assert (H : scan (env_with (client_answering page_one_of_five)) __init__ data_source0
                (order_new "full") world0 =
              (Ok (batch_result [record_a] true
                     (saved_state (advanced_state 1 true
                        (snd (_scan_folder (env_with (client_answering page_one_of_five))
                                "0" 0 MAX_BATCH_SIZE
                                (walk_state
                                   (dispatch_state __init__
                                      (client_answering page_one_of_five)
                                      (order_new "full") world0))))))),
               ticked (ticked
                 (saved_state (advanced_state 1 true
                    (snd (_scan_folder (env_with (client_answering page_one_of_five))
                            "0" 0 MAX_BATCH_SIZE
                            (walk_state
                               (dispatch_state __init__
                                  (client_answering page_one_of_five)
                                  (order_new "full") world0))))))))).
  { vm_compute. reflexivity. }
  split; [exact H|]. split; [reflexivity|].
  split.
  - exact (proj1 (proj2 (C6_completion_stamp (env_with (client_answering page_one_of_five))
                           __init__ data_source0 (order_new "full") world0 _ _ H))
             eq_refl).
  - vm_compute. reflexivity.
Defined.

(** ** A page without [total_count] *)




(** * Further properties *)

(** ** Retry executor: the attempt it stops at *)

Lemma stop_attempt_bounds (outcome : nat -> result (option Response))
  (remaining : nat) :
  forall retry,
    (retry <= stop_attempt outcome retry remaining <= retry + remaining)%nat.
Proof.
  induction remaining as [|remaining IH]; intros retry; cbn [stop_attempt].
  - lia.
  - destruct (retried (outcome retry)); [|lia].
    specialize (IH (S retry)). lia.
Qed.

Lemma retry_loop_stops (env : Env) (c : BoxClient) (params : SearchParams)
  (first : nat) (remaining : nat) :
  forall retry m,
    (0 < retry)%nat ->
    (retry + remaining = MAX_RETRIES)%nat ->
    box_client (self m) = Some c ->
    requests (world m) = (first + retry)%nat ->
    exists m',
      retry_loop env (search_request params) (seq retry (S remaining)) m =
        (make_request c params
           (first + stop_attempt (fun i => make_request c params (first + i))
                      retry remaining),
         m') /\
      self m' = self m /\ order m' = order m /\
      persisted (world m') = persisted (world m) /\
      requests (world m') =
        (first + S (stop_attempt (fun i => make_request c params (first + i))
                      retry remaining))%nat /\
      sleeps (world m') =
        (sleeps (world m) ++
         map (backoff_delay env)
           (seq retry
              (S (stop_attempt (fun i => make_request c params (first + i))
                    retry remaining) - retry)))%list.
Proof.
  induction remaining as [|remaining IH]; intros retry m Hpos Hsum Hc Hreq;
    cbn [seq stop_attempt]; rewrite retry_loop_cons;
    (assert (Hlt : (0 <? retry)%nat = true) by (apply Nat.ltb_lt; exact Hpos));
    rewrite Hlt;
    (assert (E : search_request params (slept (backoff_delay env retry) m) =
                 (make_request c params (first + retry),
                  requested (slept (backoff_delay env retry) m)))
       by (rewrite (search_request_through c) by exact Hc;
           cbn [slept time_sleep modify_world snd world requests];
           rewrite Hreq; reflexivity));
    rewrite E.
  - assert (Hmax : (retry =? MAX_RETRIES)%nat = true) by (apply Nat.eqb_eq; lia).
    rewrite Hmax.
    replace (S retry - retry)%nat with 1%nat by lia.
    exists (requested (slept (backoff_delay env retry) m)). split.
    + destruct (make_request c params (first + retry)) as [r|e]; [reflexivity|].
      destruct e; try reflexivity. destruct (retryable_status status); reflexivity.
    + cbn. rewrite Hreq. repeat split. lia.
  - assert (Hmax : (retry =? MAX_RETRIES)%nat = false) by (apply Nat.eqb_neq; lia).
    rewrite Hmax.
    destruct (retried (make_request c params (first + retry))) eqn:R.
    + destruct (IH (S retry) (requested (slept (backoff_delay env retry) m)))
        as (m' & H & Hs & Ho & Hp & Hr & Hsl).
      { lia. } { lia. } { exact Hc. } { cbn. rewrite Hreq. lia. }
      exists m'. split.
      * destruct (make_request c params (first + retry)) as [r|e]; [discriminate|].
        destruct e; cbn [retried] in R; try rewrite R; exact H.
      * repeat (split; [assumption|]). rewrite Hsl.
        cbn [requested slept time_sleep modify_world snd world sleeps].
        rewrite <- app_assoc.
        pose proof (stop_attempt_bounds
                      (fun i => make_request c params (first + i)) remaining (S retry)).
        replace (S (stop_attempt (fun i => make_request c params (first + i))
                      (S retry) remaining) - retry)%nat
          with (S (S (stop_attempt (fun i => make_request c params (first + i))
                        (S retry) remaining) - S retry))%nat by lia.
        reflexivity.
    + replace (S retry - retry)%nat with 1%nat by lia.
      exists (requested (slept (backoff_delay env retry) m)). split.
      * destruct (make_request c params (first + retry)) as [r|e]; [reflexivity|].
        destruct e; cbn [retried] in R; try discriminate. rewrite R. reflexivity.
      * cbn. rewrite Hreq. repeat split. lia.
Qed.

(** ** Folder walk: request first, page afterwards *)

Ltac split_cases :=
  repeat match goal with
         | |- context [match ?x with _ => _ end] =>
             match x with
             | context [match _ with _ => _ end] => fail 1
             | _ => destruct x eqn:?
             end
         end.

Lemma scan_folder_decompose (env : Env) (folder_id : string) (offset max_files : Z)
  (m : Machine) :
  _scan_folder env folder_id offset max_files m =
  match _execute_with_retry env
          (search_request (search_params_full folder_id offset max_files))
          (slept RATE_LIMIT_DELAY m) with
  | (Ok response, m1) =>
      match page_outcome_full env folder_id offset max_files response with
      | Ok walked => (Ok walked, called m1)
      | Err e => (Err e, counted 1 (flagged (called m1)))
      end
  | (Err e, m1) => (Err e, counted 1 (flagged m1))
  end.
Proof.
  unfold _scan_folder, try_except, bind, lift, ret, raise, modify_self.
  cbn [time_sleep modify_world].
  change {| self := self m; order := order m;
            world := {| clock := clock (world m); reads := reads (world m);
                        sleeps := sleeps (world m) ++ [RATE_LIMIT_DELAY];
                        requests := requests (world m);
                        persisted := persisted (world m) |} |}
    with (slept RATE_LIMIT_DELAY m).
  destruct (_execute_with_retry env _ (slept RATE_LIMIT_DELAY m)) as [[response|e] m1];
    [|reflexivity].
  unfold page_outcome_full, rbind. split_cases; reflexivity.
Qed.

Lemma counted_zero (m : Machine) : counted 0 m = m.
Proof.
  destruct m as [s o w]. destruct s. unfold counted, set_api_errors_count.
  cbn. rewrite Z.add_0_r. reflexivity.
Qed.

Lemma scan_folder_incremental_decompose (env : Env) (folder_id modified_since : string)
  (offset max_files : Z) (m : Machine) :
  _scan_folder_incremental env folder_id modified_since offset max_files m =
  match _execute_with_retry env
          (search_request
             (search_params_incremental folder_id modified_since offset max_files))
          (slept RATE_LIMIT_DELAY m) with
  | (Ok response, m1) =>
      match page_outcome_incremental env folder_id offset max_files response with
      | (errors, Ok walked) => (Ok walked, counted errors (called m1))
      | (errors, Err e) => (Err e, flagged (counted errors (called m1)))
      end
  | (Err e, m1) => (Err e, flagged m1)
  end.
Proof.
  unfold _scan_folder_incremental, try_except, bind, lift, ret, raise, modify_self.
  cbn [time_sleep modify_world].
  change {| self := self m; order := order m;
            world := {| clock := clock (world m); reads := reads (world m);
                        sleeps := sleeps (world m) ++ [RATE_LIMIT_DELAY];
                        requests := requests (world m);
                        persisted := persisted (world m) |} |}
    with (slept RATE_LIMIT_DELAY m).
  destruct (_execute_with_retry env _ (slept RATE_LIMIT_DELAY m)) as [[response|e] m1];
    [|reflexivity].
  unfold page_outcome_incremental, rbind.
  split_cases; rewrite ?counted_zero; reflexivity.
Qed.

(** The executor on a search request made through a client, attempt by
    attempt. *)
Lemma execute_with_retry_attempts (env : Env) (c : BoxClient) (params : SearchParams)
  (m : Machine) :
  box_client (self m) = Some c ->
  exists m',
    _execute_with_retry env (search_request params) m =
      (make_request c params
         (requests (world m) +
          stop_attempt (fun i => make_request c params (requests (world m) + i))
            0 MAX_RETRIES),
       m') /\
    (stop_attempt (fun i => make_request c params (requests (world m) + i))
       0 MAX_RETRIES <= MAX_RETRIES)%nat /\
    self m' = self m /\ order m' = order m /\
    persisted (world m') = persisted (world m) /\
    requests (world m') =
      (requests (world m) +
       S (stop_attempt (fun i => make_request c params (requests (world m) + i))
            0 MAX_RETRIES))%nat /\
    sleeps (world m') =
      (sleeps (world m) ++
       map (backoff_delay env)
         (seq 1 (stop_attempt (fun i => make_request c params (requests (world m) + i))
                   0 MAX_RETRIES)))%list.
Proof.
  intros Hc.
  pose proof (stop_attempt_bounds
                (fun i => make_request c params (requests (world m) + i))
                MAX_RETRIES 0) as Hb.
  rewrite execute_with_retry_unfold.
  change [0; 1; 2; 3]%nat with (0 :: seq 1 (S 2))%nat.
  rewrite retry_loop_cons. cbn [Nat.ltb Nat.leb].
  rewrite (search_request_through c) by exact Hc.
  change MAX_RETRIES with 3%nat in *. cbn [stop_attempt Nat.eqb] in *.
  rewrite Nat.add_0_r in *.
  destruct (retried (make_request c params (requests (world m)))) eqn:R.
  - destruct (retry_loop_stops env c params (requests (world m)) 2 1 (requested m))
      as (m' & H & Hs & Ho & Hp & Hr & Hsl); try reflexivity; try lia.
    { exact Hc. } { cbn. lia. }
    exists m'. split.
    + destruct (make_request c params (requests (world m))) as [r|e]; [discriminate|].
      destruct e; cbn [retried] in R; try rewrite R; exact H.
    + split; [lia|]. repeat (split; [assumption|]).
      rewrite Hsl. cbn [requested world sleeps].
      pose proof (stop_attempt_bounds
                    (fun i => make_request c params (requests (world m) + i)) 2 1).
      replace (S (stop_attempt (fun i => make_request c params (requests (world m) + i))
                    1 2) - 1)%nat
        with (stop_attempt (fun i => make_request c params (requests (world m) + i)) 1 2)
        by lia.
      reflexivity.
  - rewrite ?Nat.add_0_r. exists (requested m). split.
    + destruct (make_request c params (requests (world m))) as [r|e]; [reflexivity|].
      destruct e; cbn [retried] in R; try discriminate. rewrite R. reflexivity.
    + cbn. rewrite app_nil_r. repeat split; lia.
Qed.


(** X1. The executor on a search request made through a client: it stops
    at the first attempt whose outcome is not retried, at the latest at
    attempt [MAX_RETRIES], and returns or raises the outcome of that
    attempt.  It has then issued one request per attempt and slept the
    backoff delay of every attempt after the first; the instance, the
    scan order and the persisted cursors are as before. *)
Theorem X1_execute_with_retry_stops (env : Env) (c : BoxClient) (params : SearchParams)
  (m : Machine) :
  box_client (self m) = Some c ->
  exists m',
    _execute_with_retry env (search_request params) m =
      (make_request c params
         (requests (world m) +
          stop_attempt (fun i => make_request c params (requests (world m) + i))
            0 MAX_RETRIES),
       m') /\
    (stop_attempt (fun i => make_request c params (requests (world m) + i))
       0 MAX_RETRIES <= MAX_RETRIES)%nat /\
    self m' = self m /\ order m' = order m /\
    persisted (world m') = persisted (world m) /\
    requests (world m') =
      (requests (world m) +
       S (stop_attempt (fun i => make_request c params (requests (world m) + i))
            0 MAX_RETRIES))%nat /\
    sleeps (world m') =
      (sleeps (world m) ++
       map (backoff_delay env)
         (seq 1 (stop_attempt (fun i => make_request c params (requests (world m) + i))
                   0 MAX_RETRIES)))%list.
Proof. exact (execute_with_retry_attempts env c params m). Qed.

Lemma X1_execute_with_retry_stops_witness :
  box_client (self (machine_with client_limited_twice (order_new "full"))) =
    Some client_limited_twice /\
  exists m',
    _execute_with_retry (env_with client_limited_twice) (search_request params0)
      (machine_with client_limited_twice (order_new "full")) =
      (Ok (Some empty_page), m') /\
    requests (world m') = 3%nat /\
    sleeps (world m') =
      [backoff_delay (env_with client_limited_twice) 1;
       backoff_delay (env_with client_limited_twice) 2].
Proof.
  split; [reflexivity|].
  destruct (X1_execute_with_retry_stops (env_with client_limited_twice)
              client_limited_twice params0
              (machine_with client_limited_twice (order_new "full")) eq_refl)
    as (m' & H & _ & _ & _ & _ & Hr & Hs).
  exists m'. split; [exact H|]. split; [exact Hr|exact Hs].
Defined.

(** ** Items loops: what they count *)

Lemma items_loop_incremental_counts (env : Env) (folder_id : string) (max_files : Z)
  (items : list json) :
  forall l,
    files_count l = Z.of_nat (List.length (file_metadata_list l)) ->
    files_count (items_loop_incremental env folder_id max_files items l) =
      Z.of_nat (List.length
                  (file_metadata_list (items_loop_incremental env folder_id max_files items l))) /\
    files_count l <= files_count (items_loop_incremental env folder_id max_files items l) /\
    files_count (items_loop_incremental env folder_id max_files items l) <=
      Z.max (files_count l) max_files /\
    item_errors l <= item_errors (items_loop_incremental env folder_id max_files items l) /\
    (files_count (items_loop_incremental env folder_id max_files items l) - files_count l) +
    (item_errors (items_loop_incremental env folder_id max_files items l) - item_errors l) <=
      Z.of_nat (List.length items) /\
    (files_count l + Z.of_nat (List.length items) <= max_files ->
     (files_count (items_loop_incremental env folder_id max_files items l) - files_count l) +
     (item_errors (items_loop_incremental env folder_id max_files items l) - item_errors l) =
       Z.of_nat (List.length items)).
Proof.
  induction items as [|item items IH]; intros l Hl.
  - cbn [items_loop_incremental List.length]. repeat split; lia.
  - cbn [items_loop_incremental]. cbn [List.length]. rewrite Nat2Z.inj_succ.
    destruct (files_count l >=? max_files) eqn:G.
    + apply Z.geb_le in G. cbn [files_count file_metadata_list item_errors].
      repeat split; lia.
    + assert (G' : files_count l < max_files).
      { destruct (Z.ltb_spec (files_count l) max_files) as [H|H]; [exact H|].
        apply Z.geb_le in H. congruence. }
      destruct (file_metadata_incremental env folder_id (files_count l) item)
        as [file_metadata|err].
      * match goal with
        | |- context [items_loop_incremental _ _ _ _ ?l1] =>
            destruct (IH l1) as (H1 & H2 & H3 & H4 & H5 & H6)
        end.
        { cbn [files_count file_metadata_list]. rewrite length_app. cbn [List.length].
          rewrite Nat2Z.inj_add. cbn. lia. }
        cbn [files_count file_metadata_list item_errors] in *.
        repeat split; try lia.
      * match goal with
        | |- context [items_loop_incremental _ _ _ _ ?l1] =>
            destruct (IH l1) as (H1 & H2 & H3 & H4 & H5 & H6)
        end.
        { exact Hl. }
        cbn [files_count file_metadata_list item_errors] in *.
        repeat split; try lia.
Qed.

Lemma items_loop_full_counts (env : Env) (folder_id : string) (max_files : Z)
  (items : list json) :
  forall l l',
    files_count l = Z.of_nat (List.length (file_metadata_list l)) ->
    items_loop_full env folder_id max_files items l = Ok l' ->
    files_count l' = Z.of_nat (List.length (file_metadata_list l')) /\
    files_count l <= files_count l' /\
    files_count l' <= Z.max (files_count l) max_files /\
    files_count l' - files_count l <= Z.of_nat (List.length items).
Proof.
  induction items as [|item items IH]; intros l l' Hl H.
  - cbn [items_loop_full] in H. inversion H; subst. cbn [List.length].
    repeat split; lia.
  - cbn [items_loop_full] in H. cbn [List.length]. rewrite Nat2Z.inj_succ.
    destruct (files_count l >=? max_files) eqn:G.
    + apply Z.geb_le in G. inversion H; subst.
      cbn [files_count file_metadata_list]. repeat split; lia.
    + assert (G' : files_count l < max_files).
      { destruct (Z.ltb_spec (files_count l) max_files) as [H0|H0]; [exact H0|].
        apply Z.geb_le in H0. congruence. }
      destruct (file_metadata_full env folder_id item) as [file_metadata|err].
      * apply IH in H.
        -- cbn [files_count file_metadata_list] in H. repeat split; lia.
        -- cbn [files_count file_metadata_list]. rewrite length_app. cbn [List.length].
           rewrite Nat2Z.inj_add. cbn. lia.
      * destruct (py_get item "id" JNull); [|discriminate]. cbn [rbind] in H.
        apply IH in H; [|exact Hl]. repeat split; lia.
Qed.

(** ** Pages: how many records they yield *)

Lemma page_outcome_full_bound (env : Env) (folder_id : string) (offset max_files : Z)
  (response : option Response) (records : list FileMetadata) (more : bool) :
  page_outcome_full env folder_id offset max_files response = Ok (records, more) ->
  Z.of_nat (List.length records) <= Z.max 0 max_files.
Proof.
  unfold page_outcome_full, rbind. intros H.
  repeat match type of H with
         | context [match ?x with _ => _ end] =>
             match x with
             | context [match _ with _ => _ end] => fail 1
             | _ => destruct x eqn:?
             end
         end;
    try discriminate; inversion H; subst; cbn [List.length]; try lia;
    match goal with
    | L : items_loop_full _ _ _ _ no_locals = Ok ?l |- _ =>
        apply items_loop_full_counts in L; [|reflexivity];
        cbn [files_count no_locals] in L; lia
    end.
Qed.

Lemma page_outcome_incremental_bound (env : Env) (folder_id : string) (offset max_files : Z)
  (response : option Response) (errors : Z) (records : list FileMetadata) (more : bool) :
  page_outcome_incremental env folder_id offset max_files response =
    (errors, Ok (records, more)) ->
  Z.of_nat (List.length records) <= Z.max 0 max_files /\ 0 <= errors.
Proof.
  unfold page_outcome_incremental, rbind. intros H.
  repeat match type of H with
         | context [match ?x with _ => _ end] =>
             match x with
             | context [match _ with _ => _ end] => fail 1
             | _ => destruct x eqn:?
             end
         end;
    try discriminate; inversion H; subst; cbn [List.length]; try lia;
    match goal with
    | |- context [items_loop_incremental ?ev ?f ?mx ?its no_locals] =>
        pose proof (items_loop_incremental_counts ev f mx its no_locals eq_refl) as L;
        cbn [files_count item_errors no_locals] in L; lia
    end.
Qed.

(** ** Folder walk: counters and traffic *)

Lemma search_request_self (params : SearchParams) (m : Machine)
  (x : result (option Response)) (m' : Machine) :
  search_request params m = (x, m') -> self m' = self m.
Proof.
  unfold search_request. destruct (box_client (self m)); intros H;
    inversion H; subst; reflexivity.
Qed.

Lemma retry_loop_self (env : Env) (params : SearchParams) (retries : list nat) :
  forall m x m',
    retry_loop env (search_request params) retries m = (x, m') -> self m' = self m.
Proof.
  induction retries as [|retry rest IH]; intros m x m' H.
  - inversion H; subst. reflexivity.
  - rewrite retry_loop_cons in H.
    destruct (search_request params _) as [[r|e] m1] eqn:E;
      apply search_request_self in E;
      assert (F : self m1 = self m)
        by (rewrite E; destruct (0 <? retry)%nat; reflexivity).
    + inversion H; subst. exact F.
    + destruct e;
        repeat match type of H with
               | context [if ?b then _ else _] => destruct b
               end;
        first [ inversion H; subst; exact F
              | rewrite <- F; eapply IH; exact H ].
Qed.

Lemma execute_self (env : Env) (params : SearchParams) (m : Machine)
  (x : result (option Response)) (m' : Machine) :
  _execute_with_retry env (search_request params) m = (x, m') -> self m' = self m.
Proof. apply retry_loop_self. Qed.

(** What a walk does to the counters of the instance. *)
Lemma scan_folder_counters (env : Env) (folder_id : string) (offset max_files : Z)
  (m : Machine) :
  (forall walked m',
     _scan_folder env folder_id offset max_files m = (Ok walked, m') ->
     api_calls_count (self m') = api_calls_count (self m) + 1 /\
     api_errors_count (self m') = api_errors_count (self m) /\
     _api_error_occurred (self m') = _api_error_occurred (self m)) /\
  (forall e m',
     _scan_folder env folder_id offset max_files m = (Err e, m') ->
     _api_error_occurred (self m') = true /\
     api_errors_count (self m') = api_errors_count (self m) + 1).
Proof.
  rewrite scan_folder_decompose.
  destruct (_execute_with_retry env _ (slept RATE_LIMIT_DELAY m)) as [[response|e0] m1] eqn:E;
    apply execute_self in E; cbn [slept time_sleep modify_world snd self] in E.
  - destruct (page_outcome_full env folder_id offset max_files response) as [w0|e1];
      split; intros y m' H; inversion H; subst; cbn; rewrite E; repeat split.
  - split; intros y m' H; inversion H; subst; cbn; rewrite E; repeat split.
Qed.

Lemma scan_folder_incremental_counters (env : Env) (folder_id modified_since : string)
  (offset max_files : Z) (m : Machine) :
  (forall walked m',
     _scan_folder_incremental env folder_id modified_since offset max_files m =
       (Ok walked, m') ->
     api_calls_count (self m') = api_calls_count (self m) + 1 /\
     api_errors_count (self m) <= api_errors_count (self m') /\
     _api_error_occurred (self m') = _api_error_occurred (self m)) /\
  (forall e m',
     _scan_folder_incremental env folder_id modified_since offset max_files m =
       (Err e, m') ->
     _api_error_occurred (self m') = true /\
     api_errors_count (self m) <= api_errors_count (self m')).
Proof.
  rewrite scan_folder_incremental_decompose.
  destruct (_execute_with_retry env _ (slept RATE_LIMIT_DELAY m)) as [[response|e0] m1] eqn:E;
    apply execute_self in E; cbn [slept time_sleep modify_world snd self] in E.
  - destruct (page_outcome_incremental env folder_id offset max_files response)
      as [errors [[records more]|e1]] eqn:P.
    + apply page_outcome_incremental_bound in P. destruct P as [_ P].
      split; intros y m' H; inversion H; subst; cbn; rewrite E; repeat split; lia.
    + assert (P' : 0 <= errors).
      { revert P. unfold page_outcome_incremental, rbind. intros P.
        repeat match type of P with
               | context [match ?x with _ => _ end] =>
                   match x with
                   | context [match _ with _ => _ end] => fail 1
                   | _ => destruct x eqn:?
                   end
               end;
          inversion P; subst; try lia;
          match goal with
          | |- context [items_loop_incremental ?ev ?f ?mx ?its no_locals] =>
              pose proof (items_loop_incremental_counts ev f mx its no_locals eq_refl) as L;
              cbn [files_count item_errors no_locals] in L; lia
          end. }
      split; intros y m' H; inversion H; subst; cbn; rewrite E; repeat split; lia.
  - split; intros y m' H; inversion H; subst; cbn; rewrite E; repeat split; lia.
Qed.



(** ** The entry point: requests and sleeps *)


(** Everything a walk leaves in the instance, for either outcome. *)
Lemma scan_folder_summary (env : Env) (folder_id : string) (offset max_files : Z)
  (m : Machine) (x : result (list FileMetadata * bool)) (m' : Machine) :
  _scan_folder env folder_id offset max_files m = (x, m') ->
  same_cursor_state m m' /\
  api_calls_count (self m) <= api_calls_count (self m') <= api_calls_count (self m) + 1 /\
  api_errors_count (self m) <= api_errors_count (self m') /\
  (forall records more,
     x = Ok (records, more) -> Z.of_nat (List.length records) <= Z.max 0 max_files).
Proof.
  intros H. split; [exact (scan_folder_frame env _ _ _ _ _ _ H)|].
  rewrite scan_folder_decompose in H.
  destruct (_execute_with_retry env _ (slept RATE_LIMIT_DELAY m)) as [[response|e0] m1] eqn:E;
    apply execute_self in E; cbn [slept time_sleep modify_world snd self] in E.
  - destruct (page_outcome_full env folder_id offset max_files response)
      as [[records more]|e1] eqn:P;
      inversion H; subst; cbn; rewrite E; repeat split; try lia.
    + intros records0 more0 Hx. inversion Hx; subst.
      eapply page_outcome_full_bound; exact P.
    + intros records0 more0 Hx. discriminate.
  - inversion H; subst; cbn; rewrite E; repeat split; try lia.
    intros records0 more0 Hx. discriminate.
Qed.

Lemma page_outcome_incremental_errors (env : Env) (folder_id : string) (offset max_files : Z)
  (response : option Response) :
  0 <= fst (page_outcome_incremental env folder_id offset max_files response).
Proof.
  unfold page_outcome_incremental, rbind.
  repeat match goal with
         | |- context [match ?x with _ => _ end] =>
             match x with
             | context [match _ with _ => _ end] => fail 1
             | _ => destruct x eqn:?
             end
         end;
    cbn [fst]; try lia;
    match goal with
    | |- context [items_loop_incremental ?ev ?f ?mx ?its no_locals] =>
        pose proof (items_loop_incremental_counts ev f mx its no_locals eq_refl) as L;
        cbn [files_count item_errors no_locals] in L; lia
    end.
Qed.

Lemma scan_folder_incremental_summary (env : Env) (folder_id modified_since : string)
  (offset max_files : Z) (m : Machine) (x : result (list FileMetadata * bool))
  (m' : Machine) :
  _scan_folder_incremental env folder_id modified_since offset max_files m = (x, m') ->
  same_cursor_state m m' /\
  api_calls_count (self m) <= api_calls_count (self m') <= api_calls_count (self m) + 1 /\
  api_errors_count (self m) <= api_errors_count (self m') /\
  (forall records more,
     x = Ok (records, more) -> Z.of_nat (List.length records) <= Z.max 0 max_files).
Proof.
  intros H. split; [exact (scan_folder_incremental_frame env _ _ _ _ _ _ _ H)|].
  rewrite scan_folder_incremental_decompose in H.
  destruct (_execute_with_retry env _ (slept RATE_LIMIT_DELAY m)) as [[response|e0] m1] eqn:E;
    apply execute_self in E; cbn [slept time_sleep modify_world snd self] in E.
  - pose proof (page_outcome_incremental_errors env folder_id offset max_files response) as P0.
    destruct (page_outcome_incremental env folder_id offset max_files response)
      as [errors [[records more]|e1]] eqn:P; cbn [fst] in P0;
      inversion H; subst; cbn; rewrite E; repeat split; try lia.
    + intros records0 more0 Hx. inversion Hx; subst.
      eapply page_outcome_incremental_bound; exact P.
    + intros records0 more0 Hx. discriminate.
  - inversion H; subst; cbn; rewrite E; repeat split; try lia.
    intros records0 more0 Hx. discriminate.
Qed.

(** The counters and the records of a walk started by [scan]. *)
Lemma walk_summary (s : BoxStrategy) (c : BoxClient) (scan_order : ScanOrder)
  (w : World) (m1 : Machine) (x : result (list FileMetadata * bool)) :
  api_calls_count (self (walk_state (dispatch_state s c scan_order w))) <=
    api_calls_count (self m1) <=
    api_calls_count (self (walk_state (dispatch_state s c scan_order w))) + 1 /\
  api_errors_count (self (walk_state (dispatch_state s c scan_order w))) <=
    api_errors_count (self m1) /\
  (forall records more,
     x = Ok (records, more) ->
     Z.of_nat (List.length records) <= Z.max 0 MAX_BATCH_SIZE) ->
  api_calls_count s <= api_calls_count (self m1) <= api_calls_count s + 1 /\
  api_errors_count s <= api_errors_count (self m1) /\
  (forall records more,
     x = Ok (records, more) -> Z.of_nat (List.length records) <= MAX_BATCH_SIZE).
Proof. intros H. exact H. Qed.

(** X3. Every result of [scan]: its [files_count] is the number of its
    files, which is at most [MAX_BATCH_SIZE]; an error result has no
    files; [scan_started_at] is the reading of the clock taken on entering
    the scan mode, the second of the invocation, when authentication has
    produced a client, and otherwise the reading taken on entering
    [scan]; and [api_calls_made] and [api_errors_encountered] are the
    running totals of the instance, which [scan] does not reset: the calls
    grow by at most one per invocation and the errors never shrink.
    [scan] returns a result whenever the persistence adapter accepts the
    cursors it is handed. *)
Theorem X3_scan_result_shape (env : Env) (s : BoxStrategy)
  (data_source : DataSource) (scan_order : ScanOrder) (w : World) :
  (accepts env (so_id scan_order) ->
   exists res m', scan env s data_source scan_order w = (Ok res, m')) /\
  (forall res m',
     scan env s data_source scan_order w = (Ok res, m') ->
     st_files_count (stats res) = Z.of_nat (List.length (files res)) /\
     Z.of_nat (List.length (files res)) <= MAX_BATCH_SIZE /\
     (error res <> None -> files res = []) /\
     (forall auth c,
        _authenticate env data_source = Ok (Some auth) ->
        service auth = Some c ->
        st_scan_started_at (stats res) = Some (clock w (S (reads w)))) /\
     ((forall auth c,
         _authenticate env data_source = Ok (Some auth) -> service auth <> Some c) ->
      st_scan_started_at (stats res) = Some (clock w (reads w))) /\
     st_api_calls_made (stats res) = api_calls_count (self m') /\
     st_api_errors_encountered (stats res) = api_errors_count (self m') /\
     api_calls_count s <= api_calls_count (self m') <= api_calls_count s + 1 /\
     api_errors_count s <= api_errors_count (self m')).
Proof.
  split; [exact (scan_returns_when_accepted env s data_source scan_order w)|].
  intros res m'.
  scan_paths env s data_source scan_order w; handler_paths env;
    intros H; try discriminate H;
    inversion H; subst; clear H;
    merged_fields;
    try lazymatch goal with
        | W : _scan_folder env _ _ _ _ = (?x, ?m1) |- _ =>
            destruct (walk_summary s c scan_order w m1 x
                        (proj2 (scan_folder_summary env _ _ _ _ _ _ W)))
              as (Hcalls & Herrs & Hrec)
        | W : _scan_folder_incremental env _ _ _ _ _ = (?x, ?m1) |- _ =>
            destruct (walk_summary s c scan_order w m1 x
                        (proj2 (scan_folder_incremental_summary env _ _ _ _ _ _ _ W)))
              as (Hcalls & Herrs & Hrec)
        end;
    try (destruct F as (_ & _ & Fs & _));
    cbn; rewrite ?Fs;
    repeat match goal with
           | |- _ /\ _ => split
           end;
    try reflexivity; try lia;
    try (unfold MAX_BATCH_SIZE; lia);
    try (intros; congruence);
    try exact (Hrec _ _ eq_refl);
    try (intros N; exfalso; exact (N _ _ eq_refl Hc)).
Qed.

Lemma X3_scan_result_shape_witness :
  exists res m',
    scan env_one_of_five __init__ data_source0 (order_new "full") world0 = (Ok res, m') /\
    st_files_count (stats res) = 1 /\
    st_scan_started_at (stats res) = Some (clock world0 1) /\
    st_api_calls_made (stats res) = 1.
Proof.
  destruct (proj1 (X3_scan_result_shape env_one_of_five __init__ data_source0
                     (order_new "full") world0) (fun _ _ => eq_refl))
    as (res & m' & H).
  exists res, m'. split; [exact H|].
  revert H. vm_compute. intros H. inversion H. repeat split.
Defined.
Lemma merge_credentials_next_offset (credentials : json) (scan_order : ScanOrder)
  (res : ScanResult) :
  next_offset scan_order (merge_credentials credentials res) = next_offset scan_order res.
Proof.
  unfold next_offset.
  destruct (merge_credentials_fields credentials res) as (Mf & Mc & _ & Me).
  rewrite Mf, Mc, Me. reflexivity.
Qed.

(** The cursors one invocation of [scan] hands to the persistence adapter:
    at most three, all of them for the scan order, and at least one once
    authentication has produced a client. *)
Lemma scan_saves (env : Env) (s : BoxStrategy) (data_source : DataSource)
  (scan_order : ScanOrder) (w : World) :
  exists r m',
    scan env s data_source scan_order w = (r, m') /\
    exists cs,
      persisted (world m') = (persisted w ++ cs)%list /\
      (List.length cs <= 3)%nat /\
      Forall (fun p => fst p = so_id scan_order) cs /\
      (forall auth c,
         _authenticate env data_source = Ok (Some auth) ->
         service auth = Some c ->
         (1 <= List.length cs)%nat).
Proof.
  scan_paths env s data_source scan_order w; handler_paths env;
    eexists; eexists; (split; [reflexivity|]);
    try (destruct F as (_ & _ & _ & Fo & Fp & _));
    cbn [ticked saved_state advanced_state reset_state dispatch_state world tick
         persisted order so_id];
    rewrite ?Fo, ?Fp; rewrite <- ?app_assoc; cbn [app];
    lazymatch goal with
    | |- exists cs, (persisted w ++ ?l)%list = _ /\ _ => exists l
    | |- exists cs, persisted w = _ /\ _ => exists []; rewrite app_nil_r
    end;
    (split; [reflexivity|]);
    (split; [cbn; lia|]);
    (split; [repeat constructor|]);
    intros auth' c' Ha' Hc'; first [ cbn; lia | congruence ].
Qed.

(** X4. With an authenticated client, every invocation of [scan] hands the
    cursor to the persistence adapter, whatever the outcome of the batch:
    at least once and, as each handler saves again what the adapter
    refused, at most three times.  When the adapter accepts the cursor,
    it is saved exactly once, and the offset saved can be read off the
    result: the offset the batch started from for an error result, 0 for
    a completed one, and the start plus the number of files otherwise;
    the same offset is left in the instance and in the scan order, whose
    other fields are unchanged. *)
Theorem X4_cursor_follows_result (env : Env) (s : BoxStrategy)
  (data_source : DataSource) (scan_order : ScanOrder) (w : World)
  (auth : AuthResult) (c : BoxClient) :
  _authenticate env data_source = Ok (Some auth) ->
  service auth = Some c ->
  (exists r m' cs,
     scan env s data_source scan_order w = (r, m') /\
     persisted (world m') = (persisted w ++ cs)%list /\
     (1 <= List.length cs <= 3)%nat /\
     Forall (fun p => fst p = so_id scan_order) cs) /\
  (accepts_from env (so_id scan_order) (List.length (persisted w)) ->
   exists res m' t,
     scan env s data_source scan_order w = (Ok res, m') /\
     current_offset (self m') = next_offset scan_order res /\
     order m' = with_cursor scan_order (next_offset scan_order res) t /\
     persisted (world m') =
       (persisted w ++
        [(so_id scan_order,
          {| c_current_offset := Some (next_offset scan_order res);
             c_last_updated := Some t |})])%list).
Proof.
  intros Ha Hc. split.
  { destruct (scan_saves env s data_source scan_order w)
      as (r & m' & H & cs & Hp & Hl & Hi & H1).
    exists r, m', cs. specialize (H1 auth c Ha Hc).
    repeat split; try assumption. }
  intros A.
  assert (B : forall records more m1,
             current_offset (self m1) = offset_of (cursor_of scan_order) ->
             order m1 = scan_order ->
             persisted (world m1) = persisted w ->
             exists res m' t,
               (Ok (merge_credentials (auth_updated_credentials auth)
                      (batch_result records more
                         (saved_state
                            (advanced_state (Z.of_nat (List.length records)) more m1)))),
                ticked (ticked
                  (saved_state
                     (advanced_state (Z.of_nat (List.length records)) more m1)))) =
                 (Ok res, m') /\
               current_offset (self m') = next_offset scan_order res /\
               order m' = with_cursor scan_order (next_offset scan_order res) t /\
               persisted (world m') =
                 (persisted w ++
                  [(so_id scan_order,
                    {| c_current_offset := Some (next_offset scan_order res);
                       c_last_updated := Some t |})])%list).
  { intros records more m1 Fk Fo Fp.
    eexists. eexists. exists (now (world m1)). split; [reflexivity|].
    rewrite merge_credentials_next_offset.
    unfold next_offset, batch_result, with_cursor, saved_state, advanced_state, advance,
      ticked, next_cursor.
    cbn. rewrite Fk, Fo, Fp. destruct more; repeat split. }
  assert (R : forall credentials msg m1,
             current_offset (self m1) = offset_of (cursor_of scan_order) ->
             order m1 = scan_order ->
             persisted (world m1) = persisted w ->
             exists res m' t,
               (Ok (merge_credentials credentials (error_result msg (saved_state m1))),
                ticked (saved_state m1)) = (Ok res, m') /\
               current_offset (self m') = next_offset scan_order res /\
               order m' = with_cursor scan_order (next_offset scan_order res) t /\
               persisted (world m') =
                 (persisted w ++
                  [(so_id scan_order,
                    {| c_current_offset := Some (next_offset scan_order res);
                       c_last_updated := Some t |})])%list).
  { intros credentials msg m1 Fk Fo Fp.
    eexists. eexists. exists (now (world m1)). split; [reflexivity|].
    rewrite merge_credentials_next_offset.
    unfold next_offset, error_result, with_cursor, saved_state, ticked, next_cursor.
    cbn. rewrite Fk, Fo, Fp. repeat split. }
  destruct (incremental_mode scan_order) eqn:Hm.
  - rewrite (scan_incremental_eq env s data_source scan_order w auth c Ha Hc Hm A).
    destruct (reference_timestamp env data_source scan_order) as [scan_from|e1].
    + destruct (format_to_rfc3339_box env scan_from) as [scan_from_str|e1].
      * destruct (_scan_folder_incremental env _ _ _ _ (walk_state _))
          as [[[records more]|e1] m1] eqn:E;
          destruct (client_after_walk s c scan_order w m1
                      (scan_folder_incremental_frame env _ _ _ _ _ _ _ E))
            as (_ & Fk & _ & Fo & Fp & _).
        -- apply B; assumption.
        -- apply R; assumption.
      * apply R; reflexivity.
    + apply (R JNull); reflexivity.
  - rewrite (scan_full_eq env s data_source scan_order w auth c Ha Hc Hm A).
    destruct (_scan_folder env _ _ _ (walk_state _)) as [[[records more]|e1] m1] eqn:E;
      destruct (client_after_walk s c scan_order w m1
                  (scan_folder_frame env _ _ _ _ _ _ E))
        as (_ & Fk & _ & Fo & Fp & _).
    + apply B; assumption.
    + apply R; assumption.
Qed.

Lemma X4_cursor_follows_result_witness :
  _authenticate env_one_of_five data_source0 = Ok (Some auth_one_of_five) /\
  service auth_one_of_five = Some (client_answering page_one_of_five) /\
  accepts_from env_one_of_five "order-1" 0 /\
  exists res m' t,
    scan env_one_of_five __init__ data_source0 (order_at "full" 2) world0 =
      (Ok res, m') /\
    current_offset (self m') = next_offset (order_at "full" 2) res /\
    order m' = with_cursor (order_at "full" 2) (next_offset (order_at "full" 2) res) t /\
    persisted (world m') =
      [("order-1",
        {| c_current_offset := Some (next_offset (order_at "full" 2) res);
           c_last_updated := Some t |})].
Proof.
  split; [reflexivity|]. split; [reflexivity|].
  split; [intros cursor_data k _; reflexivity|].
  exact (proj2 (X4_cursor_follows_result env_one_of_five __init__ data_source0
                  (order_at "full" 2) world0 auth_one_of_five
                  (client_answering page_one_of_five) eq_refl eq_refl)
           (fun _ _ _ => eq_refl)).
Defined.
(** X5. When authentication yields nothing ([_authenticate] returns
    [None], as it does for an empty or unsupported [auth_type]) or yields
    no client, [scan] returns an error result and has no other effect
    than two readings of the clock: the scan order is as before, no
    request is issued, nothing is slept, no cursor is saved, and the
    offset of the instance is untouched. *)
Theorem X5_failed_authentication_has_no_effect (env : Env) (s : BoxStrategy)
  (data_source : DataSource) (scan_order : ScanOrder) (w : World) :
  (effective_auth_type data_source = "" \/
   get_auth_handler env (effective_auth_type data_source) = None ->
   _authenticate env data_source = Ok None) /\
  (_authenticate env data_source = Ok None ->
   exists res m',
     scan env s data_source scan_order w = (Ok res, m') /\
     error res = Some "Failed to authenticate with Box" /\
     order m' = scan_order /\ world m' = tick (tick w) /\
     current_offset (self m') = current_offset s /\
     box_client (self m') = box_client s) /\
  (forall auth,
     _authenticate env data_source = Ok (Some auth) ->
     service auth = None ->
     exists res m',
       scan env s data_source scan_order w = (Ok res, m') /\
       error res = Some "Failed to initialize Box client" /\
       order m' = scan_order /\ world m' = tick (tick w) /\
       current_offset (self m') = current_offset s /\
       box_client (self m') = None) /\
  requests (tick (tick w)) = requests w /\
  sleeps (tick (tick w)) = sleeps w /\
  persisted (tick (tick w)) = persisted w.
Proof.
  split; [|split; [|split]].
  - unfold _authenticate, effective_auth_type.
    intros [H|H].
    + rewrite H. reflexivity.
    + destruct (String.eqb _ ""); [reflexivity|]. rewrite H. reflexivity.
  - intros Ha. rewrite (scan_not_authenticated env s data_source scan_order w Ha).
    eexists. eexists. split; [reflexivity|]. repeat split.
  - intros auth Ha Hc.
    rewrite (scan_without_client env s data_source scan_order w auth Ha Hc).
    eexists. eexists. split; [reflexivity|]. repeat split.
  - repeat split.
Qed.

Lemma X5_failed_authentication_has_no_effect_witness :
  get_auth_handler env_no_handler (effective_auth_type data_source0) = None /\
  _authenticate env_no_handler data_source0 = Ok None /\
  exists res m',
    scan env_no_handler instance_reused data_source0 (order_at "full" 2) world0 =
      (Ok res, m') /\
    error res = Some "Failed to authenticate with Box" /\
    order m' = order_at "full" 2 /\ world m' = tick (tick world0) /\
    current_offset (self m') = current_offset instance_reused /\
    box_client (self m') = box_client instance_reused.
Proof.
  split; [reflexivity|].
  pose proof (proj1 (X5_failed_authentication_has_no_effect env_no_handler
                       instance_reused data_source0 (order_at "full" 2) world0)
                (or_intror eq_refl)) as Ha.
  split; [exact Ha|].
  exact (proj1 (proj2 (X5_failed_authentication_has_no_effect env_no_handler
                         instance_reused data_source0 (order_at "full" 2) world0)) Ha).
Defined.

(** X6. When authentication raises, the handler of [scan] takes over.  On
    an instance that holds no client it returns its error result and
    nothing else happens but two readings of the clock.  On an instance
    that still holds a client from an earlier batch, the handler saves a
    cursor all the same, and the offset it saves is the one left in the
    instance, not the one of the scan order; the error result is returned
    when the persistence adapter accepts this cursor, and what the adapter
    raises is raised by [scan] otherwise. *)
Theorem X6_authentication_raises (env : Env) (s : BoxStrategy)
  (data_source : DataSource) (scan_order : ScanOrder) (w : World) (e : exn) :
  _authenticate env data_source = Err e ->
  (box_client s = None ->
   exists res m',
     scan env s data_source scan_order w = (Ok res, m') /\
     error res = Some ("Error scanning Box: " ++ str_exn e) /\
     is_completed res = false /\
     order m' = scan_order /\ world m' = tick (tick w)) /\
  (box_client s <> None ->
   exists r m',
     scan env s data_source scan_order w = (r, m') /\
     order m' = with_cursor scan_order (current_offset s) (now (tick w)) /\
     persisted (world m') =
       (persisted w ++
        [(so_id scan_order,
          {| c_current_offset := Some (current_offset s);
             c_last_updated := Some (now (tick w)) |})])%list /\
     match update_scan_metadata env (so_id scan_order)
             {| c_current_offset := Some (current_offset s);
                c_last_updated := Some (now (tick w)) |}
             (List.length (persisted w)) with
     | Ok _ =>
         exists res,
           r = Ok res /\
           error res = Some ("Error scanning Box: " ++ str_exn e) /\
           is_completed res = false
     | Err e' => r = Err e'
     end).
Proof.
  intros Ha.
  rewrite (scan_authentication_raises env s data_source scan_order w e Ha), on_failure_eq.
  cbn [self counters_reset box_client].
  destruct (box_client s) as [c|]; split; intros F;
    try discriminate F; try (exfalso; apply F; reflexivity).
  - unfold save_outcome, next_cursor.
    cbn [order world self so_id tick persisted current_offset counters_reset].
    destruct (update_scan_metadata env _ _ _) as [[]|e'];
      eexists; eexists; (split; [reflexivity|]);
      (split; [reflexivity|]); (split; [reflexivity|]).
    + eexists. repeat split.
    + reflexivity.
  - eexists. eexists. split; [reflexivity|]. repeat split.
Qed.

Lemma X6_authentication_raises_witness :
  _authenticate env_auth_raises data_source0 =
    Err (OtherError "ConnectionError" "Connection refused") /\
  box_client instance_reused <> None /\
  exists res m',
    scan env_auth_raises instance_reused data_source0 (order_at "full" 2) world0 =
      (Ok res, m') /\
    error res = Some "Error scanning Box: Connection refused" /\
    order m' = with_cursor (order_at "full" 2) 40 (clock world0 1) /\
    persisted (world m') =
      [("order-1", {| c_current_offset := Some 40;
                      c_last_updated := Some (clock world0 1) |})].
Proof.
  split; [reflexivity|]. split; [discriminate|].
  destruct (proj2 (X6_authentication_raises env_auth_raises instance_reused data_source0
                     (order_at "full" 2) world0
                     (OtherError "ConnectionError" "Connection refused") eq_refl)
              ltac:(discriminate))
    as (r & m' & H & Ho & Hp & res & Hr & He & _).
  exists res, m'. rewrite Hr in H.
  split; [exact H|]. split; [exact He|]. split; [exact Ho|exact Hp].
Defined.

(** X7. Credentials refreshed by authentication are put into the result
    whenever the selected mode returns one, be it a batch result or the
    error result of the mode's own handler.  They are dropped, and
    [updated_credentials] is [None], when an incremental scan fails to
    obtain its reference timestamp, a failure handled by [scan] itself.
    The persistence adapter is taken to accept the cursor of the batch,
    so that [scan] returns. *)
Theorem X7_refreshed_credentials (env : Env) (s : BoxStrategy)
  (data_source : DataSource) (scan_order : ScanOrder) (w : World)
  (auth : AuthResult) (c : BoxClient) :
  _authenticate env data_source = Ok (Some auth) ->
  service auth = Some c ->
  accepts_from env (so_id scan_order) (List.length (persisted w)) ->
  exists res m',
    scan env s data_source scan_order w = (Ok res, m') /\
    (incremental_mode scan_order = false \/
     (exists scan_from, reference_timestamp env data_source scan_order = Ok scan_from) ->
     updated_credentials res =
       if truthy (auth_updated_credentials auth)
       then auth_updated_credentials auth else JNull) /\
    (incremental_mode scan_order = true ->
     (exists e, reference_timestamp env data_source scan_order = Err e) ->
     updated_credentials res = JNull).
Proof.
  intros Ha Hc A.
  assert (M : forall res,
             updated_credentials res = JNull ->
             updated_credentials (merge_credentials (auth_updated_credentials auth) res) =
               if truthy (auth_updated_credentials auth)
               then auth_updated_credentials auth else JNull).
  { intros res Hres. unfold merge_credentials.
    destruct (truthy (auth_updated_credentials auth)); [reflexivity|exact Hres]. }
  destruct (incremental_mode scan_order) eqn:Hm.
  - rewrite (scan_incremental_eq env s data_source scan_order w auth c Ha Hc Hm A).
    destruct (reference_timestamp env data_source scan_order) as [scan_from|e1].
    + destruct (format_to_rfc3339_box env scan_from) as [scan_from_str|e1];
        [destruct (_scan_folder_incremental env _ _ _ _ (walk_state _))
           as [[[records more]|e1] m1]|];
        eexists; eexists; (split; [reflexivity|]);
        (split; [intros _; apply M; reflexivity|]);
        intros _ [e2 He2]; discriminate.
    + eexists; eexists; (split; [reflexivity|]). split.
      * intros [F|[scan_from F]]; discriminate.
      * intros _ _. reflexivity.
  - rewrite (scan_full_eq env s data_source scan_order w auth c Ha Hc Hm A).
    destruct (_scan_folder env _ _ _ (walk_state _)) as [[[records more]|e1] m1];
      eexists; eexists; (split; [reflexivity|]);
      (split; [intros _; apply M; reflexivity|]);
      intros F; discriminate.
Qed.

Lemma X7_refreshed_credentials_witness :
  _authenticate (env_refreshing client_not_found) data_source0 =
    Ok (Some {| service := Some client_not_found;
                auth_updated_credentials := refreshed_credentials |}) /\
  accepts_from (env_refreshing client_not_found) "order-1" 0 /\
  exists res m',
    scan (env_refreshing client_not_found) __init__ data_source0
      (order_at "incremental" 2) world0 = (Ok res, m') /\
    (incremental_mode (order_at "incremental" 2) = false \/
     (exists scan_from,
        reference_timestamp (env_refreshing client_not_found) data_source0
          (order_at "incremental" 2) = Ok scan_from) ->
     updated_credentials res =
       if truthy refreshed_credentials then refreshed_credentials else JNull) /\
    (incremental_mode (order_at "incremental" 2) = true ->
     (exists e,
        reference_timestamp (env_refreshing client_not_found) data_source0
          (order_at "incremental" 2) = Err e) ->
     updated_credentials res = JNull).
Proof.
  split; [reflexivity|]. split; [intros cursor_data k _; reflexivity|].
  exact (X7_refreshed_credentials (env_refreshing client_not_found) __init__
           data_source0 (order_at "incremental" 2) world0
           {| service := Some client_not_found;
              auth_updated_credentials := refreshed_credentials |}
           client_not_found eq_refl eq_refl (fun _ _ _ => eq_refl)).
Defined.
(** ** Folder walk: counters, bounds and accounting *)

(** X8. The counters a walk keeps.  A walk that returns has counted one
    API call and left the error flag alone; the full walk has then
    counted no error, even if it dropped entries, while the error count of
    the incremental walk can only have grown.  A walk that raises has set
    [_api_error_occurred]; the full walk has then counted exactly one
    error, and the error count of the incremental walk has not shrunk. *)
Theorem X8_walk_counters (env : Env) (folder_id modified_since : string)
  (offset max_files : Z) (m : Machine) :
  (forall walked m',
     _scan_folder env folder_id offset max_files m = (Ok walked, m') ->
     api_calls_count (self m') = api_calls_count (self m) + 1 /\
     api_errors_count (self m') = api_errors_count (self m) /\
     _api_error_occurred (self m') = _api_error_occurred (self m)) /\
  (forall e m',
     _scan_folder env folder_id offset max_files m = (Err e, m') ->
     _api_error_occurred (self m') = true /\
     api_errors_count (self m') = api_errors_count (self m) + 1) /\
  (forall walked m',
     _scan_folder_incremental env folder_id modified_since offset max_files m =
       (Ok walked, m') ->
     api_calls_count (self m') = api_calls_count (self m) + 1 /\
     api_errors_count (self m) <= api_errors_count (self m') /\
     _api_error_occurred (self m') = _api_error_occurred (self m)) /\
  (forall e m',
     _scan_folder_incremental env folder_id modified_since offset max_files m =
       (Err e, m') ->
     _api_error_occurred (self m') = true /\
     api_errors_count (self m) <= api_errors_count (self m')).
Proof.
  destruct (scan_folder_counters env folder_id offset max_files m) as [A B].
  destruct (scan_folder_incremental_counters env folder_id modified_since offset
              max_files m) as [C D].
  split; [exact A|]. split; [exact B|]. split; [exact C|exact D].
Qed.

Lemma X8_walk_counters_witness :
  exists e m',
    _scan_folder (env_with client_not_found) "0" 0 MAX_BATCH_SIZE
      (machine_with client_not_found (order_new "full")) = (Err e, m') /\
    _api_error_occurred (self m') = true /\
    api_errors_count (self m') =
      api_errors_count (self (machine_with client_not_found (order_new "full"))) + 1.
Proof.
  exists (BoxAPIException 404 "Not Found").
  exists (snd (_scan_folder (env_with client_not_found) "0" 0 MAX_BATCH_SIZE
                 (machine_with client_not_found (order_new "full")))).
  assert (H : _scan_folder (env_with client_not_found) "0" 0 MAX_BATCH_SIZE
                (machine_with client_not_found (order_new "full")) =
              (Err (BoxAPIException 404 "Not Found"),
               snd (_scan_folder (env_with client_not_found) "0" 0 MAX_BATCH_SIZE
                      (machine_with client_not_found (order_new "full"))))).
  { vm_compute. reflexivity. }
  split; [exact H|].
  exact (proj1 (proj2 (X8_walk_counters (env_with client_not_found) "0" "" 0
                         MAX_BATCH_SIZE
                         (machine_with client_not_found (order_new "full"))))
           _ _ H).
Defined.

(** X9. A walk never returns more than [max_files] records, whatever the
    response holds; with [max_files <= 0] it returns none. *)
Theorem X9_walk_records_bound (env : Env) (folder_id modified_since : string)
  (offset max_files : Z) (m : Machine) (records : list FileMetadata) (more : bool)
  (m' : Machine) :
  (_scan_folder env folder_id offset max_files m = (Ok (records, more), m') ->
   Z.of_nat (List.length records) <= Z.max 0 max_files) /\
  (_scan_folder_incremental env folder_id modified_since offset max_files m =
     (Ok (records, more), m') ->
   Z.of_nat (List.length records) <= Z.max 0 max_files).
Proof.
  split; intros H.
  - apply scan_folder_summary in H. destruct H as (_ & _ & _ & Hb).
    exact (Hb records more eq_refl).
  - apply scan_folder_incremental_summary in H. destruct H as (_ & _ & _ & Hb).
    exact (Hb records more eq_refl).
Qed.

Lemma X9_walk_records_bound_witness :
  exists records more m',
    _scan_folder (env_with (client_answering (page_without_total 3))) "0" 0 2
      (machine_with (client_answering (page_without_total 3)) (order_new "full")) =
      (Ok (records, more), m') /\
    Z.of_nat (List.length records) <= Z.max 0 2.
Proof.
  exists [record_a; record_a], true.
  exists (snd (_scan_folder (env_with (client_answering (page_without_total 3))) "0" 0 2
                 (machine_with (client_answering (page_without_total 3))
                    (order_new "full")))).
  assert (H : _scan_folder (env_with (client_answering (page_without_total 3))) "0" 0 2
                (machine_with (client_answering (page_without_total 3))
                   (order_new "full")) =
              (Ok ([record_a; record_a], true),
               snd (_scan_folder (env_with (client_answering (page_without_total 3)))
                      "0" 0 2
                      (machine_with (client_answering (page_without_total 3))
                         (order_new "full"))))).
  { vm_compute. reflexivity. }
  split; [exact H|].
  exact (proj1 (X9_walk_records_bound
                  (env_with (client_answering (page_without_total 3))) "0" "" 0 2
                  (machine_with (client_answering (page_without_total 3))
                     (order_new "full"))
                  [record_a; record_a] true _) H).
Defined.

(** X10. Incremental mode accounts for every entry of a page that fits the
    batch: on a response whose body holds a non-empty list of at most
    [max_files] entries and an integer [total_count] (or none), the walk
    returns, and the entries it did not deliver are exactly the ones it
    added to [api_errors_count]. *)
Theorem X10_incremental_accounting (env : Env) (folder_id modified_since : string)
  (offset max_files : Z) (m m1 : Machine) (r : Response)
  (d : list (string * json)) (item : json) (items : list json) :
  _execute_with_retry env
    (search_request (search_params_incremental folder_id modified_since offset max_files))
    (slept RATE_LIMIT_DELAY m) = (Ok (Some r), m1) ->
  resp_json r = Ok (JDict d) ->
  assoc "entries" d = Some (JList (item :: items)) ->
  Z.of_nat (List.length (item :: items)) <= max_files ->
  (assoc "total_count" d = None \/ exists total, assoc "total_count" d = Some (JInt total)) ->
  exists records more m',
    _scan_folder_incremental env folder_id modified_since offset max_files m =
      (Ok (records, more), m') /\
    (List.length records <= List.length (item :: items))%nat /\
    api_errors_count (self m') =
      api_errors_count (self m) +
      (Z.of_nat (List.length (item :: items)) - Z.of_nat (List.length records)).
Proof.
  intros E Hj He Hroom Ht.
  rewrite scan_folder_incremental_decompose, E.
  apply execute_self in E. cbn [slept time_sleep modify_world snd self] in E.
  pose proof (items_loop_incremental_counts env folder_id max_files (item :: items)
                no_locals eq_refl) as (L1 & L2 & L3 & L4 & L5 & L6).
  cbn [files_count item_errors no_locals] in L1, L2, L3, L4, L5, L6.
  specialize (L6 ltac:(lia)).
  assert (P : exists more,
             page_outcome_incremental env folder_id offset max_files (Some r) =
               (item_errors (items_loop_incremental env folder_id max_files (item :: items)
                               no_locals),
                Ok (file_metadata_list
                      (items_loop_incremental env folder_id max_files (item :: items)
                         no_locals), more))).
  { unfold page_outcome_incremental. cbn [response_json_of]. rewrite Hj.
    cbn [py_get rbind]. rewrite He. cbn [truthy negb py_len py_iter].
    destruct Ht as [Ht|[total Ht]]; rewrite Ht; cbn [py_int_lt rbind];
      eexists; reflexivity. }
  destruct P as (more & P). rewrite P.
  eexists. exists more. eexists. split; [reflexivity|].
  cbn [counted called self set_api_errors_count set_api_calls_count api_errors_count].
  rewrite E. split; [|lia].
  apply Nat2Z.inj_le. lia.
Qed.

Lemma X10_incremental_accounting_witness :
  exists records more m',
    _scan_folder_incremental (env_with (client_answering page_with_orphan)) "0"
      "1970-01-01T00:00:00Z" 0 MAX_BATCH_SIZE
      (machine_with (client_answering page_with_orphan) (order_new "incremental")) =
      (Ok (records, more), m') /\
    (List.length records <= List.length [item_a; item_orphan])%nat /\
    api_errors_count (self m') =
      api_errors_count
        (self (machine_with (client_answering page_with_orphan)
                 (order_new "incremental"))) +
      (Z.of_nat (List.length [item_a; item_orphan]) - Z.of_nat (List.length records)).
Proof.
  refine (X10_incremental_accounting (env_with (client_answering page_with_orphan))
            "0" "1970-01-01T00:00:00Z" 0 MAX_BATCH_SIZE
            (machine_with (client_answering page_with_orphan) (order_new "incremental"))
            (requested (slept RATE_LIMIT_DELAY
               (machine_with (client_answering page_with_orphan)
                  (order_new "incremental"))))
            {| resp_json := Ok page_with_orphan |}
            [("entries", JList [item_a; item_orphan]); ("total_count", JInt 2)]
            item_a [item_orphan] _ eq_refl eq_refl _ _).
  - vm_compute. reflexivity.
  - vm_compute. discriminate.
  - right. exists 2. reflexivity.
Defined.

(** ** Batches against a paging provider *)

Lemma items_loop_full_delivered (env : Env) (folder_id : string) (max_files : Z)
  (items : list json) :
  Forall is_object items ->
  forall l,
    files_count l + Z.of_nat (List.length items) <= max_files ->
    exists l',
      items_loop_full env folder_id max_files items l = Ok l' /\
      file_metadata_list l' = (file_metadata_list l ++ delivered_full env folder_id items)%list /\
      has_more l' = has_more l.
Proof.
  induction 1 as [|item items Hitem _ IH]; intros l Hroom.
  - exists l. cbn. rewrite app_nil_r. repeat split.
  - cbn [items_loop_full]. cbn [List.length] in Hroom. rewrite Nat2Z.inj_succ in Hroom.
    destruct (files_count l >=? max_files) eqn:G.
    { apply Z.geb_le in G. lia. }
    unfold delivered_full. cbn [flat_map]. fold (delivered_full env folder_id items).
    destruct (file_metadata_full env folder_id item) as [file_metadata|err].
    + destruct (IH {| file_metadata_list := file_metadata_list l ++ [file_metadata];
                      files_count := files_count l + 1;
                      has_more := has_more l;
                      item_errors := item_errors l |}) as (l' & H1 & H2 & H3).
      { cbn [files_count]. lia. }
      exists l'. split; [exact H1|]. split; [|exact H3].
      rewrite H2. cbn [file_metadata_list]. rewrite <- app_assoc. reflexivity.
    + destruct item; try contradiction. cbn [py_get rbind app].
      apply IH. lia.
Qed.

Lemma page_of_length (items : list json) (offset limit : Z) :
  List.length (page_of items offset limit) =
    Nat.min (Z.to_nat limit) (List.length items - Z.to_nat offset).
Proof. unfold page_of. rewrite length_firstn, length_skipn. reflexivity. Qed.

Lemma page_of_more (items : list json) (offset limit : Z) :
  0 <= offset -> 0 < limit ->
  (offset + Z.of_nat (List.length (page_of items offset limit)) <?
     Z.of_nat (List.length items)) =
  (offset + limit <? Z.of_nat (List.length items)).
Proof.
  intros Ho Hl. rewrite page_of_length.
  destruct (Z.ltb_spec (offset + limit) (Z.of_nat (List.length items))) as [H|H].
  - apply Z.ltb_lt. lia.
  - apply Z.ltb_ge. lia.
Qed.

Lemma Forall_firstn_list {A : Type} (P : A -> Prop) (n : nat) (l : list A) :
  Forall P l -> Forall P (firstn n l).
Proof.
  revert l. induction n as [|n IH]; intros l H; cbn [firstn]; [constructor|].
  destruct H as [|x l Hx H]; constructor; [exact Hx|apply IH; exact H].
Qed.

Lemma Forall_skipn_list {A : Type} (P : A -> Prop) (n : nat) (l : list A) :
  Forall P l -> Forall P (skipn n l).
Proof.
  revert l. induction n as [|n IH]; intros l H; cbn [skipn]; [exact H|].
  destruct H as [|x l Hx H]; [constructor|apply IH; exact H].
Qed.

Lemma page_of_forall (P : json -> Prop) (items : list json) (offset limit : Z) :
  Forall P items -> Forall P (page_of items offset limit).
Proof.
  intros H. unfold page_of. apply Forall_firstn_list, Forall_skipn_list. exact H.
Qed.

(** The full walk on a page of the paging provider. *)
Lemma scan_folder_paging (env : Env) (items : list json) (folder_id : string)
  (offset max_files : Z) (m : Machine) :
  box_client (self m) = Some (client_paging items) ->
  Forall is_object items ->
  0 <= offset -> 0 < max_files ->
  exists m',
    _scan_folder env folder_id offset max_files m =
      (Ok (delivered_full env folder_id (page_of items offset max_files),
           offset + max_files <? Z.of_nat (List.length items)), m').
Proof.
  intros Hc Hobj Ho Hmax.
  rewrite scan_folder_decompose, execute_with_retry_unfold.
  rewrite (retry_loop_success env _ 0 _ _
             (requested (slept RATE_LIMIT_DELAY m))
             (Some {| resp_json :=
                        Ok (paging_body items offset max_files) |})).
  2:{ cbn [Nat.ltb Nat.leb].
      rewrite (search_request_through (client_paging items)) by exact Hc.
      reflexivity. }
  unfold page_outcome_full, paging_body.
  cbn [response_json_of resp_json rbind truthy negb py_get assoc String.eqb Ascii.eqb
       Bool.eqb].
  destruct (page_of items offset max_files) as [|item page] eqn:P.
  - cbn [truthy negb rbind]. eexists.
    replace (offset + max_files <? Z.of_nat (List.length items)) with false;
      [reflexivity|].
    symmetry. rewrite <- (page_of_more items offset max_files Ho Hmax), P.
    cbn [List.length]. apply Z.ltb_ge.
    pose proof (page_of_length items offset max_files) as L. rewrite P in L.
    cbn [List.length] in L. lia.
  - cbn [truthy negb rbind py_first py_iter].
    destruct (items_loop_full_delivered env folder_id max_files (item :: page)) with
      (l := no_locals) as (l' & H1 & H2 & H3).
    { rewrite <- P. apply page_of_forall. exact Hobj. }
    { cbn [files_count no_locals]. rewrite <- P, page_of_length. lia. }
    rewrite H1. cbn [rbind]. rewrite H3, H2.
    cbn [has_more no_locals negb py_len rbind py_int_lt file_metadata_list app].
    rewrite <- P, (page_of_more items offset max_files Ho Hmax).
    eexists. destruct (offset + max_files <? Z.of_nat (List.length items)); reflexivity.
Qed.

Lemma full_batch_paging (env : Env) (s : BoxStrategy) (data_source : DataSource)
  (scan_order : ScanOrder) (w : World) (auth : AuthResult) (items : list json) :
  _authenticate env data_source = Ok (Some auth) ->
  service auth = Some (client_paging items) ->
  incremental_mode scan_order = false ->
  Forall is_object items ->
  0 <= offset_of (cursor_of scan_order) ->
  accepts_from env (so_id scan_order) (List.length (persisted w)) ->
  exists m1,
    same_cursor_state (walk_state (dispatch_state s (client_paging items) scan_order w)) m1 /\
    scan env s data_source scan_order w =
      (Ok (merge_credentials (auth_updated_credentials auth)
             (batch_result
                (delivered_full env (root_folder_id_of data_source)
                   (page_of items (offset_of (cursor_of scan_order)) MAX_BATCH_SIZE))
                (offset_of (cursor_of scan_order) + MAX_BATCH_SIZE <?
                   Z.of_nat (List.length items))
                (saved_state
                   (advanced_state
                      (Z.of_nat
                         (List.length
                            (delivered_full env (root_folder_id_of data_source)
                               (page_of items (offset_of (cursor_of scan_order))
                                  MAX_BATCH_SIZE))))
                      (offset_of (cursor_of scan_order) + MAX_BATCH_SIZE <?
                         Z.of_nat (List.length items))
                      m1)))),
       ticked (ticked
         (saved_state
            (advanced_state
               (Z.of_nat
                  (List.length
                     (delivered_full env (root_folder_id_of data_source)
                        (page_of items (offset_of (cursor_of scan_order)) MAX_BATCH_SIZE))))
               (offset_of (cursor_of scan_order) + MAX_BATCH_SIZE <?
                  Z.of_nat (List.length items))
               m1)))).
Proof.
  intros Ha Hc Hm Hobj Hk A.
  rewrite (scan_full_eq env s data_source scan_order w auth (client_paging items)
             Ha Hc Hm A).
  destruct (scan_folder_paging env items (root_folder_id_of data_source)
              (offset_of (cursor_of scan_order)) MAX_BATCH_SIZE
              (walk_state (dispatch_state s (client_paging items) scan_order w)))
    as (m1 & E); try assumption; try reflexivity.
  exists m1. split.
  - exact (scan_folder_frame env _ _ _ _ _ _ E).
  - rewrite E. reflexivity.
Qed.

(** One full-scan batch against the paging provider. *)
Lemma full_batch_paging_outcome (env : Env) (s : BoxStrategy)
  (data_source : DataSource) (scan_order : ScanOrder) (w : World)
  (auth : AuthResult) (items : list json) :
  _authenticate env data_source = Ok (Some auth) ->
  service auth = Some (client_paging items) ->
  incremental_mode scan_order = false ->
  Forall is_object items ->
  0 <= offset_of (cursor_of scan_order) ->
  accepts_from env (so_id scan_order) (List.length (persisted w)) ->
  exists res m' t,
    scan env s data_source scan_order w = (Ok res, m') /\
    error res = None /\
    files res =
      delivered_full env (root_folder_id_of data_source)
        (page_of items (offset_of (cursor_of scan_order)) MAX_BATCH_SIZE) /\
    (is_completed res = true <->
     Z.of_nat (List.length items) <= offset_of (cursor_of scan_order) + MAX_BATCH_SIZE) /\
    order m' =
      with_cursor scan_order
        (if is_completed res then 0
         else offset_of (cursor_of scan_order) + Z.of_nat (List.length (files res)))
        t.
Proof.
  intros Ha Hc Hm Hobj Hk A.
  destruct (full_batch_paging env s data_source scan_order w auth items Ha Hc Hm Hobj Hk A)
    as (m1 & (_ & Fk & _ & _ & Fo & _) & E).
  cbn [walk_state dispatch_state self order world current_offset set_current_offset]
    in Fk, Fo.
  rewrite E. eexists. eexists. exists (now (world m1)). split; [reflexivity|].
  destruct (merge_credentials_fields (auth_updated_credentials auth)
              (batch_result
                 (delivered_full env (root_folder_id_of data_source)
                    (page_of items (offset_of (cursor_of scan_order)) MAX_BATCH_SIZE))
                 (offset_of (cursor_of scan_order) + MAX_BATCH_SIZE <?
                    Z.of_nat (List.length items))
                 (saved_state
                    (advanced_state
                       (Z.of_nat
                          (List.length
                             (delivered_full env (root_folder_id_of data_source)
                                (page_of items (offset_of (cursor_of scan_order))
                                   MAX_BATCH_SIZE))))
                       (offset_of (cursor_of scan_order) + MAX_BATCH_SIZE <?
                          Z.of_nat (List.length items))
                       m1))))
    as (Mf & Mc & _ & Me).
  rewrite Me, Mf, Mc. cbn [batch_result error files is_completed].
  split; [reflexivity|]. split; [reflexivity|]. split.
  - destruct (Z.ltb_spec (offset_of (cursor_of scan_order) + MAX_BATCH_SIZE)
                (Z.of_nat (List.length items))) as [H|H]; cbn [negb].
    + split; [discriminate|lia].
    + split; [intros _; exact H|reflexivity].
  - unfold with_cursor, saved_state, advanced_state, advance, ticked, next_cursor.
    cbn. rewrite Fk, Fo.
    destruct (offset_of (cursor_of scan_order) + MAX_BATCH_SIZE <?
                Z.of_nat (List.length items)); reflexivity.
Qed.

(** X11. One full-scan batch against a provider that pages a fixed list of
    entries (all JSON objects), from the cursor offset [k >= 0]: the files
    are the entries of the page [k, k + 300) that normalise, in page
    order; the batch is completed exactly when no entry lies beyond
    [k + 300]; and the cursor it saves is 0 when completed and otherwise
    [k] plus the number of files delivered, which falls short of the end
    of the page when entries were dropped.  The persistence adapter is
    taken to accept the cursor. *)
Theorem X11_full_batch_against_paging_provider (env : Env) (s : BoxStrategy)
  (data_source : DataSource) (scan_order : ScanOrder) (w : World)
  (auth : AuthResult) (items : list json) :
  _authenticate env data_source = Ok (Some auth) ->
  service auth = Some (client_paging items) ->
  incremental_mode scan_order = false ->
  Forall is_object items ->
  0 <= offset_of (cursor_of scan_order) ->
  accepts_from env (so_id scan_order) (List.length (persisted w)) ->
  exists res m' t,
    scan env s data_source scan_order w = (Ok res, m') /\
    error res = None /\
    files res =
      delivered_full env (root_folder_id_of data_source)
        (page_of items (offset_of (cursor_of scan_order)) MAX_BATCH_SIZE) /\
    (is_completed res = true <->
     Z.of_nat (List.length items) <= offset_of (cursor_of scan_order) + MAX_BATCH_SIZE) /\
    order m' =
      with_cursor scan_order
        (if is_completed res then 0
         else offset_of (cursor_of scan_order) + Z.of_nat (List.length (files res)))
        t.
Proof. exact (full_batch_paging_outcome env s data_source scan_order w auth items). Qed.

Lemma X11_full_batch_against_paging_provider_witness :
  _authenticate (env_with (client_paging [item_a; item_orphan; item_a])) data_source0 =
    Ok (Some (auth_paging [item_a; item_orphan; item_a])) /\
  Forall is_object [item_a; item_orphan; item_a] /\
  0 <= offset_of (cursor_of (order_at "full" 1)) /\
  accepts_from (env_with (client_paging [item_a; item_orphan; item_a])) "order-1" 0 /\
  exists res m' t,
    scan (env_with (client_paging [item_a; item_orphan; item_a])) __init__ data_source0
      (order_at "full" 1) world0 = (Ok res, m') /\
    error res = None /\
    files res = delivered_full (env_with (client_paging [item_a; item_orphan; item_a])) "0" [item_orphan; item_a] /\
    (is_completed res = true <-> 3 <= 1 + MAX_BATCH_SIZE) /\
    order m' =
      with_cursor (order_at "full" 1)
        (if is_completed res then 0 else 1 + Z.of_nat (List.length (files res))) t.
Proof.
  assert (Ho : Forall is_object [item_a; item_orphan; item_a]).
  { repeat constructor. }
  assert (Hk : 0 <= offset_of (cursor_of (order_at "full" 1))).
  { cbn. lia. }
  split; [reflexivity|]. split; [exact Ho|]. split; [exact Hk|].
  split; [intros cursor_data k _; reflexivity|].
  exact (X11_full_batch_against_paging_provider
           (env_with (client_paging [item_a; item_orphan; item_a])) __init__
           data_source0 (order_at "full" 1) world0
           (auth_paging [item_a; item_orphan; item_a])
           [item_a; item_orphan; item_a] eq_refl eq_refl eq_refl Ho Hk
           (fun _ _ _ => eq_refl)).
Defined.

(** ** A whole sweep *)

Lemma normalises_object (env : Env) (folder_id : string) (item : json) :
  normalises env folder_id item -> is_object item.
Proof.
  intros [file_metadata H]. destruct item; try exact I; discriminate.
Qed.

Lemma delivered_full_app (env : Env) (folder_id : string) (l1 l2 : list json) :
  delivered_full env folder_id (l1 ++ l2) =
    (delivered_full env folder_id l1 ++ delivered_full env folder_id l2)%list.
Proof. unfold delivered_full. apply flat_map_app. Qed.

Lemma delivered_full_length (env : Env) (folder_id : string) (items : list json) :
  Forall (normalises env folder_id) items ->
  List.length (delivered_full env folder_id items) = List.length items.
Proof.
  induction 1 as [|item items [file_metadata H] _ IH]; [reflexivity|].
  unfold delivered_full. cbn [flat_map]. rewrite H.
  fold (delivered_full env folder_id items). cbn [app List.length]. rewrite IH. reflexivity.
Qed.

Lemma delivered_full_normal_forms (env : Env) (folder_id : string) (items : list json) :
  Forall (normalises env folder_id) items ->
  Forall2 (fun item file_metadata => file_metadata_full env folder_id item = Ok file_metadata)
    items (delivered_full env folder_id items).
Proof.
  induction 1 as [|item items [file_metadata H] _ IH]; [constructor|].
  unfold delivered_full. cbn [flat_map]. rewrite H.
  fold (delivered_full env folder_id items). cbn [app]. constructor; assumption.
Qed.

Lemma sweep_paging (env : Env) (data_source : DataSource) (auth : AuthResult)
  (items : list json) :
  _authenticate env data_source = Ok (Some auth) ->
  service auth = Some (client_paging items) ->
  Forall (normalises env (root_folder_id_of data_source)) items ->
  forall batches s scan_order w,
    accepts env (so_id scan_order) ->
    incremental_mode scan_order = false ->
    0 <= offset_of (cursor_of scan_order) ->
    Z.of_nat (List.length items) - offset_of (cursor_of scan_order) <=
      MAX_BATCH_SIZE * Z.of_nat (S batches) ->
    sweep env (S batches) s data_source scan_order w =
      (delivered_full env (root_folder_id_of data_source)
         (skipn (Z.to_nat (offset_of (cursor_of scan_order))) items),
       true).
Proof.
  intros Ha Hc Hnorm.
  assert (Hobj : Forall is_object items).
  { eapply Forall_impl; [|exact Hnorm]. intros a. apply normalises_object. }
  assert (Done : forall s scan_order w batches,
             accepts env (so_id scan_order) ->
             incremental_mode scan_order = false ->
             0 <= offset_of (cursor_of scan_order) ->
             Z.of_nat (List.length items) <=
               offset_of (cursor_of scan_order) + MAX_BATCH_SIZE ->
             sweep env (S batches) s data_source scan_order w =
               (delivered_full env (root_folder_id_of data_source)
                  (skipn (Z.to_nat (offset_of (cursor_of scan_order))) items),
                true)).
  { intros s scan_order w batches A Hm Hk Hlast.
    destruct (full_batch_paging_outcome env s data_source scan_order w auth items
                Ha Hc Hm Hobj Hk (accepts_all_from env _ _ A)) as (res & m' & t & E & _ & Hf & Hcomp & _).
    cbn [sweep]. rewrite E.
    rewrite (proj2 Hcomp Hlast), Hf. unfold page_of.
    rewrite firstn_all2; [reflexivity|].
    rewrite length_skipn. unfold MAX_BATCH_SIZE in *. lia. }
  induction batches as [|batches IH]; intros s scan_order w A Hm Hk Hfuel.
  - apply Done; try assumption. lia.
  - destruct (Z.le_gt_cases (Z.of_nat (List.length items))
                (offset_of (cursor_of scan_order) + MAX_BATCH_SIZE)) as [Hlast|Hmore].
    + apply Done; assumption.
    + destruct (full_batch_paging_outcome env s data_source scan_order w auth items
                  Ha Hc Hm Hobj Hk (accepts_all_from env _ _ A))
        as (res & m' & t & E & _ & Hf & Hcomp & Ho).
      assert (C : is_completed res = false).
      { destruct (is_completed res); [|reflexivity].
        pose proof (proj1 Hcomp eq_refl). lia. }
      rewrite C in Ho.
      assert (Hlen : Z.of_nat (List.length (files res)) = MAX_BATCH_SIZE).
      { rewrite Hf, delivered_full_length by (apply page_of_forall; exact Hnorm).
        rewrite page_of_length. unfold MAX_BATCH_SIZE in *. lia. }
      rewrite Hlen in Ho.
      change (sweep env (S (S batches)) s data_source scan_order w)
        with (match scan env s data_source scan_order w with
              | (Ok res, m') =>
                  if is_completed res then (files res, true)
                  else
                    let (later, completed) :=
                      sweep env (S batches) (self m') data_source (order m') (world m') in
                    ((files res ++ later)%list, completed)
              | (Err _, _) => ([], false)
              end).
      rewrite E, C, Ho.
      rewrite IH.
      * change (offset_of (cursor_of
                  (with_cursor scan_order
                     (offset_of (cursor_of scan_order) + MAX_BATCH_SIZE) t)))
          with (offset_of (cursor_of scan_order) + MAX_BATCH_SIZE).
        rewrite Hf, <- delivered_full_app. unfold page_of.
        replace (Z.to_nat (offset_of (cursor_of scan_order) + MAX_BATCH_SIZE))
          with (Z.to_nat MAX_BATCH_SIZE + Z.to_nat (offset_of (cursor_of scan_order)))%nat
          by (unfold MAX_BATCH_SIZE; lia).
        rewrite <- skipn_skipn, firstn_skipn. reflexivity.
      * exact A.
      * exact Hm.
      * cbn. lia.
      * change (offset_of (cursor_of
                  (with_cursor scan_order
                     (offset_of (cursor_of scan_order) + MAX_BATCH_SIZE) t)))
          with (offset_of (cursor_of scan_order) + MAX_BATCH_SIZE).
        rewrite Nat2Z.inj_succ in Hfuel. rewrite Nat2Z.inj_succ.
        unfold MAX_BATCH_SIZE in *. lia.
Qed.

(** X12. Against a provider that pages a fixed list of entries, all of
    which normalise, a caller that repeats full-scan batches from the
    cursor offset [k], handing each batch the scan order the previous one
    left, completes the sweep within ceil((N - k) / 300) batches (at
    least one), and the files of the batches, put end to end, are the
    normal forms of the entries from [k] on: each entry once, in the
    order of the provider.  The persistence adapter is taken to accept
    the cursors of the scan order. *)
Theorem X12_full_sweep_delivers_every_entry (env : Env) (s : BoxStrategy)
  (data_source : DataSource) (scan_order : ScanOrder) (w : World)
  (auth : AuthResult) (items : list json) (batches : nat) :
  _authenticate env data_source = Ok (Some auth) ->
  service auth = Some (client_paging items) ->
  Forall (normalises env (root_folder_id_of data_source)) items ->
  accepts env (so_id scan_order) ->
  incremental_mode scan_order = false ->
  0 <= offset_of (cursor_of scan_order) ->
  Z.of_nat (List.length items) - offset_of (cursor_of scan_order) <=
    MAX_BATCH_SIZE * Z.of_nat (S batches) ->
  snd (sweep env (S batches) s data_source scan_order w) = true /\
  Forall2 (fun item file_metadata =>
             file_metadata_full env (root_folder_id_of data_source) item = Ok file_metadata)
    (skipn (Z.to_nat (offset_of (cursor_of scan_order))) items)
    (fst (sweep env (S batches) s data_source scan_order w)).
Proof.
  intros Ha Hc Hnorm A Hm Hk Hfuel.
  rewrite (sweep_paging env data_source auth items Ha Hc Hnorm batches s scan_order w
             A Hm Hk Hfuel).
  cbn [fst snd]. split; [reflexivity|].
  apply delivered_full_normal_forms, Forall_skipn_list. exact Hnorm.
Qed.

Lemma X12_full_sweep_delivers_every_entry_witness :
  _authenticate (env_with (client_paging (repeat item_a 301))) data_source0 =
    Ok (Some (auth_paging (repeat item_a 301))) /\
  Forall (normalises (env_with (client_paging (repeat item_a 301)))
            (root_folder_id_of data_source0)) (repeat item_a 301) /\
  accepts (env_with (client_paging (repeat item_a 301))) "order-1" /\
  Z.of_nat (List.length (repeat item_a 301)) - offset_of (cursor_of (order_new "full")) <=
    MAX_BATCH_SIZE * Z.of_nat 2 /\
  snd (sweep (env_with (client_paging (repeat item_a 301))) 2 __init__ data_source0
         (order_new "full") world0) = true /\
  Forall2 (fun item file_metadata =>
             file_metadata_full (env_with (client_paging (repeat item_a 301)))
               (root_folder_id_of data_source0) item = Ok file_metadata)
    (skipn (Z.to_nat (offset_of (cursor_of (order_new "full")))) (repeat item_a 301))
    (fst (sweep (env_with (client_paging (repeat item_a 301))) 2 __init__ data_source0
            (order_new "full") world0)).
Proof.
  assert (Hn : Forall (normalises (env_with (client_paging (repeat item_a 301)))
                         (root_folder_id_of data_source0)) (repeat item_a 301)).
  { apply Forall_forall. intros x Hx. apply repeat_spec in Hx. subst x.
    exists record_a. reflexivity. }
  assert (Hf : Z.of_nat (List.length (repeat item_a 301)) -
               offset_of (cursor_of (order_new "full")) <= MAX_BATCH_SIZE * Z.of_nat 2).
  { rewrite repeat_length. cbn. lia. }
  split; [reflexivity|]. split; [exact Hn|].
  split; [intros cursor_data k; reflexivity|]. split; [exact Hf|].
  refine (X12_full_sweep_delivers_every_entry
            (env_with (client_paging (repeat item_a 301))) __init__ data_source0
            (order_new "full") world0 (auth_paging (repeat item_a 301))
            (repeat item_a 301) 1 eq_refl eq_refl Hn (fun _ _ => eq_refl)
            eq_refl _ Hf).
  cbn. lia.
Defined.

(** ** Incremental mode on entries that cannot be normalised *)

Lemma items_loop_incremental_all_fail (env : Env) (folder_id : string) (max_files : Z)
  (items : list json) :
  Forall (never_normalises env folder_id) items ->
  forall l,
    file_metadata_list (items_loop_incremental env folder_id max_files items l) =
      file_metadata_list l.
Proof.
  induction 1 as [|item items Hitem _ IH]; intros l; [reflexivity|].
  cbn [items_loop_incremental].
  destruct (files_count l >=? max_files); [reflexivity|].
  destruct (Hitem (files_count l)) as [e He]. rewrite He.
  rewrite IH. reflexivity.
Qed.

Lemma scan_folder_incremental_stuck (env : Env) (items : list json)
  (folder_id modified_since : string) (offset max_files : Z) (m : Machine) :
  box_client (self m) = Some (client_paging items) ->
  0 <= offset ->
  page_of items offset max_files <> [] ->
  Forall (never_normalises env folder_id) (page_of items offset max_files) ->
  exists m',
    _scan_folder_incremental env folder_id modified_since offset max_files m =
      (Ok ([], true), m').
Proof.
  intros Hc Ho Hne Hfail.
  rewrite scan_folder_incremental_decompose, execute_with_retry_unfold.
  rewrite (retry_loop_success env _ 0 _ _
             (requested (slept RATE_LIMIT_DELAY m))
             (Some {| resp_json := Ok (paging_body items offset max_files) |})).
  2:{ cbn [Nat.ltb Nat.leb].
      rewrite (search_request_through (client_paging items)) by exact Hc.
      reflexivity. }
  unfold page_outcome_incremental, paging_body.
  cbn [response_json_of resp_json rbind truthy negb py_get assoc String.eqb Ascii.eqb
       Bool.eqb].
  pose proof (page_of_length items offset max_files) as L.
  destruct (page_of items offset max_files) as [|item page] eqn:P; [contradiction|].
  cbn [truthy negb rbind py_len py_iter].
  rewrite (items_loop_incremental_all_fail env folder_id max_files (item :: page) Hfail).
  cbn [file_metadata_list no_locals List.length py_int_lt rbind].
  replace (offset + Z.of_nat 0 <? Z.of_nat (List.length items)) with true.
  - eexists. reflexivity.
  - symmetry. apply Z.ltb_lt. cbn [List.length] in L. lia.
Qed.

Lemma incremental_batch_stuck (env : Env) (s : BoxStrategy) (data_source : DataSource)
  (scan_order : ScanOrder) (w : World) (auth : AuthResult) (items : list json)
  (scan_from scan_from_str : string) :
  _authenticate env data_source = Ok (Some auth) ->
  service auth = Some (client_paging items) ->
  incremental_mode scan_order = true ->
  accepts env (so_id scan_order) ->
  reference_timestamp env data_source scan_order = Ok scan_from ->
  format_to_rfc3339_box env scan_from = Ok scan_from_str ->
  0 <= offset_of (cursor_of scan_order) ->
  page_of items (offset_of (cursor_of scan_order)) MAX_BATCH_SIZE <> [] ->
  Forall (never_normalises env (root_folder_id_of data_source))
    (page_of items (offset_of (cursor_of scan_order)) MAX_BATCH_SIZE) ->
  exists res m' t,
    scan env s data_source scan_order w = (Ok res, m') /\
    error res = None /\
    files res = [] /\
    is_completed res = false /\
    order m' = with_cursor scan_order (offset_of (cursor_of scan_order)) t.
Proof.
  intros Ha Hc Hm A Hr Hf Hk Hne Hfail.
  rewrite (scan_incremental_eq env s data_source scan_order w auth (client_paging items)
             Ha Hc Hm (accepts_all_from env _ _ A)), Hr, Hf.
  destruct (scan_folder_incremental_stuck env items (root_folder_id_of data_source)
              (replace ".000Z" "Z" scan_from_str)
              (offset_of (cursor_of scan_order)) MAX_BATCH_SIZE
              (walk_state (dispatch_state s (client_paging items) scan_order w)))
    as (m1 & E); try assumption; try reflexivity.
  rewrite E.
  apply scan_folder_incremental_frame in E.
  destruct E as (_ & Fk & _ & _ & Fo & _).
  cbn [walk_state dispatch_state self order world current_offset set_current_offset]
    in Fk, Fo.
  eexists. eexists. exists (now (world m1)). split; [reflexivity|].
  destruct (merge_credentials_fields (auth_updated_credentials auth)
              (batch_result [] true
                 (saved_state (advanced_state (Z.of_nat (List.length (@nil FileMetadata)))
                                 true m1))))
    as (Mf & Mc & _ & Me).
  rewrite Me, Mf, Mc. cbn [batch_result error files is_completed negb].
  repeat (split; [reflexivity|]).
  unfold with_cursor, saved_state, advanced_state, advance, ticked, next_cursor.
  cbn. rewrite Fk, Fo, Z.add_0_r. reflexivity.
Qed.

(** X13. Incremental mode does not get past a page none of whose entries
    can be normalised.  Against the paging provider, a batch whose page
    has entries but yields no record reports [is_completed = False]
    without error and saves the cursor offset it started from, so the
    next batch is in the same position: however often the caller repeats
    the batch, the sweep is never completed and no file is delivered.
    The persistence adapter is taken to accept the cursors of the scan
    order. *)
Theorem X13_incremental_sweep_stuck (env : Env) (s : BoxStrategy)
  (data_source : DataSource) (scan_order : ScanOrder) (w : World)
  (auth : AuthResult) (items : list json) (scan_from scan_from_str : string) :
  _authenticate env data_source = Ok (Some auth) ->
  service auth = Some (client_paging items) ->
  incremental_mode scan_order = true ->
  accepts env (so_id scan_order) ->
  reference_timestamp env data_source scan_order = Ok scan_from ->
  format_to_rfc3339_box env scan_from = Ok scan_from_str ->
  0 <= offset_of (cursor_of scan_order) ->
  page_of items (offset_of (cursor_of scan_order)) MAX_BATCH_SIZE <> [] ->
  Forall (never_normalises env (root_folder_id_of data_source))
    (page_of items (offset_of (cursor_of scan_order)) MAX_BATCH_SIZE) ->
  (exists res m' t,
     scan env s data_source scan_order w = (Ok res, m') /\
     error res = None /\
     files res = [] /\
     is_completed res = false /\
     order m' = with_cursor scan_order (offset_of (cursor_of scan_order)) t) /\
  (forall batches, sweep env batches s data_source scan_order w = ([], false)).
Proof.
  intros Ha Hc Hm A Hr Hf Hk Hne Hfail. split.
  - eapply incremental_batch_stuck; eassumption.
  - intros batches. revert s scan_order w Hm A Hr Hk Hne Hfail.
    induction batches as [|batches IH]; intros s scan_order w Hm A Hr Hk Hne Hfail;
      [reflexivity|].
    destruct (incremental_batch_stuck env s data_source scan_order w auth items
                scan_from scan_from_str Ha Hc Hm A Hr Hf Hk Hne Hfail)
      as (res & m' & t & E & _ & Hfiles & Hcomp & Ho).
    cbn [sweep]. rewrite E, Hcomp, Ho, Hfiles.
    rewrite IH; try assumption; reflexivity.
Qed.

Lemma X13_incremental_sweep_stuck_witness :
  _authenticate (env_with (client_paging [item_orphan])) data_source0 =
    Ok (Some (auth_paging [item_orphan])) /\
  accepts (env_with (client_paging [item_orphan])) "order-1" /\
  reference_timestamp (env_with (client_paging [item_orphan])) data_source0
    (order_new "incremental") = Ok "1970-01-01T00:00:00Z" /\
  Forall (never_normalises (env_with (client_paging [item_orphan]))
            (root_folder_id_of data_source0))
    (page_of [item_orphan] (offset_of (cursor_of (order_new "incremental")))
       MAX_BATCH_SIZE) /\
  forall batches,
    sweep (env_with (client_paging [item_orphan])) batches __init__ data_source0
      (order_new "incremental") world0 = ([], false).
Proof.
  assert (Hf : Forall (never_normalises (env_with (client_paging [item_orphan]))
            (root_folder_id_of data_source0))
                 (page_of [item_orphan]
                    (offset_of (cursor_of (order_new "incremental"))) MAX_BATCH_SIZE)).
  { repeat constructor. intros files_count. eexists. reflexivity. }
  split; [reflexivity|]. split; [intros cursor_data k; reflexivity|].
  split; [reflexivity|]. split; [exact Hf|].
  refine (proj2 (X13_incremental_sweep_stuck (env_with (client_paging [item_orphan]))
                   __init__ data_source0 (order_new "incremental") world0
                   (auth_paging [item_orphan]) [item_orphan]
                   "1970-01-01T00:00:00Z" "1970-01-01T00:00:00Z"
                   eq_refl eq_refl eq_refl (fun _ _ => eq_refl) eq_refl eq_refl
                   _ _ Hf)).
  - cbn. lia.
  - discriminate.
Defined.

(** ** Cursor, folder path and MIME type: round trip and edge cases *)

(** X14. Restoring the offset from a cursor and saving it again writes the
    same offset back: the one of the cursor, or 0 when the cursor has no
    [current_offset].  Conversely, restoring from the cursor that
    [_save_scan_state] has just written leaves the offset of the instance
    as it was.  The cursor is in the scan order and has been handed to the
    persistence adapter whatever the adapter answers, and its answer is
    the outcome of the save. *)
Theorem X14_cursor_round_trip (env : Env) (cursor_data : Cursor) (m : Machine) :
  (exists m',
     bind (_restore_scan_state cursor_data) (fun _ => _save_scan_state env) m =
       (update_scan_metadata env (so_id (order m))
          {| c_current_offset := Some (offset_of cursor_data);
             c_last_updated := Some (now (world m)) |}
          (List.length (persisted (world m))), m') /\
     c_current_offset (cursor_of (order m')) = Some (offset_of cursor_data) /\
     last (persisted (world m')) (so_id (order m), empty_cursor) =
       (so_id (order m),
        {| c_current_offset := Some (offset_of cursor_data);
           c_last_updated := Some (now (world m)) |})) /\
  (exists m1 m2,
     _save_scan_state env m =
       (update_scan_metadata env (so_id (order m))
          {| c_current_offset := Some (current_offset (self m));
             c_last_updated := Some (now (world m)) |}
          (List.length (persisted (world m))), m1) /\
     _restore_scan_state (cursor_of (order m1)) m1 = (Ok tt, m2) /\
     current_offset (self m2) = current_offset (self m) /\
     cursor_truthy (cursor_of (order m1)) = true) /\
  (c_current_offset cursor_data = None -> offset_of cursor_data = 0).
Proof.
  split; [|split].
  - exists (saved_state
              {| self := set_current_offset (offset_of cursor_data) (self m);
                 order := order m; world := world m |}).
    split.
    + unfold bind. cbn [_restore_scan_state modify_self].
      rewrite save_scan_state_eq. reflexivity.
    + split; [reflexivity|]. cbn. apply last_last.
  - exists (saved_state m).
    exists {| self := set_current_offset (current_offset (self m)) (self m);
              order := order (saved_state m); world := world (saved_state m) |}.
    split; [apply save_scan_state_eq|]. repeat split.
  - intros H. unfold offset_of. rewrite H. reflexivity.
Qed.

Lemma X14_cursor_round_trip_witness :
  c_current_offset empty_cursor = None /\ offset_of empty_cursor = 0.
Proof.
  split; [reflexivity|].
  exact (proj2 (proj2 (X14_cursor_round_trip (env_with client_not_found) empty_cursor
                         (machine_with client_not_found (order_new "full"))))
           eq_refl).
Defined.

(** X15. [_build_folder_path] tolerates entries without a usable name: in
    a list of entries that are objects, an entry whose name is missing,
    [null] or empty is skipped like the root entry, whatever its id, and
    the path is ["/"] followed by the remaining names joined with ["/"].
    Every path it returns starts with ["/"]. *)
Theorem X15_folder_path_skips_nameless_entries :
  (forall d es ps,
     assoc "entries" d = Some (JList es) ->
     Forall2 is_loose_entry es ps ->
     _build_folder_path (JDict d) = Ok ("/" ++ join "/" (loose_kept_names ps))) /\
  (forall path_collection path,
     _build_folder_path path_collection = Ok path ->
     exists rest, path = "/" ++ rest).
Proof. exact (conj build_folder_path_loose build_folder_path_rooted). Qed.

Lemma X15_folder_path_skips_nameless_entries_witness :
  Forall2 is_loose_entry
    [entry "0" "All Files"; JDict [("id", JStr "7")]; entry "5" "Reports";
     JDict [("id", JInt 9); ("name", JNull)]]
    [(JStr "0", Some "All Files"); (JStr "7", None); (JStr "5", Some "Reports");
     (JInt 9, None)] /\
  _build_folder_path
    (JDict [("entries",
             JList [entry "0" "All Files"; JDict [("id", JStr "7")];
                    entry "5" "Reports"; JDict [("id", JInt 9); ("name", JNull)]])]) =
    Ok "/Reports".
Proof.
  assert (H : Forall2 is_loose_entry
                [entry "0" "All Files"; JDict [("id", JStr "7")]; entry "5" "Reports";
                 JDict [("id", JInt 9); ("name", JNull)]]
                [(JStr "0", Some "All Files"); (JStr "7", None);
                 (JStr "5", Some "Reports"); (JInt 9, None)]).
  { repeat constructor. }
  split; [exact H|].
  exact (proj1 X15_folder_path_skips_nameless_entries
           [("entries",
             JList [entry "0" "All Files"; JDict [("id", JStr "7")];
                    entry "5" "Reports"; JDict [("id", JInt 9); ("name", JNull)]])]
           _ _ eq_refl H).
Defined.

(** X16. Edge cases of [_get_mime_type_from_name].  Only the text behind
    the last dot counts, and only through [str.lower]: two names whose
    last segments have the same lowercase form get the same type.  A name
    that ends in a dot gets ["application/"] followed by the lowercase
    form of the empty string, that is ["application/"] with an empty
    subtype.  A truthy name that is not a string (a number, [true], a
    list, an object) raises the [AttributeError] of its missing [split]
    method. *)
Theorem X16_mime_type_edge_cases (env : Env) :
  (forall base1 base2 ext1 ext2,
     has_dot ext1 = false -> has_dot ext2 = false ->
     str_lower env ext1 = str_lower env ext2 ->
     _get_mime_type_from_name env (JStr (base1 ++ "." ++ ext1)) =
       _get_mime_type_from_name env (JStr (base2 ++ "." ++ ext2))) /\
  (forall base,
     _get_mime_type_from_name env (JStr (base ++ ".")) =
       Ok (mime_of_extension (str_lower env ""))) /\
  (str_lower env "" = "" ->
   forall base, _get_mime_type_from_name env (JStr (base ++ ".")) = Ok "application/") /\
  (forall filename,
     truthy filename = true ->
     (forall s, filename <> JStr s) ->
     _get_mime_type_from_name env filename = Err (no_attribute filename "split")).
Proof.
  split; [|split; [|split]].
  - intros base1 base2 ext1 ext2 H1 H2 Hl.
    rewrite (mime_with_extension env base1 ext1 H1), (mime_with_extension env base2 ext2 H2).
    rewrite Hl. reflexivity.
  - intros base. exact (mime_with_extension env base "" eq_refl).
  - intros Hl base. pose proof (mime_with_extension env base "" eq_refl) as H.
    rewrite Hl in H. exact H.
  - intros filename Ht Hs. unfold _get_mime_type_from_name. rewrite Ht. cbn [negb].
    destruct filename; try reflexivity. exfalso. exact (Hs s eq_refl).
Qed.

Lemma X16_mime_type_edge_cases_witness :
  has_dot "GZ" = false /\ has_dot "gz" = false /\
  str_lower env_no_handler "GZ" = str_lower env_no_handler "gz" /\
  _get_mime_type_from_name env_no_handler (JStr ("backup.tar" ++ "." ++ "GZ")) =
    _get_mime_type_from_name env_no_handler (JStr ("x" ++ "." ++ "gz")) /\
  _get_mime_type_from_name env_no_handler (JInt 7) =
    Err (AttributeError "'int' object has no attribute 'split'").
Proof.
  split; [reflexivity|]. split; [reflexivity|]. split; [reflexivity|].
  split.
  - exact (proj1 (X16_mime_type_edge_cases env_no_handler) "backup.tar" "x" "GZ" "gz"
             eq_refl eq_refl eq_refl).
  - exact (proj2 (proj2 (proj2 (X16_mime_type_edge_cases env_no_handler))) (JInt 7)
             eq_refl ltac:(discriminate)).
Defined.
